(** * Filter expression compiler and group membership manager

    A shallow embedding of the TypeScript sources of the filter bar:

    - [Js]: the JavaScript values the code manipulates (the [any] typed
      filter values and the query documents it builds), with truthiness,
      property access and the string helpers the code calls;
    - [KibanaFilterUtils]: [utils/kibana-filter-utils.ts];
    - [FilterAstService]: [filter-builder/filter-ast.service.ts];
    - [KibanaFilterBar]: the inline query and preview generation of
      [kibana-filter-bar/kibana-filter-bar.component.ts];
    - [FilterGroupManager]: [FilterGroupManagerComponent];
    - [Spec]: the tree and the left fold of the written specification.

    Definitions first, theorems afterwards. *)

From Stdlib Require Import List String Ascii ZArith Bool Arith Lia.
From Stdlib Require Import DecimalString.
Import ListNotations.
Open Scope string_scope.
Set Warnings "-register-all".

(* ===================================================================== *)
(** * JavaScript values *)
(* ===================================================================== *)

Module Js.

(** A JS number, kept as an exact decimal [mantissa * 10^(-scale)] in
    normal form (no trailing zero in the fraction).  Binary rounding,
    [NaN] and the infinities are outside this model: the code only ever
    produces numbers from form input through [parseFloat] on strings that
    match [^-?\d+(\.\d+)?$]. *)
Record Num : Type := mkNum { mantissa : Z; scale : nat }.

Inductive Value : Type :=
| VUndefined
| VNull
| VBool (b : bool)
| VNum (n : Num)
| VStr (s : string)
| VArr (items : list Value)
| VObj (props : list (string * Value)).

Definition VInt (z : Z) : Value := VNum (mkNum z 0).

(** ToBoolean. *)
Definition truthy (v : Value) : bool :=
  match v with
  | VUndefined | VNull => false
  | VBool b => b
  | VNum n => negb (Z.eqb (mantissa n) 0)
  | VStr s => negb (String.eqb s "")
  | VArr _ | VObj _ => true
  end.

(** [a || b]. *)
Definition or_else (a b : Value) : Value := if truthy a then a else b.

(** [s || d] for an optional string. *)
Definition str_or (o : option string) (d : string) : string :=
  match o with
  | Some s => if String.eqb s "" then d else s
  | None => d
  end.

(** ** Objects: own properties in the order [Object.keys] lists them *)

Fixpoint lookup (k : string) (props : list (string * Value)) : option Value :=
  match props with
  | [] => None
  | (k', v) :: rest => if String.eqb k' k then Some v else lookup k rest
  end.

(** [o.k]: [undefined] when the property is missing or [o] is a primitive. *)
Definition get (o : Value) (k : string) : Value :=
  match o with
  | VObj props => match lookup k props with Some v => v | None => VUndefined end
  | _ => VUndefined
  end.

(** [Object.keys(o).length]. *)
Definition keys_length (o : Value) : nat :=
  match o with
  | VObj props => List.length props
  | VArr items => List.length items
  | VStr s => String.length s
  | _ => 0
  end.

(** ** Strings *)

(** The strings of this model are sequences of ASCII characters.  The
    white space of [trim] is then the space and the characters 9 to 13;
    the white space beyond ASCII that [trim] also strips (U+00A0, U+FEFF,
    U+2028 and the like) does not occur in them. *)
Definition isWhite (c : ascii) : bool :=
  let n := nat_of_ascii c in
  (Nat.eqb n 32) || (Nat.leb 9 n && Nat.leb n 13).

Fixpoint trimStart (s : string) : string :=
  match s with
  | String c r => if isWhite c then trimStart r else s
  | EmptyString => EmptyString
  end.

Fixpoint trimEnd (s : string) : string :=
  match s with
  | EmptyString => EmptyString
  | String c r =>
      let r' := trimEnd r in
      if isWhite c && String.eqb r' "" then EmptyString else String c r'
  end.

Definition trim (s : string) : string := trimEnd (trimStart s).

Definition endsWith (s suffix : string) : bool :=
  let n := String.length s in
  let m := String.length suffix in
  Nat.leb m n && String.eqb (substring (n - m) m s) suffix.

(** [s.includes(sub)]. *)
Fixpoint includes (s sub : string) : bool :=
  if prefix sub s then true
  else match s with
       | EmptyString => false
       | String _ r => includes r sub
       end.

Definition lowerChar (c : ascii) : ascii :=
  let n := nat_of_ascii c in
  if Nat.leb 65 n && Nat.leb n 90 then ascii_of_nat (n + 32) else c.

Fixpoint toLowerCase (s : string) : string :=
  match s with
  | EmptyString => EmptyString
  | String c r => String (lowerChar c) (toLowerCase r)
  end.

(** [s.split(sep)] for a one-character separator. *)
Fixpoint split (sep : ascii) (s : string) : list string :=
  match s with
  | EmptyString => [EmptyString]
  | String c r =>
      let parts := split sep r in
      if Ascii.eqb c sep then EmptyString :: parts
      else match parts with
           | p :: ps => String c p :: ps
           | [] => [String c EmptyString]
           end
  end.

(** [parts.join(sep)] on strings. *)
Fixpoint join (sep : string) (parts : list string) : string :=
  match parts with
  | [] => ""
  | [p] => p
  | p :: rest => p ++ sep ++ join sep rest
  end.

(** ** Numbers in strings *)

Definition isDigit (c : ascii) : bool :=
  let n := nat_of_ascii c in Nat.leb 48 n && Nat.leb n 57.

(** Longest prefix of digits, and what follows it. *)
Fixpoint spanDigits (s : string) : string * string :=
  match s with
  | String c r =>
      if isDigit c then let (d, rest) := spanDigits r in (String c d, rest)
      else (EmptyString, s)
  | EmptyString => (EmptyString, EmptyString)
  end.

Definition stripMinus (s : string) : bool * string :=
  match s with
  | String c r => if Ascii.eqb c "-" then (true, r) else (false, s)
  | EmptyString => (false, s)
  end.

(** [/^-?\d+(\.\d+)?$/.test(s)]. *)
Definition numericRegex (s : string) : bool :=
  let (_, body) := stripMinus s in
  let (ip, rest) := spanDigits body in
  negb (String.eqb ip "") &&
  match rest with
  | EmptyString => true
  | String c r =>
      Ascii.eqb c "." &&
      (let (fp, tail) := spanDigits r in
       negb (String.eqb fp "") && String.eqb tail "")
  end.

Fixpoint digitsValue (acc : Z) (s : string) : Z :=
  match s with
  | EmptyString => acc
  | String c r => digitsValue (10 * acc + Z.of_nat (nat_of_ascii c - 48)) r
  end.

(** ** Assignment to a property of a plain object *)

(** The keys that [Object.keys] and [JSON.stringify] list first, in
    ascending numeric order, before the other keys in insertion order:
    the canonical decimal form of an integer below [2^32 - 1]. *)
Definition isArrayIndex (k : string) : bool :=
  match k with
  | EmptyString => false
  | String c r =>
      forallb isDigit (list_ascii_of_string k)
      && (negb (Ascii.eqb c "0") || String.eqb r "")
      && (digitsValue 0 k <=? 4294967294)%Z
  end.

(** An existing key keeps its place; a new key goes last. *)
Fixpoint assign (k : string) (v : Value) (props : list (string * Value))
  : list (string * Value) :=
  match props with
  | [] => [(k, v)]
  | (k', v') :: rest =>
      if String.eqb k' k then (k', v) :: rest else (k', v') :: assign k v rest
  end.

(** A new integer-like key goes after the smaller integer-like keys. *)
Fixpoint place (k : string) (v : Value) (props : list (string * Value))
  : list (string * Value) :=
  match props with
  | [] => [(k, v)]
  | (k', v') :: rest =>
      if isArrayIndex k' && (digitsValue 0 k' <? digitsValue 0 k)%Z
      then (k', v') :: place k v rest
      else (k, v) :: props
  end.

(** [o[k] = v] on the own properties of an object made by [{}].  The
    key ['__proto__'] reaches the accessor of [Object.prototype], which
    makes no own property; every other key is stored, an integer-like one
    among the integer-like keys and any other one in insertion order. *)
Definition set (k : string) (v : Value) (props : list (string * Value))
  : list (string * Value) :=
  if String.eqb k "__proto__" then props
  else if isArrayIndex k then
    match lookup k props with
    | Some _ => assign k v props
    | None => place k v props
    end
  else assign k v props.

Fixpoint normalize (m : Z) (sc : nat) : Num :=
  match sc with
  | O => mkNum m 0
  | S k => if Z.eqb (m mod 10) 0 then normalize (m / 10) k else mkNum m sc
  end.

(** [parseFloat(s)] on the strings accepted by [numericRegex]; [None]
    stands for [NaN], which [parseFloat] returns on the others that do not
    start with a number.  The result is the decimal the string writes:
    it is the number JS computes when that decimal is a double, and
    differs from it by the rounding to the nearest double (or to
    [Infinity]) otherwise. *)
Definition parseFloat (s : string) : option Num :=
  if numericRegex s then
    let (neg, body) := stripMinus s in
    let (ip, rest) := spanDigits body in
    let fp := match rest with
              | String _ r => fst (spanDigits r)
              | EmptyString => EmptyString
              end in
    let m := digitsValue 0 (ip ++ fp) in
    Some (normalize (if neg then (- m)%Z else m) (String.length fp))
  else None.

Definition natToString (n : nat) : string :=
  NilZero.string_of_uint (Nat.to_uint n).

Fixpoint zeros (n : nat) : string :=
  match n with O => "" | S k => String "0" (zeros k) end.

(** Number to string, for numbers JS prints without an exponent. *)
Definition numToString (n : Num) : string :=
  let a := Z.abs (mantissa n) in
  let p := (10 ^ Z.of_nat (scale n))%Z in
  let ip := natToString (Z.to_nat (a / p)) in
  let sign := if (mantissa n <? 0)%Z then "-" else "" in
  match scale n with
  | O => sign ++ ip
  | S _ =>
      let fp := natToString (Z.to_nat (a mod p)) in
      sign ++ ip ++ "." ++ zeros (scale n - String.length fp) ++ fp
  end.

(** [String(v)], as a template literal [`${v}`] computes it.  Array
    elements that are themselves arrays or objects are rendered one level
    deep only. *)
Definition itemToString (v : Value) : string :=
  match v with
  | VUndefined | VNull => ""
  | VBool true => "true"
  | VBool false => "false"
  | VNum n => numToString n
  | VStr s => s
  | VArr _ => ""
  | VObj _ => "[object Object]"
  end.

Definition toString (v : Value) : string :=
  match v with
  | VUndefined => "undefined"
  | VNull => "null"
  | VArr items => join "," (map itemToString items)
  | _ => itemToString v
  end.

End Js.

(* ===================================================================== *)
(** * Shared data model ([filter.model.ts], the types of the utilities) *)
(* ===================================================================== *)

Module Model.
Import Js.

(** ['AND' | 'OR']. *)
Inductive LogicOp : Type := AND | OR.

Definition LogicOp_eqb (a b : LogicOp) : bool :=
  match a, b with
  | AND, AND | OR, OR => true
  | _, _ => false
  end.

Definition logicName (op : LogicOp) : string :=
  match op with AND => "AND" | OR => "OR" end.

(** [logic || 'AND']: an absent (or empty) connector reads as AND. *)
Definition logicOrAnd (o : option LogicOp) : LogicOp :=
  match o with Some op => op | None => AND end.

(** [SimpleFilter].  Optional fields that the code reads through [||]
    are options ([None] for [undefined]); [disabled] is only ever read as
    a truth value. *)
Record SimpleFilter : Type := mkSimpleFilter {
  field : string;
  operator : string;
  value : Value;
  logic : option LogicOp;
  disabled : bool;
  minValue : Value;
  maxValue : Value;
  minOperator : option string;
  maxOperator : option string
}.

(** [GroupedFilterMetadata] / [FilterGroupMetadata]. *)
Record GroupedFilterMetadata : Type := mkGroupMeta {
  groupId : option string;
  groupType : option LogicOp;
  isGroupStart : option bool;
  isGroupEnd : option bool;
  parentGroupId : option string
}.

(** [GroupedFilter extends SimpleFilter]. *)
Record GroupedFilter : Type := mkGroupedFilter {
  base : SimpleFilter;
  groupMeta : option GroupedFilterMetadata
}.

(** [FilterGroupDefinition]. *)
Record FilterGroupDefinition : Type := mkGroup {
  id : string;
  type : LogicOp;
  filterIndices : list nat;
  groupParentId : option string
}.

(** The double quote character, for the quoted preview phrases. *)
Definition dquote : string := String (ascii_of_nat 34) EmptyString.

End Model.

(* ===================================================================== *)
(** * The written specification: tree and left fold (sections 3 and 4.2) *)
(* ===================================================================== *)

Module Spec.
Import Model.

Section Tree.
Variable C : Type.

(** [Leaf{clause} | Bool{operator, children}]. *)
Inductive Node : Type :=
| Leaf (clause : C)
| Bool (op : LogicOp) (children : list Node).

(** One step of the fold of section 4.2: flatten into a node that already
    carries the connector, wrap otherwise. *)
Definition combine (result : Node) (op : LogicOp) (next : Node) : Node :=
  match result with
  | Bool op' children =>
      if LogicOp_eqb op' op then Bool op' (children ++ [next])
      else Bool op [result; next]
  | Leaf _ => Bool op [result; next]
  end.

(** The fold over the clauses after the first, each with its connector. *)
Definition foldClauses (first : C) (rest : list (LogicOp * C)) : Node :=
  fold_left (fun result oc => combine result (fst oc) (Leaf (snd oc)))
            rest (Leaf first).

(** [build]: null on no clause, the leaf on one, the fold otherwise. *)
Definition build (clauses : list (LogicOp * C)) : option Node :=
  match clauses with
  | [] => None
  | (_, first) :: rest => Some (foldClauses first rest)
  end.

End Tree.

Arguments Leaf {C} clause.
Arguments Bool {C} op children.
Arguments combine {C} result op next.
Arguments foldClauses {C} first rest.
Arguments build {C} clauses.

End Spec.

(* ===================================================================== *)
(** * [utils/kibana-filter-utils.ts] *)
(* ===================================================================== *)

Module KibanaFilterUtils.
Import Js Model.

(** [KibanaFilter.meta]; every field is optional in the source. *)
Record FilterMeta : Type := mkMeta {
  metaType : option string;
  metaField : option string;
  params : option Value;
  relation : option LogicOp;
  negate : option bool;
  metaDisabled : option bool
}.

(** [KibanaFilter]; an absent [query] is [VUndefined]. *)
Record KibanaFilter : Type := mkKibanaFilter {
  meta : FilterMeta;
  query : Value
}.

(** [FilterASTNode]: [type: 'filter'] with its optional filter, or
    [type: 'bool'] with the optional clauses of its [bool] record (a
    missing [bool] record reads like one with no clause). *)
Inductive FilterASTNode : Type :=
| FilterNode (filter : option KibanaFilter)
| BoolNode (must should must_not : option (list FilterASTNode))
           (minimum_should_match : option nat).

(** ** Step 1: one filter to its query *)

(** The [isNumeric] helper of [buildSingleFilterQuery]. *)
Definition isNumeric (val : Value) : bool :=
  match val with
  | VNum _ => true
  | VStr s => if String.eqb s "" then false else numericRegex (trim s)
  | _ => false
  end.

(** The [convertValue] helper; [isKeyword] is the flag it closes over. *)
Definition convertValue (isKeyword : bool) (val : Value) : Value :=
  if isKeyword then val
  else if isNumeric val then
    match val with
    | VStr s => match parseFloat (trim s) with
                | Some n => VNum n
                | None => val
                end
    | _ => val
    end
  else val.

(** The array an [is_one_of] / [is_not_one_of] clause matches against. *)
Definition valuesOf (value : Value) : Value :=
  match value with
  | VArr _ => value
  | VStr s => VArr (map (fun v => VStr (trim v)) (split "," s))
  | _ => VArr [value]
  end.

Definition mustNot (q : Value) : Value :=
  VObj [("bool", VObj [("must_not", VArr [q])])].

(** The object a [range] clause accumulates: the lower bound is assigned
    first. *)
Definition rangeBounds (isKeyword : bool) (filter : SimpleFilter)
  : list (string * Value) :=
  let r0 : list (string * Value) := [] in
  let r1 := if truthy (minValue filter)
            then set (str_or (minOperator filter) "gt")
                     (convertValue isKeyword (minValue filter)) r0
            else r0 in
  if truthy (maxValue filter)
  then set (str_or (maxOperator filter) "lt")
           (convertValue isKeyword (maxValue filter)) r1
  else r1.

(** [buildSingleFilterQuery]; [VNull] is the source's [null]. *)
Definition buildSingleFilterQuery (filter : SimpleFilter) : Value :=
  let f := field filter in
  let v := value filter in
  let isKeyword := endsWith f ".keyword" in
  let op := operator filter in
  if String.eqb op "is" then
    if isKeyword || isNumeric v
    then VObj [("term", VObj [(f, convertValue isKeyword v)])]
    else VObj [("match", VObj [(f, v)])]
  else if String.eqb op "is_not" then
    if isKeyword || isNumeric v
    then mustNot (VObj [("term", VObj [(f, convertValue isKeyword v)])])
    else mustNot (VObj [("match", VObj [(f, v)])])
  else if String.eqb op "is_one_of" then
    VObj [("terms", VObj [(f, valuesOf v)])]
  else if String.eqb op "is_not_one_of" then
    mustNot (VObj [("terms", VObj [(f, valuesOf v)])])
  else if String.eqb op "exists" then
    VObj [("exists", VObj [("field", VStr f)])]
  else if String.eqb op "does_not_exist" then
    mustNot (VObj [("exists", VObj [("field", VStr f)])])
  else if String.eqb op "range" then
    match rangeBounds isKeyword filter with
    | [] => VNull
    | bounds => VObj [("range", VObj [(f, VObj bounds)])]
    end
  else if String.eqb op "prefix" then
    if negb (truthy v) then VNull
    else if isKeyword then VObj [("prefix", VObj [(f, v)])]
    else VObj [("wildcard",
                VObj [(f, VObj [("value", VStr (toString v ++ "*"));
                                ("case_insensitive", VBool true)])])]
  else if String.eqb op "wildcard" then
    if negb (truthy v) then VNull
    else VObj [("wildcard",
                VObj [(f, VObj [("value", v);
                                ("case_insensitive", VBool true)])])]
  else if String.eqb op "query_string" then
    if negb (truthy v) then VNull
    else VObj [("query_string",
                VObj [("default_field", VStr f); ("query", v)])]
  else VNull.

Definition isNegatedOperator (op : string) : bool :=
  String.eqb op "is_not" || String.eqb op "does_not_exist"
  || String.eqb op "is_not_one_of".

Definition toKibanaFilter (simpleFilter : SimpleFilter) : KibanaFilter :=
  {| meta := {| metaType := Some "phrase";
                metaField := Some (field simpleFilter);
                params := Some (VObj [("query", value simpleFilter)]);
                relation := None;
                negate := Some (isNegatedOperator (operator simpleFilter));
                metaDisabled := Some (disabled simpleFilter) |};
     query := buildSingleFilterQuery simpleFilter |}.

(** ** Step 3: the tree to a query document *)

Definition match_all : Value := VObj [("match_all", VObj [])].

Definition isEmptyQuery (q : Value) : bool :=
  negb (truthy q)
  || (truthy (get q "match_all") && Nat.eqb (keys_length q) 1).

(** The predicate of [.filter(q => q && !isEmptyQuery(q))]. *)
Definition keep (q : Value) : bool := truthy q && negb (isEmptyQuery q).

(** [minimum_should_match || 1]. *)
Definition msmOr1 (o : option nat) : Value :=
  match o with
  | Some (S n) => VInt (Z.of_nat (S n))
  | _ => VInt 1
  end.

Definition nonEmpty {A : Type} (l : list A) : bool :=
  match l with [] => false | _ => true end.

Fixpoint astToEsQueryNode (ast : FilterASTNode) : Value :=
  match ast with
  | FilterNode None => match_all
  | FilterNode (Some f) =>
      let q := or_else (query f) match_all in
      match negate (meta f) with
      | Some true => mustNot q
      | _ => q
      end
  | BoolNode must should must_not msm =>
      let c0 : list (string * Value) := [] in
      let c1 :=
        match must with
        | Some children =>
            let mustQueries := filter keep (map astToEsQueryNode children) in
            if nonEmpty mustQueries then set "must" (VArr mustQueries) c0
            else c0
        | None => c0
        end in
      let c2 :=
        match should with
        | Some children =>
            let shouldQueries := filter keep (map astToEsQueryNode children) in
            if nonEmpty shouldQueries
            then set "minimum_should_match" (msmOr1 msm)
                     (set "should" (VArr shouldQueries) c1)
            else c1
        | None => c1
        end in
      let c3 :=
        match must_not with
        | Some children =>
            let mustNotQueries :=
              filter keep (map astToEsQueryNode children) in
            if nonEmpty mustNotQueries
            then set "must_not" (VArr mustNotQueries) c2
            else c2
        | None => c2
        end in
      match c3 with
      | [] => match_all
      | boolClause => VObj [("bool", VObj boolClause)]
      end
  end.

(** [astToEsQuery(ast: FilterASTNode | null)]. *)
Definition astToEsQuery (ast : option FilterASTNode) : Value :=
  match ast with
  | None => match_all
  | Some node => astToEsQueryNode node
  end.

(** ** Step 4: the tree builder that tracks the connectors *)

Definition leaf (f : KibanaFilter) : FilterASTNode := FilterNode (Some f).

Definition mkMust (children : list FilterASTNode) : FilterASTNode :=
  BoolNode (Some children) None None None.

Definition mkShould (children : list FilterASTNode) : FilterASTNode :=
  BoolNode None (Some children) None (Some 1).

Definition optLogic_eqb (a b : option LogicOp) : bool :=
  match a, b with
  | Some x, Some y => LogicOp_eqb x y
  | None, None => true
  | _, _ => false
  end.

(** The body of the [for] loop of [buildASTLeftAssociative] at index [i],
    with [f = filters[i]].  [operators[i - 1]] is an option because the
    source indexes the array without checking its length. *)
Definition leftAssociativeStep (operators : list LogicOp) (i : nat)
  (f : KibanaFilter) (result : FilterASTNode) : FilterASTNode :=
  let operator := nth_error operators (i - 1) in
  let nextFilter := leaf f in
  let prevOperator :=
    if Nat.ltb 1 i then nth_error operators (i - 2) else None in
  let operatorChanged :=
    match prevOperator with
    | Some _ => negb (optLogic_eqb prevOperator operator)
    | None => false
    end in
  match operator with
  | Some OR =>
      if operatorChanged then mkShould [result; nextFilter]
      else match result with
           | BoolNode mu (Some sh) mn msm =>
               BoolNode mu (Some (sh ++ [nextFilter])%list) mn msm
           | _ => mkShould [result; nextFilter]
           end
  | _ =>
      if operatorChanged then mkMust [result; nextFilter]
      else match result with
           | BoolNode (Some mu) sh mn msm =>
               BoolNode (Some (mu ++ [nextFilter])%list) sh mn msm
           | _ => mkMust [result; nextFilter]
           end
  end.

(** The loop itself; [todo] is [filters[i..]].  The in-place [push] of
    the source acts on a node no other value refers to, so it is an
    update of [result]. *)
Fixpoint leftAssociativeLoop (operators : list LogicOp) (i : nat)
  (todo : list KibanaFilter) (result : FilterASTNode) : FilterASTNode :=
  match todo with
  | [] => result
  | f :: todo' =>
      leftAssociativeLoop operators (S i) todo'
        (leftAssociativeStep operators i f result)
  end.

Definition buildASTLeftAssociative (filters : list KibanaFilter)
  (operators : list LogicOp) : option FilterASTNode :=
  match filters with
  | [] => None
  | [f] => Some (leaf f)
  | f :: rest => Some (leftAssociativeLoop operators 1 rest (leaf f))
  end.

Definition enabled (f : SimpleFilter) : bool := negb (disabled f).

Definition buildFilterASTWithOperators (filters : list SimpleFilter)
  : option FilterASTNode :=
  match filters with
  | [] => None
  | _ =>
      let enabledFilters := filter enabled filters in
      match enabledFilters with
      | [] => None
      | _ =>
          let kibanaFilters := map toKibanaFilter enabledFilters in
          let operators :=
            map (fun f => logicOrAnd (logic f)) (tl enabledFilters) in
          buildASTLeftAssociative kibanaFilters operators
      end
  end.

(** ** Step 6: [buildEsQueryFromFilters] *)

Definition wrapQuery (q : Value) : Value := VObj [("query", q)].

Definition buildEsQueryFromFilters (filters : list SimpleFilter) : Value :=
  match filters with
  | [] => wrapQuery match_all
  | _ =>
      match buildFilterASTWithOperators filters with
      | None => wrapQuery match_all
      | Some ast => wrapQuery (astToEsQuery (Some ast))
      end
  end.

(** ** Step 5: the preview string *)

(** [map[op] || op] over the four entries of [map].  The lookup also
    finds the members a plain object inherits ([constructor], [toString]
    and the like), which are functions and have no place in a string:
    this definition is the function on the other names. *)
Definition getRangeOperatorSymbol (op : string) : string :=
  if String.eqb op "gt" then ">"
  else if String.eqb op "gte" then ">="
  else if String.eqb op "lt" then "<"
  else if String.eqb op "lte" then "<="
  else op.

Definition formatFilterText (filter : SimpleFilter) : string :=
  let f := field filter in
  let v := value filter in
  let op := operator filter in
  let isNegated := isNegatedOperator op in
  let quoted (kind : string) :=
    f ++ ": " ++ kind ++ " " ++ dquote
      ++ toString (or_else v (VStr "-")) ++ dquote in
  let filterText :=
    if String.eqb op "exists" then f ++ ": exists"
    else if String.eqb op "does_not_exist" then f ++ ": exists"
    else if String.eqb op "range" then
      let minPart :=
        if truthy (minValue filter)
        then [getRangeOperatorSymbol (str_or (minOperator filter) "gt")
                ++ " " ++ toString (minValue filter)]
        else [] in
      let maxPart :=
        if truthy (maxValue filter)
        then [getRangeOperatorSymbol (str_or (maxOperator filter) "lt")
                ++ " " ++ toString (maxValue filter)]
        else [] in
      match (minPart ++ maxPart)%list with
      | [] => f ++ ": -"
      | rangeParts => f ++ ": " ++ join " and " rangeParts
      end
    else if String.eqb op "prefix" then quoted "prefix"
    else if String.eqb op "wildcard" then quoted "wildcard"
    else if String.eqb op "query_string" then quoted "query_string"
    else f ++ ": " ++ toString (or_else v (VStr "-")) in
  if isNegated then "NOT " ++ filterText else filterText.

(** The entries of the [expressions] array. *)
Record PreviewExpr : Type := mkExpr {
  text : string;
  exprOperator : option LogicOp
}.

(** [`${op}`] for a connector that may be [null] or [undefined]. *)
Definition optLogicName (missing : string) (o : option LogicOp) : string :=
  match o with Some op => logicName op | None => missing end.

(** The loop of the mixed-connector branch of [buildPreviewWithGrouping]
    at index [i]; [todo] is [expressions[i..]]. *)
Fixpoint previewLoop (operators : list LogicOp) (i : nat)
  (todo : list PreviewExpr) (result : string) : string :=
  match todo with
  | [] => result
  | e :: todo' =>
      let operator := nth_error operators (i - 1) in
      let prevOperator :=
        if Nat.ltb 1 i then nth_error operators (i - 2) else None in
      let needsParens :=
        match prevOperator with
        | Some _ => negb (optLogic_eqb prevOperator operator)
        | None => false
        end in
      let opText := optLogicName "undefined" operator in
      previewLoop operators (S i) todo'
        (if needsParens
         then "(" ++ result ++ ") " ++ opText ++ " " ++ text e
         else result ++ " " ++ opText ++ " " ++ text e)
  end.

Definition buildPreviewWithGrouping (expressions : list PreviewExpr)
  : string :=
  match expressions with
  | [] => ""
  | [e] => text e
  | e0 :: rest =>
      let operators := map (fun e => logicOrAnd (exprOperator e)) rest in
      let allSame :=
        forallb (fun op => optLogic_eqb (Some op) (hd_error operators))
                operators in
      if allSame then
        join " "
          (text e0
           :: map (fun e => optLogicName "null" (exprOperator e)
                              ++ " " ++ text e) rest)
      else previewLoop operators 1 rest (text e0)
  end.

Definition buildPreviewString (filters : list SimpleFilter) : string :=
  match filter enabled filters with
  | [] => ""
  | f0 :: rest =>
      buildPreviewWithGrouping
        (mkExpr (formatFilterText f0) None
         :: map (fun f => mkExpr (formatFilterText f)
                                 (Some (logicOrAnd (logic f)))) rest)
  end.

(** ** The group-aware builder *)

(** A call either returns or stops on the [TypeError] of reading a
    property of [undefined] (an array read past its end). *)
Inductive Outcome (A : Type) : Type :=
| Returns (a : A)
| Throws.

Arguments Returns {A} a.
Arguments Throws {A}.

Definition bind {A B : Type} (m : Outcome A) (k : A -> Outcome B)
  : Outcome B :=
  match m with
  | Returns a => k a
  | Throws => Throws
  end.

Notation "x <- m ;; k" := (bind m (fun x => k))
  (at level 61, m at next level, right associativity).

(** [GroupAwareASTNode]. *)
Inductive GroupAwareASTNode : Type :=
| GFilterNode (filter : option KibanaFilter)
| GBoolNode (must should must_not : option (list GroupAwareASTNode))
            (minimum_should_match : option nat)
| GGroupNode (gid : string) (gtype : LogicOp)
             (children : list GroupAwareASTNode).

Definition gleaf (f : KibanaFilter) : GroupAwareASTNode :=
  GFilterNode (Some f).

Definition gMust (children : list GroupAwareASTNode) : GroupAwareASTNode :=
  GBoolNode (Some children) None None None.

Definition gShould (children : list GroupAwareASTNode) : GroupAwareASTNode :=
  GBoolNode None (Some children) None (Some 1).

(** [toKibanaFilter(filters[idx])]: reading the fields of a missing
    element throws. *)
Definition kibanaAt (filters : list GroupedFilter) (idx : nat)
  : Outcome KibanaFilter :=
  match nth_error filters idx with
  | Some f => Returns (toKibanaFilter (base f))
  | None => Throws
  end.

(** [filters[idx].logic || 'AND']. *)
Definition logicAt (filters : list GroupedFilter) (idx : nat)
  : Outcome LogicOp :=
  match nth_error filters idx with
  | Some f => Returns (logicOrAnd (logic (base f)))
  | None => Throws
  end.

(** The body of the loop of [buildFlatAST] for [filters[i]]. *)
Definition flatStep (operator : LogicOp) (nextFilter result : GroupAwareASTNode)
  : GroupAwareASTNode :=
  match operator with
  | OR =>
      match result with
      | GBoolNode mu (Some sh) mn msm =>
          GBoolNode mu (Some (sh ++ [nextFilter])%list) mn msm
      | _ => gShould [result; nextFilter]
      end
  | AND =>
      match result with
      | GBoolNode (Some mu) sh mn msm =>
          GBoolNode (Some (mu ++ [nextFilter])%list) sh mn msm
      | _ => gMust [result; nextFilter]
      end
  end.

(** [for (i = startIdx + 1; i <= endIdx; i++)], with [count] iterations
    left. *)
Fixpoint flatLoop (filters : list GroupedFilter) (count i : nat)
  (result : GroupAwareASTNode) : Outcome GroupAwareASTNode :=
  match count with
  | O => Returns result
  | S count' =>
      operator <- logicAt filters i ;;
      k <- kibanaAt filters i ;;
      flatLoop filters count' (S i) (flatStep operator (gleaf k) result)
  end.

Definition buildFlatAST (filters : list GroupedFilter)
  (startIdx endIdx : nat) : Outcome GroupAwareASTNode :=
  k <- kibanaAt filters startIdx ;;
  flatLoop filters (endIdx - startIdx) (S startIdx) (gleaf k).

(** [Math.min(...indices)]; [None] is [Infinity]. *)
Definition minIdx (indices : list nat) : option nat :=
  match indices with
  | [] => None
  | i :: rest => Some (fold_left Nat.min rest i)
  end.

(** [Math.max(...indices)]; [None] is [-Infinity]. *)
Definition maxIdx (indices : list nat) : option nat :=
  match indices with
  | [] => None
  | i :: rest => Some (fold_left Nat.max rest i)
  end.

(** [a <= b] where [None] is [Infinity]. *)
Definition leInf (a b : option nat) : bool :=
  match a, b with
  | _, None => true
  | None, Some _ => false
  | Some x, Some y => Nat.leb x y
  end.

Definition groupStart (g : FilterGroupDefinition) : option nat :=
  minIdx (filterIndices g).

(** The stable sort of the groups by their start. *)
Fixpoint insertGroup (g : FilterGroupDefinition)
  (sorted : list FilterGroupDefinition) : list FilterGroupDefinition :=
  match sorted with
  | [] => [g]
  | h :: rest =>
      if leInf (groupStart h) (groupStart g) then h :: insertGroup g rest
      else g :: sorted
  end.

Definition sortGroups (groups : list FilterGroupDefinition)
  : list FilterGroupDefinition :=
  fold_left (fun sorted g => insertGroup g sorted) groups [].

Inductive SegmentType : Type := SegGroup | SegFilter.

(** The entries of the [segments] array. *)
Record Segment : Type := mkSegment {
  segType : SegmentType;
  segGroup : option FilterGroupDefinition;
  startIdx : nat;
  endIdx : nat
}.

Definition startsAt (currentIdx : nat) (g : FilterGroupDefinition) : bool :=
  match groupStart g with
  | Some s => Nat.eqb s currentIdx
  | None => false
  end.

(** The smallest group start after [currentIdx], when it is a number:
    [undefined] and [Infinity] both leave the segment running to
    [endIdx]. *)
Definition nextGroupStart (sortedGroups : list FilterGroupDefinition)
  (currentIdx : nat) : option nat :=
  let starts :=
    flat_map (fun g => match groupStart g with
                       | Some s => if Nat.ltb currentIdx s then [s] else []
                       | None => []
                       end) sortedGroups in
  minIdx starts.

(** The [while (currentIdx <= endIdx)] loop.  Every iteration moves
    [currentIdx] forward, so [S endIdx - currentIdx] iterations are
    enough; [fuel] counts them. *)
Fixpoint segmentsLoop (fuel : nat) (sortedGroups : list FilterGroupDefinition)
  (lastIdx currentIdx : nat) : list Segment :=
  match fuel with
  | O => []
  | S fuel' =>
      if Nat.leb currentIdx lastIdx then
        match find (startsAt currentIdx) sortedGroups with
        | Some group =>
            let groupEnd := list_max (filterIndices group) in
            mkSegment SegGroup (Some group) currentIdx groupEnd
            :: segmentsLoop fuel' sortedGroups lastIdx (groupEnd + 1)
        | None =>
            let segmentEnd :=
              match nextGroupStart sortedGroups currentIdx with
              | Some next => Nat.min (next - 1) lastIdx
              | None => lastIdx
              end in
            mkSegment SegFilter None currentIdx segmentEnd
            :: segmentsLoop fuel' sortedGroups lastIdx (segmentEnd + 1)
        end
      else []
  end.

Definition emptyFilter : KibanaFilter :=
  {| meta := mkMeta None None None None None None; query := VUndefined |}.

Definition buildGroupNode (filters : list GroupedFilter)
  (group : FilterGroupDefinition) : Outcome GroupAwareASTNode :=
  let survivors :=
    filter (fun idx => Nat.ltb idx (List.length filters))
           (filterIndices group) in
  let groupFilters :=
    flat_map (fun idx => match nth_error filters idx with
                         | Some f => [gleaf (toKibanaFilter (base f))]
                         | None => []
                         end) survivors in
  Returns
    match groupFilters with
    | [] => GFilterNode (Some emptyFilter)
    | [only] => only
    | _ => match type group with
           | OR => gShould groupFilters
           | AND => gMust groupFilters
           end
    end.

(** The subtree of one segment. *)
Definition segmentNode (filters : list GroupedFilter) (seg : Segment)
  : Outcome GroupAwareASTNode :=
  match segType seg, segGroup seg with
  | SegGroup, Some group => buildGroupNode filters group
  | _, _ => buildFlatAST filters (startIdx seg) (endIdx seg)
  end.

(** The loop that combines the segments after the first. *)
Fixpoint combineSegments (filters : list GroupedFilter)
  (todo : list Segment) (result : GroupAwareASTNode)
  : Outcome GroupAwareASTNode :=
  match todo with
  | [] => Returns result
  | seg :: todo' =>
      operator <- logicAt filters (startIdx seg) ;;
      nextNode <- segmentNode filters seg ;;
      combineSegments filters todo'
        match operator with
        | OR => gShould [result; nextNode]
        | AND => gMust [result; nextNode]
        end
  end.

Definition buildASTWithGroups (filters : list GroupedFilter)
  (groups : list FilterGroupDefinition) (firstIdx lastIdx : nat)
  : Outcome GroupAwareASTNode :=
  let sortedGroups := sortGroups groups in
  let segments :=
    segmentsLoop (S lastIdx - firstIdx) sortedGroups lastIdx firstIdx in
  match segments with
  | [] => Throws
  | [seg] => segmentNode filters seg
  | seg0 :: rest =>
      result <- segmentNode filters seg0 ;;
      combineSegments filters rest result
  end.

(** [groupStart >= startIdx && groupEnd <= endIdx] with the infinities of
    an empty index list. *)
Definition inRange (firstIdx lastIdx : nat) (g : FilterGroupDefinition)
  : bool :=
  leInf (Some firstIdx) (minIdx (filterIndices g))
  && match maxIdx (filterIndices g) with
     | Some e => Nat.leb e lastIdx
     | None => true
     end.

Definition buildGroupedASTRecursive (filters : list GroupedFilter)
  (groups : list FilterGroupDefinition) (firstIdx lastIdx : nat)
  : Outcome (option GroupAwareASTNode) :=
  if Nat.ltb lastIdx firstIdx then Returns None
  else if Nat.eqb firstIdx lastIdx then
    k <- kibanaAt filters firstIdx ;; Returns (Some (gleaf k))
  else
    match filter (inRange firstIdx lastIdx) groups with
    | [] =>
        t <- buildFlatAST filters firstIdx lastIdx ;; Returns (Some t)
    | groupsInRange =>
        t <- buildASTWithGroups filters groupsInRange firstIdx lastIdx ;;
        Returns (Some t)
    end.

Definition buildGroupedAST (filters : list GroupedFilter)
  (groups : list FilterGroupDefinition)
  : Outcome (option GroupAwareASTNode) :=
  match filter (fun f => enabled (base f)) filters with
  | [] => Returns None
  | [f] => Returns (Some (gleaf (toKibanaFilter (base f))))
  | enabledFilters =>
      buildGroupedASTRecursive enabledFilters groups 0
        (List.length enabledFilters - 1)
  end.


(** ** The first tree builder, which does not read the connectors *)

(** [getFilterOperator]: AND at every index. *)
Definition getFilterOperator (filters : list KibanaFilter) (index : nat)
  : LogicOp :=
  if Nat.eqb index 0 then AND else AND.

(** The loop of [buildASTRecursive] from index [i]; [todo] is
    [filters[i..]]. *)
Fixpoint buildASTRecursiveLoop (filters : list KibanaFilter) (i : nat)
  (todo : list KibanaFilter) (currentNode : FilterASTNode) : FilterASTNode :=
  match todo with
  | [] => currentNode
  | nextFilter :: todo' =>
      buildASTRecursiveLoop filters (S i) todo'
        match getFilterOperator filters i with
        | OR => mkShould [currentNode; leaf nextFilter]
        | AND => mkMust [currentNode; leaf nextFilter]
        end
  end.

Definition buildASTRecursive (filters : list KibanaFilter) (startIndex : nat)
  : option FilterASTNode :=
  match skipn startIndex filters with
  | [] => None
  | [f] => Some (leaf f)
  | f :: rest =>
      Some (buildASTRecursiveLoop filters (S startIndex) rest (leaf f))
  end.

Definition buildFilterAST (filters : list SimpleFilter)
  : option FilterASTNode :=
  match filter enabled filters with
  | [] => None
  | enabledFilters => buildASTRecursive (map toKibanaFilter enabledFilters) 0
  end.

(** ** [groupedAstToEsQuery] *)

(** A node of type ['group'] always carries its [group] record here; the
    children of a group are filtered by [!isEmptyQuery(q)] alone. *)
Fixpoint groupedAstToEsQueryNode (ast : GroupAwareASTNode) : Value :=
  match ast with
  | GFilterNode None => match_all
  | GFilterNode (Some f) =>
      let q := or_else (query f) match_all in
      match negate (meta f) with
      | Some true => mustNot q
      | _ => q
      end
  | GBoolNode must should must_not msm =>
      let c0 : list (string * Value) := [] in
      let c1 :=
        match must with
        | Some children =>
            let mustQueries :=
              filter keep (map groupedAstToEsQueryNode children) in
            if nonEmpty mustQueries then set "must" (VArr mustQueries) c0
            else c0
        | None => c0
        end in
      let c2 :=
        match should with
        | Some children =>
            let shouldQueries :=
              filter keep (map groupedAstToEsQueryNode children) in
            if nonEmpty shouldQueries
            then set "minimum_should_match" (msmOr1 msm)
                     (set "should" (VArr shouldQueries) c1)
            else c1
        | None => c1
        end in
      let c3 :=
        match must_not with
        | Some children =>
            let mustNotQueries :=
              filter keep (map groupedAstToEsQueryNode children) in
            if nonEmpty mustNotQueries
            then set "must_not" (VArr mustNotQueries) c2
            else c2
        | None => c2
        end in
      match c3 with
      | [] => match_all
      | boolClause => VObj [("bool", VObj boolClause)]
      end
  | GGroupNode _ gtype children =>
      let queries :=
        filter (fun q => negb (isEmptyQuery q))
               (map groupedAstToEsQueryNode children) in
      match queries with
      | [] => match_all
      | [only] => only
      | _ =>
          match gtype with
          | OR => VObj [("bool",
                         VObj [("should", VArr queries);
                               ("minimum_should_match", VInt 1)])]
          | AND => VObj [("bool", VObj [("must", VArr queries)])]
          end
      end
  end.

Definition groupedAstToEsQuery (ast : option GroupAwareASTNode) : Value :=
  match ast with
  | None => match_all
  | Some node => groupedAstToEsQueryNode node
  end.

(** [buildEsQueryFromGroupedFilters]. *)
Definition buildEsQueryFromGroupedFilters (filters : list GroupedFilter)
  (groups : list FilterGroupDefinition) : Outcome Value :=
  match filters with
  | [] => Returns (wrapQuery match_all)
  | _ =>
      ast <- buildGroupedAST filters groups ;;
      match ast with
      | None => Returns (wrapQuery match_all)
      | Some node => Returns (wrapQuery (groupedAstToEsQuery (Some node)))
      end
  end.

End KibanaFilterUtils.

(* ===================================================================== *)
(** * [filter-builder/filter-ast.service.ts] *)
(* ===================================================================== *)

Module FilterAstService.
Import Js Model.

(** [FilterClause] of [filter-builder.model.ts]. *)
Record FilterClause : Type := mkClause {
  clauseId : string;
  clauseField : string;
  clauseOperator : string;
  clauseValue : Value;
  clauseValues : option (list Value);
  clauseMin : Value;
  clauseMax : Value;
  clauseMinOperator : option string;
  clauseMaxOperator : option string
}.

(** [FilterASTNode = ClauseNode | GroupNode]. *)
Inductive FilterASTNode : Type :=
| ClauseNode (nodeId : string) (clause : FilterClause)
| GroupNode (nodeId : string) (operator : LogicOp)
            (children : list FilterASTNode).

(** [FilterRow]. *)
Record FilterRow : Type := mkRow {
  rowId : string;
  rowClause : FilterClause;
  logicOperator : option LogicOp;
  level : nat;
  rowParentGroupId : option string
}.

Section Ids.

(** [generateId()] reads the clock and a random number: [generateId n]
    is what its [n]-th call returns, and the builders thread the count
    of calls made so far. *)
Variable generateId : nat -> string.

Definition createClauseNode (clause : FilterClause) : FilterASTNode :=
  ClauseNode (clauseId clause) clause.

Definition createGroupNode (operator : LogicOp)
  (children : list FilterASTNode) (calls : nat) : FilterASTNode * nat :=
  (GroupNode (generateId calls) operator children, S calls).

Definition combineNodes (left right : FilterASTNode) (operator : LogicOp)
  (calls : nat) : FilterASTNode * nat :=
  match left with
  | GroupNode nid op children =>
      if LogicOp_eqb op operator
      then (GroupNode nid op (children ++ [right]), calls)
      else createGroupNode operator [left; right] calls
  | ClauseNode _ _ => createGroupNode operator [left; right] calls
  end.

(** The loop of [buildAST] over [rows[1..]]. *)
Fixpoint buildASTLoop (todo : list FilterRow) (result : FilterASTNode)
  (calls : nat) : FilterASTNode * nat :=
  match todo with
  | [] => (result, calls)
  | row :: todo' =>
      let operator := logicOrAnd (logicOperator row) in
      let nextNode := createClauseNode (rowClause row) in
      let (result', calls') := combineNodes result nextNode operator calls in
      buildASTLoop todo' result' calls'
  end.

Definition buildAST (rows : list FilterRow) (calls : nat)
  : option FilterASTNode * nat :=
  match rows with
  | [] => (None, calls)
  | [row] => (Some (createClauseNode (rowClause row)), calls)
  | row :: rest =>
      let (result, calls') :=
        buildASTLoop rest (createClauseNode (rowClause row)) calls in
      (Some result, calls')
  end.

(** [addClause(ast, clause, operator)]; the optional [position] is not
    read. *)
Definition addClause (ast : option FilterASTNode) (clause : FilterClause)
  (operator : LogicOp) (calls : nat) : FilterASTNode * nat :=
  let newNode := createClauseNode clause in
  match ast with
  | None => (newNode, calls)
  | Some node => combineNodes node newNode operator calls
  end.

End Ids.

(** ** Query DSL generation *)

(** The service's private [isNumeric], [convertValue] and [isEmptyQuery]
    have the bodies of the utilities' helpers of the same names. *)
Definition isNumeric := KibanaFilterUtils.isNumeric.
Definition convertValue (val : Value) (isKeyword : bool) : Value :=
  KibanaFilterUtils.convertValue isKeyword val.
Definition isEmptyQuery := KibanaFilterUtils.isEmptyQuery.
Definition match_all := KibanaFilterUtils.match_all.
Definition mustNot := KibanaFilterUtils.mustNot.

(** [values || (value ? [value] : [])]. *)
Definition clauseValueList (clause : FilterClause) : Value :=
  match clauseValues clause with
  | Some vs => VArr vs
  | None => if truthy (clauseValue clause) then VArr [clauseValue clause]
            else VArr []
  end.

(** [v !== undefined && v !== '']. *)
Definition supplied (v : Value) : bool :=
  match v with
  | VUndefined => false
  | VStr s => negb (String.eqb s "")
  | _ => true
  end.

Definition clauseRangeBounds (isKeyword : bool) (clause : FilterClause)
  : list (string * Value) :=
  let r0 : list (string * Value) := [] in
  let r1 := if supplied (clauseMin clause)
            then set (str_or (clauseMinOperator clause) "gte")
                     (convertValue (clauseMin clause) isKeyword) r0
            else r0 in
  if supplied (clauseMax clause)
  then set (str_or (clauseMaxOperator clause) "lte")
           (convertValue (clauseMax clause) isKeyword) r1
  else r1.

Definition clauseToQueryDSL (clause : FilterClause) : Value :=
  let f := clauseField clause in
  let v := clauseValue clause in
  let op := clauseOperator clause in
  if String.eqb f "" then match_all
  else
    let isKeyword := endsWith f ".keyword" in
    if String.eqb op "is" then
      if isKeyword || isNumeric v
      then VObj [("term", VObj [(f, convertValue v isKeyword)])]
      else VObj [("match", VObj [(f, v)])]
    else if String.eqb op "is_not" then
      if isKeyword || isNumeric v
      then mustNot (VObj [("term", VObj [(f, convertValue v isKeyword)])])
      else mustNot (VObj [("match", VObj [(f, v)])])
    else if String.eqb op "is_one_of" then
      VObj [("terms", VObj [(f, clauseValueList clause)])]
    else if String.eqb op "is_not_one_of" then
      mustNot (VObj [("terms", VObj [(f, clauseValueList clause)])])
    else if String.eqb op "exists" then
      VObj [("exists", VObj [("field", VStr f)])]
    else if String.eqb op "does_not_exist" then
      mustNot (VObj [("exists", VObj [("field", VStr f)])])
    else if String.eqb op "range" then
      match clauseRangeBounds isKeyword clause with
      | [] => match_all
      | bounds => VObj [("range", VObj [(f, VObj bounds)])]
      end
    else if String.eqb op "prefix" then
      if isKeyword then VObj [("prefix", VObj [(f, v)])]
      else VObj [("wildcard",
                  VObj [(f, VObj [("value", VStr (toString v ++ "*"));
                                  ("case_insensitive", VBool true)])])]
    else if String.eqb op "wildcard" then
      VObj [("wildcard",
             VObj [(f, VObj [("value", v);
                             ("case_insensitive", VBool true)])])]
    else if String.eqb op "query_string" then
      VObj [("query_string",
             VObj [("default_field", VStr f); ("query", v)])]
    else match_all.

Definition keep (q : Value) : bool := truthy q && negb (isEmptyQuery q).

Fixpoint toQueryDSLRecursive (node : FilterASTNode) : Value :=
  match node with
  | ClauseNode _ clause => clauseToQueryDSL clause
  | GroupNode _ operator children =>
      let childrenQueries :=
        filter keep (map toQueryDSLRecursive children) in
      match childrenQueries with
      | [] => match_all
      | [only] => only
      | _ =>
          match operator with
          | OR => VObj [("bool",
                         VObj [("should", VArr childrenQueries);
                               ("minimum_should_match", VInt 1)])]
          | AND => VObj [("bool", VObj [("must", VArr childrenQueries)])]
          end
      end
  end.

Definition toQueryDSL (ast : option FilterASTNode) : Value :=
  match ast with
  | None => match_all
  | Some node => toQueryDSLRecursive node
  end.

(** ** Tree manipulation and traversal *)

Definition nodeIdOf (node : FilterASTNode) : string :=
  match node with
  | ClauseNode nid _ => nid
  | GroupNode nid _ _ => nid
  end.

(** [removeClause(ast, clauseId)] on a non-null tree. *)
Fixpoint removeClauseNode (ast : FilterASTNode) (cid : string)
  : option FilterASTNode :=
  match ast with
  | ClauseNode _ clause =>
      if String.eqb (clauseId clause) cid then None else Some ast
  | GroupNode nid operator children =>
      let filteredChildren :=
        flat_map (fun child => match removeClauseNode child cid with
                               | Some kept => [kept]
                               | None => []
                               end) children in
      match filteredChildren with
      | [] => None
      | [only] => Some only
      | _ => Some (GroupNode nid operator filteredChildren)
      end
  end.

Definition removeClause (ast : option FilterASTNode) (cid : string)
  : option FilterASTNode :=
  match ast with
  | None => None
  | Some node => removeClauseNode node cid
  end.

(** [flattenAST]: the node, then its descendants depth-first. *)
Fixpoint flattenNode (ast : FilterASTNode) : list FilterASTNode :=
  match ast with
  | ClauseNode _ _ => [ast]
  | GroupNode _ _ children => ast :: flat_map flattenNode children
  end.

Definition flattenAST (ast : option FilterASTNode) : list FilterASTNode :=
  match ast with
  | None => []
  | Some node => flattenNode node
  end.

(** [findNode(ast, id)] on a non-null tree. *)
Fixpoint findNodeIn (ast : FilterASTNode) (nid : string)
  : option FilterASTNode :=
  if String.eqb (nodeIdOf ast) nid then Some ast
  else
    match ast with
    | ClauseNode _ _ => None
    | GroupNode _ _ children =>
        (fix firstFound (todo : list FilterASTNode) : option FilterASTNode :=
           match todo with
           | [] => None
           | child :: todo' =>
               match findNodeIn child nid with
               | Some found => Some found
               | None => firstFound todo'
               end
           end) children
    end.

Definition findNode (ast : option FilterASTNode) (nid : string)
  : option FilterASTNode :=
  match ast with
  | None => None
  | Some node => findNodeIn node nid
  end.

(** The [traverse] closure of [getAllClauses]. *)
Fixpoint traverse (node : FilterASTNode) : list FilterClause :=
  match node with
  | ClauseNode _ clause => [clause]
  | GroupNode _ _ children => flat_map traverse children
  end.

Definition getAllClauses (ast : option FilterASTNode) : list FilterClause :=
  match ast with
  | None => []
  | Some node => traverse node
  end.

(** ** Preview generation *)

(** [values?.join(', ') || value], as the template literal prints it. *)
Definition valuesOrValue (clause : FilterClause) : string :=
  let joined := match clauseValues clause with
                | Some vs => Some (join ", " (map itemToString vs))
                | None => None
                end in
  match joined with
  | Some s => if String.eqb s "" then toString (clauseValue clause) else s
  | None => toString (clauseValue clause)
  end.

Definition formatClause (clause : FilterClause) : string :=
  let f := clauseField clause in
  let op := clauseOperator clause in
  let v := toString (clauseValue clause) in
  if String.eqb f "" then "..."
  else if String.eqb op "exists" then f ++ " exists"
  else if String.eqb op "does_not_exist" then f ++ " does not exist"
  else if String.eqb op "is_one_of"
  then f ++ " is one of [" ++ valuesOrValue clause ++ "]"
  else if String.eqb op "is_not_one_of"
  then f ++ " is not one of [" ++ valuesOrValue clause ++ "]"
  else if String.eqb op "range" then
    let minPart := if truthy (clauseMin clause)
                   then [">= " ++ toString (clauseMin clause)] else [] in
    let maxPart := if truthy (clauseMax clause)
                   then ["<= " ++ toString (clauseMax clause)] else [] in
    match (minPart ++ maxPart)%list with
    | [] => f ++ " ..."
    | rangeParts => f ++ " is between " ++ join " and " rangeParts
    end
  else if String.eqb op "prefix"
  then f ++ " starts with " ++ dquote ++ v ++ dquote
  else if String.eqb op "wildcard"
  then f ++ " matches " ++ dquote ++ v ++ dquote
  else if String.eqb op "query_string"
  then f ++ ": " ++ dquote ++ v ++ dquote
  else if String.eqb op "is_not"
  then f ++ " is not " ++ dquote ++ v ++ dquote
  else f ++ " is " ++ dquote ++ v ++ dquote.

Fixpoint buildPreviewRecursive (node : FilterASTNode)
  (parentOperator : option LogicOp) : string :=
  match node with
  | ClauseNode _ clause => formatClause clause
  | GroupNode _ operator children =>
      let childrenPreview :=
        map (fun child => buildPreviewRecursive child (Some operator))
            children in
      let joined := join (" " ++ logicName operator ++ " ") childrenPreview in
      let needsParens :=
        match parentOperator with
        | Some p => negb (LogicOp_eqb p operator)
        | None => false
        end in
      if needsParens then "(" ++ joined ++ ")" else joined
  end.

Definition generatePreview (ast : option FilterASTNode) : string :=
  match ast with
  | None => ""
  | Some node => buildPreviewRecursive node None
  end.

End FilterAstService.

(* ===================================================================== *)
(** * [kibana-filter-bar/kibana-filter-bar.component.ts] *)
(* ===================================================================== *)

(** The component's own query and preview generation over the values of
    its form array.  A form row has the fields of a [SimpleFilter]
    ([disabled] is not part of a row and is not read). *)
Module KibanaFilterBar.
Import Js Model.

Definition normalizeOperator (operator : string) : string :=
  if String.eqb operator "isNot" then "is_not"
  else if String.eqb operator "terms" then "is_one_of"
  else if String.eqb operator "notTerms" then "is_not_one_of"
  else if String.eqb operator "notExists" then "does_not_exist"
  else if String.eqb operator "queryString" then "query_string"
  else operator.

Definition isKeywordField (f : string) : bool := endsWith f ".keyword".

Definition isDateField (f : string) : bool :=
  String.eqb f "@timestamp"
  || includes (toLowerCase f) "date"
  || includes (toLowerCase f) "time".

Definition isNumericValue := KibanaFilterUtils.isNumeric.
Definition convertValue := KibanaFilterUtils.convertValue.
Definition mustNot := KibanaFilterUtils.mustNot.

(** [filter.field && filter.operator]. *)
Definition hasFieldAndOperator (filter : SimpleFilter) : bool :=
  negb (String.eqb (field filter) "")
  && negb (String.eqb (operator filter) "").

(** The query the [forEach] callback of [generateQueryDSL] builds for one
    row; [None] when the callback returns before its [queries.push].  The
    [console.warn] that precedes such a return is not recorded: it does
    not reach the query.  [isNumericValue] and [convertValue] are local
    functions of the callback with the bodies of the utilities' ones. *)
Definition filterQuery (filter : SimpleFilter) : option Value :=
  if negb (hasFieldAndOperator filter) then None
  else
    let f := field filter in
    let v := value filter in
    let isKeyword := isKeywordField f in
    let op := normalizeOperator (operator filter) in
    if String.eqb op "is" then
      if isKeyword || isDateField f || isNumericValue v
      then Some (VObj [("term", VObj [(f, convertValue isKeyword v)])])
      else Some (VObj [("match", VObj [(f, v)])])
    else if String.eqb op "is_not" then
      if isKeyword || isDateField f || isNumericValue v
      then Some (mustNot
                   (VObj [("term", VObj [(f, convertValue isKeyword v)])]))
      else Some (mustNot (VObj [("match", VObj [(f, v)])]))
    else if String.eqb op "is_one_of" then
      Some (VObj [("terms", VObj [(f, KibanaFilterUtils.valuesOf v)])])
    else if String.eqb op "is_not_one_of" then
      Some (mustNot
              (VObj [("terms", VObj [(f, KibanaFilterUtils.valuesOf v)])]))
    else if String.eqb op "exists" then
      Some (VObj [("exists", VObj [("field", VStr f)])])
    else if String.eqb op "does_not_exist" then
      Some (mustNot (VObj [("exists", VObj [("field", VStr f)])]))
    else if String.eqb op "range" then
      match KibanaFilterUtils.rangeBounds isKeyword filter with
      | [] => None
      | bounds => Some (VObj [("range", VObj [(f, VObj bounds)])])
      end
    else if String.eqb op "prefix" then
      if negb (truthy v) then None
      else if isKeyword then Some (VObj [("prefix", VObj [(f, v)])])
      else Some (VObj [("wildcard",
                        VObj [(f, VObj [("value", VStr (toString v ++ "*"));
                                        ("case_insensitive", VBool true)])])])
    else if String.eqb op "wildcard" then
      if negb (truthy v) then None
      else Some (VObj [("wildcard",
                        VObj [(f, VObj [("value", v);
                                        ("case_insensitive", VBool true)])])])
    else if String.eqb op "query_string" then
      if negb (truthy v) then None
      else Some (VObj [("query_string",
                        VObj [("default_field", VStr f); ("query", v)])])
    else None.

(** The entries of the [queries] array. *)
Record QueryItem : Type := mkItem {
  itemQuery : Value;
  itemLogic : LogicOp;
  itemIndex : nat
}.

Fixpoint collectQueries (index : nat) (filterArray : list SimpleFilter)
  : list QueryItem :=
  match filterArray with
  | [] => []
  | filter :: rest =>
      match filterQuery filter with
      | Some q =>
          mkItem q (logicOrAnd (logic filter)) index
          :: collectQueries (S index) rest
      | None => collectQueries (S index) rest
      end
  end.

Definition shouldGroup (queries : list Value) : Value :=
  VObj [("bool", VObj [("should", VArr queries);
                       ("minimum_should_match", VInt 1)])].

(** What closing [currentGroup] pushes on [groups]. *)
Definition closeGroup (currentGroup : list Value) : list Value :=
  match currentGroup with
  | [] => []
  | [only] => [only]
  | _ => [shouldGroup currentGroup]
  end.

(** The grouping [forEach] over [queries[1..]], on the pair
    [(groups, currentGroup)]. *)
Fixpoint groupLoop (todo : list QueryItem) (groups currentGroup : list Value)
  : list Value * list Value :=
  match todo with
  | [] => (groups, currentGroup)
  | item :: todo' =>
      match itemLogic item with
      | OR => groupLoop todo' groups (currentGroup ++ [itemQuery item])
      | AND =>
          match currentGroup with
          | [] => groupLoop todo' groups currentGroup
          | _ => groupLoop todo' (groups ++ closeGroup currentGroup)
                           [itemQuery item]
          end
      end
  end.

Definition groupQueries (queries : list QueryItem) : list Value :=
  match queries with
  | [] => []
  | first :: rest =>
      let (groups, currentGroup) := groupLoop rest [] [itemQuery first] in
      groups ++ closeGroup currentGroup
  end.

(** [m || 1] on the [minimum_should_match] read back from a group. *)
Definition valueOr1 (m : Value) : Value := or_else m (VInt 1).

(** The object [generateQueryDSL] serialises into [this.queryDSL]. *)
Definition generateQueryDSL (filterArray : list SimpleFilter) : Value :=
  let groups := groupQueries (collectQueries 0 filterArray) in
  match groups with
  | [g] =>
      if truthy (get g "bool") && truthy (get (get g "bool") "should")
      then VObj [("query",
                  VObj [("bool",
                         VObj [("should", get (get g "bool") "should");
                               ("minimum_should_match",
                                valueOr1 (get (get g "bool")
                                              "minimum_should_match"))])])]
      else VObj [("query", g)]
  | [] => VObj [("query", VObj [("bool", VObj [])])]
  | _ => VObj [("query", VObj [("bool", VObj [("must", VArr groups)])])]
  end.

(** ** The preview text *)

Definition getRangeOperatorLabel (operator : string) : string :=
  if String.eqb operator "gt" then "Greater Than"
  else if String.eqb operator "gte" then "Greater Than/Equal To"
  else if String.eqb operator "lt" then "Less Than"
  else if String.eqb operator "lte" then "Less Than/Equal To"
  else operator.

(** The entries of [filterExpressions]. *)
Record FilterExpr : Type := mkFilterExpr {
  exprText : string;
  exprLogic : option LogicOp;
  hasNot : bool
}.

(** The [filterText] and [hasNot] the callback of [updatePreview]
    computes for one row. *)
Definition filterTextAndNot (filter : SimpleFilter) : string * bool :=
  let f := field filter in
  let v := value filter in
  let op := normalizeOperator (operator filter) in
  let dash := toString (or_else v (VStr "-")) in
  let quoted (kind : string) :=
    f ++ ": " ++ kind ++ " " ++ dquote ++ dash ++ dquote in
  if String.eqb op "exists" then (f ++ ": exists", false)
  else if String.eqb op "does_not_exist" then (f ++ ": exists", true)
  else if String.eqb op "range" then
    let minPart :=
      if truthy (minValue filter)
      then [getRangeOperatorLabel (str_or (minOperator filter) "gt")
              ++ " " ++ toString (minValue filter)]
      else [] in
    let maxPart :=
      if truthy (maxValue filter)
      then [getRangeOperatorLabel (str_or (maxOperator filter) "lt")
              ++ " " ++ toString (maxValue filter)]
      else [] in
    match (minPart ++ maxPart)%list with
    | [] => (f ++ ": -", false)
    | rangeParts => (f ++ ": " ++ join " and " rangeParts, false)
    end
  else if String.eqb op "prefix" then (quoted "prefix", false)
  else if String.eqb op "wildcard" then (quoted "wildcard", false)
  else if String.eqb op "query_string" then (quoted "query_string", false)
  else if String.eqb op "is_not" then (f ++ ": " ++ dash, true)
  else if truthy v then (f ++ ": " ++ toString v, false)
  else (f ++ ": -", false).

(** The entry pushed for the row at [index]: its [logic] is
    [index > 0 ? (filter.logic || 'AND') : '']. *)
Definition filterExpr (index : nat) (filter : SimpleFilter) : FilterExpr :=
  mkFilterExpr (fst (filterTextAndNot filter))
               match index with
               | O => None
               | S _ => Some (logicOrAnd (logic filter))
               end
               (snd (filterTextAndNot filter)).

Fixpoint collectExpressions (index : nat) (filterArray : list SimpleFilter)
  : list FilterExpr :=
  match filterArray with
  | [] => []
  | filter :: rest =>
      if hasFieldAndOperator filter
      then filterExpr index filter :: collectExpressions (S index) rest
      else collectExpressions (S index) rest
  end.

(** The grouping loop of [updatePreview] over [filterExpressions[1..]]. *)
Fixpoint previewGroupLoop (todo : list FilterExpr)
  (groups : list (list FilterExpr)) (currentGroup : list FilterExpr)
  : list (list FilterExpr) * list FilterExpr :=
  match todo with
  | [] => (groups, currentGroup)
  | expr :: todo' =>
      match exprLogic expr with
      | Some OR => previewGroupLoop todo' groups (currentGroup ++ [expr])
      | _ => previewGroupLoop todo' (groups ++ [currentGroup]) [expr]
      end
  end.

Definition exprPart (expr : FilterExpr) : string :=
  if hasNot expr then "NOT " ++ exprText expr else exprText expr.

(** The [textParts] one member of a parenthesised group pushes. *)
Definition memberParts (exprIdx : nat) (expr : FilterExpr) : list string :=
  match exprIdx with
  | O => [exprPart expr]
  | S _ => [" OR"; exprPart expr]
  end.

Fixpoint membersParts (exprIdx : nat) (group : list FilterExpr)
  : list string :=
  match group with
  | [] => []
  | expr :: rest => memberParts exprIdx expr ++ membersParts (S exprIdx) rest
  end.

(** The [textParts] one group pushes. *)
Definition groupParts (groupIdx : nat) (group : list FilterExpr)
  : list string :=
  (match groupIdx with O => [] | S _ => [" AND"] end)
  ++ match group with
     | [expr] => [exprPart expr]
     | _ => ["("] ++ membersParts 0 group ++ [")"]
     end.

Fixpoint groupsParts (groupIdx : nat) (groups : list (list FilterExpr))
  : list string :=
  match groups with
  | [] => []
  | group :: rest => groupParts groupIdx group ++ groupsParts (S groupIdx) rest
  end.

(** The [previewText] that [updatePreview] leaves in the component. *)
Definition updatePreview (filterArray : list SimpleFilter) : string :=
  match collectExpressions 0 filterArray with
  | [] => ""
  | first :: rest =>
      let (groups, currentGroup) := previewGroupLoop rest [] [first] in
      let allGroups :=
        match currentGroup with
        | [] => groups
        | _ => (groups ++ [currentGroup])%list
        end in
      join " " (groupsParts 0 allGroups)
  end.

End KibanaFilterBar.

(* ===================================================================== *)
(** * [FilterGroupManagerComponent] *)
(* ===================================================================== *)

Module FilterGroupManager.
Import Js Model.

(** [FilterSeparator]; [position] is always ['before']. *)
Record FilterSeparator : Type := mkSeparator {
  sepIndex : nat;
  sepType : LogicOp;
  isGroupBoundary : bool;
  sepGroupId : option string
}.

(** [FilterGroupState], the payload of [filtersChanged]. *)
Record FilterGroupState : Type := mkState {
  stateFilters : list GroupedFilter;
  stateGroups : list FilterGroupDefinition;
  stateLabel : option string
}.

(** What the component sends out: the payloads of its event emitters and
    the console warnings, in the order they are sent. *)
Inductive Event : Type :=
| GroupsChanged (groups : list FilterGroupDefinition)
| FiltersChanged (state : FilterGroupState)
| FilterRemoved (index : nat)
| ConsoleWarn (message : string).

(** The fields of the component that its operations read or write.
    [filters] and [groups] are inputs bound by the host; the component
    never assigns [groups], it emits the new list. *)
Record Component : Type := mkComponent {
  filters : list GroupedFilter;
  groups : list FilterGroupDefinition;
  customLabel : option string;
  selectedIndices : list nat;
  lastClickedIndex : option nat;
  separators : list FilterSeparator;
  emitted : list Event
}.

Definition emit (e : Event) (c : Component) : Component :=
  mkComponent (filters c) (groups c) (customLabel c) (selectedIndices c)
              (lastClickedIndex c) (separators c) (emitted c ++ [e]).

Definition withFilters (fs : list GroupedFilter) (c : Component)
  : Component :=
  mkComponent fs (groups c) (customLabel c) (selectedIndices c)
              (lastClickedIndex c) (separators c) (emitted c).

Definition withSelection (sel : list nat) (lastClicked : option nat)
  (c : Component) : Component :=
  mkComponent (filters c) (groups c) (customLabel c) sel lastClicked
              (separators c) (emitted c).

Definition withSeparators (seps : list FilterSeparator) (c : Component)
  : Component :=
  mkComponent (filters c) (groups c) (customLabel c) (selectedIndices c)
              (lastClickedIndex c) seps (emitted c).

(** ** Helpers on arrays of indices *)

(** [indices.includes(idx)]. *)
Definition includesIdx (indices : list nat) (idx : nat) : bool :=
  existsb (Nat.eqb idx) indices.

Fixpoint insertSorted (x : nat) (sorted : list nat) : list nat :=
  match sorted with
  | [] => [x]
  | y :: rest => if Nat.leb x y then x :: sorted else y :: insertSorted x rest
  end.

(** [[...indices].sort((a, b) => a - b)]. *)
Definition sortIndices (indices : list nat) : list nat :=
  fold_right insertSorted [] indices.

(** [sorted.every((idx, i) => i === 0 || idx === sorted[i - 1] + 1)]. *)
Fixpoint isContiguous (sorted : list nat) : bool :=
  match sorted with
  | a :: (b :: _) as rest => Nat.eqb b (a + 1) && isContiguous rest
  | _ => true
  end.

(** [this.filters[idx].groupMeta = m], guarded by [if (this.filters[idx])]:
    nothing happens past the end of the array. *)
Fixpoint setGroupMeta (idx : nat) (m : option GroupedFilterMetadata)
  (fs : list GroupedFilter) : list GroupedFilter :=
  match fs, idx with
  | [], _ => []
  | f :: rest, O => mkGroupedFilter (base f) m :: rest
  | f :: rest, S idx' => f :: setGroupMeta idx' m rest
  end.

(** [this.filters[index]?.groupMeta?.groupId] when it is truthy. *)
Definition groupIdAt (fs : list GroupedFilter) (index : nat)
  : option string :=
  match nth_error fs index with
  | Some f =>
      match groupMeta f with
      | Some m =>
          match groupId m with
          | Some gid => if String.eqb gid "" then None else Some gid
          | None => None
          end
      | None => None
      end
  | None => None
  end.

Definition findGroup (gid : string) (gs : list FilterGroupDefinition)
  : option FilterGroupDefinition :=
  find (fun g => String.eqb (id g) gid) gs.

(** [filter.groupMeta?.groupId] as it is stored: [Some ""] for an empty
    identifier. *)
Definition storedGroupId (f : GroupedFilter) : option string :=
  match groupMeta f with
  | Some m => groupId m
  | None => None
  end.

(** ** Separators *)

(** [prevGroupId] and [currGroupId] are tested for truth ([groupIdAt]);
    the separator of two clauses that are not in one group carries
    [currGroupId] as it is stored. *)
Definition determineSeparator (c : Component) (index : nat)
  : option FilterSeparator :=
  match nth_error (filters c) (index - 1), nth_error (filters c) index with
  | Some _, Some currFilter =>
      let prevGroupId := groupIdAt (filters c) (index - 1) in
      let currGroupId := groupIdAt (filters c) index in
      match prevGroupId, currGroupId with
      | Some p, Some q =>
          if String.eqb p q then
            Some (mkSeparator index
                    match findGroup p (groups c) with
                    | Some g => type g
                    | None => AND
                    end
                    false prevGroupId)
          else
            Some (mkSeparator index (logicOrAnd (logic (base currFilter)))
                              true (storedGroupId currFilter))
      | None, None =>
          Some (mkSeparator index (logicOrAnd (logic (base currFilter)))
                            false (storedGroupId currFilter))
      | _, _ =>
          Some (mkSeparator index (logicOrAnd (logic (base currFilter)))
                            true (storedGroupId currFilter))
      end
  | _, _ => None
  end.

Definition calculateSeparators (c : Component) : Component :=
  withSeparators
    (flat_map (fun i => match determineSeparator c i with
                        | Some s => [s]
                        | None => []
                        end)
              (seq 1 (List.length (filters c) - 1)))
    c.

(** ** Group management *)

Definition emitFilterState (c : Component) : Component :=
  emit (FiltersChanged (mkState (filters c) (groups c) (customLabel c))) c.

(** The [forEach] of [updateFilterMetadata], at position [i] of the
    [count] indices. *)
Fixpoint tagMembers (gid : string) (gtype : LogicOp) (count i : nat)
  (todo : list nat) (fs : list GroupedFilter) : list GroupedFilter :=
  match todo with
  | [] => fs
  | idx :: todo' =>
      tagMembers gid gtype count (S i) todo'
        (setGroupMeta idx
           (Some (mkGroupMeta (Some gid) (Some gtype)
                              (Some (Nat.eqb i 0))
                              (Some (Nat.eqb i (count - 1)))
                              None))
           fs)
  end.

Definition updateFilterMetadata (indices : list nat) (gid : string)
  (gtype : LogicOp) (c : Component) : Component :=
  withFilters
    (tagMembers gid gtype (List.length indices) 0 indices (filters c)) c.

Definition nonContiguousWarning : string :=
  "Cannot create group with non-contiguous filters".

(** [g] shares an index with the new group. *)
Definition overlaps (sortedIndices : list nat) (g : FilterGroupDefinition)
  : bool :=
  existsb (includesIdx (filterIndices g)) sortedIndices.

(** [createGroupFromSelection(type)]; [newId] is the identifier the call
    builds from the clock and a random number. *)
Definition createGroupFromSelection (gtype : LogicOp) (newId : string)
  (c : Component) : Component :=
  if Nat.ltb (List.length (selectedIndices c)) 2 then c
  else
    let sortedIndices := sortIndices (selectedIndices c) in
    if negb (isContiguous sortedIndices)
    then emit (ConsoleWarn nonContiguousWarning) c
    else
      let newGroup := mkGroup newId gtype sortedIndices None in
      let filteredGroups :=
        filter (fun g => negb (overlaps sortedIndices g)) (groups c) in
      let updatedGroups := (filteredGroups ++ [newGroup])%list in
      let c1 := updateFilterMetadata sortedIndices newId gtype c in
      let c2 := emit (GroupsChanged updatedGroups) c1 in
      let c3 := emitFilterState c2 in
      withSelection [] None c3.

Definition clearMetadata (indices : list nat) (fs : list GroupedFilter)
  : list GroupedFilter :=
  fold_left (fun acc idx => setGroupMeta idx None acc) indices fs.

Definition removeGroup (gid : string) (c : Component) : Component :=
  match findGroup gid (groups c) with
  | None => c
  | Some group =>
      let c1 := withFilters (clearMetadata (filterIndices group) (filters c))
                            c in
      let updatedGroups :=
        filter (fun g => negb (String.eqb (id g) gid)) (groups c) in
      let c2 := emit (GroupsChanged updatedGroups) c1 in
      let c3 := emitFilterState c2 in
      calculateSeparators c3
  end.

Definition createImplicitGroup (filterIndex : nat) (gtype : LogicOp)
  (newId : string) (c : Component) : Component :=
  if Nat.leb (List.length (filters c) - 1) filterIndex
  then withSelection [filterIndex] (Some filterIndex) c
  else createGroupFromSelection gtype newId
         (withSelection [filterIndex; filterIndex + 1] (lastClickedIndex c) c).

(** ** Selection *)

(** The modifier keys of the optional [MouseEvent]. *)
Record MouseEvent : Type := mkMouse {
  shiftKey : bool;
  ctrlKey : bool;
  metaKey : bool
}.

(** [indices.splice(indices.indexOf(index), 1)]. *)
Fixpoint removeFirst (index : nat) (indices : list nat) : list nat :=
  match indices with
  | [] => []
  | i :: rest => if Nat.eqb i index then rest else i :: removeFirst index rest
  end.

Definition selectFilter (index : nat) (event : option MouseEvent)
  (c : Component) : Component :=
  let selection :=
    match event with
    | Some e =>
        match shiftKey e, lastClickedIndex c with
        | true, Some lastClicked =>
            let first := Nat.min lastClicked index in
            let last := Nat.max lastClicked index in
            seq first (last - first + 1)
        | _, _ =>
            if ctrlKey e || metaKey e then
              if includesIdx (selectedIndices c) index
              then removeFirst index (selectedIndices c)
              else (selectedIndices c ++ [index])%list
            else [index]
        end
    | None => [index]
    end in
  withSelection selection (Some index) c.

Definition clearSelection (c : Component) : Component :=
  withSelection [] None c.

(** ** Filter operations *)

(** [.filter(idx => idx !== index).map(idx => idx > index ? idx - 1 : idx)]. *)
Definition adjustIndices (index : nat) (indices : list nat) : list nat :=
  map (fun idx => if Nat.ltb index idx then idx - 1 else idx)
      (filter (fun idx => negb (Nat.eqb idx index)) indices).

Definition removeFilter (index : nat) (c : Component) : Component :=
  let c1 :=
    match groupIdAt (filters c) index with
    | Some gid =>
        match findGroup gid (groups c) with
        | Some group =>
            let updatedIndices := adjustIndices index (filterIndices group) in
            if Nat.ltb (List.length updatedIndices) 2
            then removeGroup gid c
            else
              let updatedGroup :=
                mkGroup (id group) (type group) updatedIndices
                        (groupParentId group) in
              let updatedGroups :=
                map (fun g => if String.eqb (id g) gid then updatedGroup
                              else g)
                    (groups c) in
              emit (GroupsChanged updatedGroups) c
        | None => c
        end
    | None => c
    end in
  clearSelection (emit (FilterRemoved index) c1).

(** ** Queries on the separators, the selection and the groups *)

(** [this.separators.find(s => s.index === index)]. *)
Definition getSeparator (c : Component) (index : nat)
  : option FilterSeparator :=
  find (fun s => Nat.eqb (sepIndex s) index) (separators c).

(** [separator?.type || 'AND']. *)
Definition getSeparatorType (c : Component) (index : nat) : LogicOp :=
  match getSeparator c index with
  | Some s => sepType s
  | None => AND
  end.

(** [isGroupBoundary(prevIndex, currIndex)]; [prevIndex] is not read. *)
Definition isGroupBoundaryAt (c : Component) (prevIndex currIndex : nat)
  : bool :=
  match getSeparator c currIndex with
  | Some s => isGroupBoundary s
  | None => false
  end.

Definition isSelected (c : Component) (index : nat) : bool :=
  includesIdx (selectedIndices c) index.

(** [!!this.filters[index]?.groupMeta?.groupId]. *)
Definition isInGroup (c : Component) (index : nat) : bool :=
  match groupIdAt (filters c) index with
  | Some _ => true
  | None => false
  end.

Definition getFilterGroup (c : Component) (index : nat)
  : option FilterGroupDefinition :=
  match groupIdAt (filters c) index with
  | Some gid => findGroup gid (groups c)
  | None => None
  end.

(** ** The rows handed to the filter builder *)

(** [convertFiltersToRows(filters)], from the row at [index] on.  Each
    row reads the clock twice, for its identifier and for that of its
    clause: [now k] is the text of the [k]-th reading. *)
Fixpoint convertFiltersToRowsFrom (now : nat -> string) (index : nat)
  (filters : list GroupedFilter) : list FilterAstService.FilterRow :=
  match filters with
  | [] => []
  | filter :: rest =>
      FilterAstService.mkRow
        ("filter_" ++ natToString index ++ "_" ++ now (2 * index))
        (FilterAstService.mkClause
           ("clause_" ++ natToString index ++ "_" ++ now (2 * index + 1))
           (field (base filter))
           (if String.eqb (operator (base filter)) "" then "is"
            else operator (base filter))
           (value (base filter))
           match value (base filter) with
           | VArr items => Some items
           | _ => None
           end
           VUndefined VUndefined None None)
        match index with
        | O => None
        | S _ => Some (logicOrAnd (logic (base filter)))
        end
        0 None
      :: convertFiltersToRowsFrom now (S index) rest
  end.

Definition convertFiltersToRows (now : nat -> string)
  (filters : list GroupedFilter) : list FilterAstService.FilterRow :=
  convertFiltersToRowsFrom now 0 filters.

(** ** The invariants of the explicit groups (section 3 of the
    specification) *)

Definition groupWellFormed (g : FilterGroupDefinition) : bool :=
  Nat.leb 2 (List.length (filterIndices g))
  && isContiguous (filterIndices g).

Definition disjointGroups (g h : FilterGroupDefinition) : bool :=
  negb (existsb (includesIdx (filterIndices h)) (filterIndices g)).

Fixpoint pairwiseDisjoint (gs : list FilterGroupDefinition) : bool :=
  match gs with
  | [] => true
  | g :: rest => forallb (disjointGroups g) rest && pairwiseDisjoint rest
  end.

Definition groupsInvariant (gs : list FilterGroupDefinition) : bool :=
  forallb groupWellFormed gs && pairwiseDisjoint gs.

(** The group lists sent through [groupsChanged]. *)
Definition groupsEmitted (events : list Event)
  : list (list FilterGroupDefinition) :=
  flat_map (fun e => match e with GroupsChanged gs => [gs] | _ => [] end)
           events.

Definition warnings (events : list Event) : list string :=
  flat_map (fun e => match e with ConsoleWarn m => [m] | _ => [] end) events.

End FilterGroupManager.

(* ===================================================================== *)
(** * [DashboardFilterWrapperComponent]: the host's clause removal *)
(* ===================================================================== *)

Module DashboardFilterWrapper.
Import Js Model.

(** [array.splice(index, 1)]. *)
Definition removeAt {A : Type} (index : nat) (l : list A) : list A :=
  firstn index l ++ skipn (S index) l.

Fixpoint findIndex (gid : string) (gs : list FilterGroupDefinition)
  : option nat :=
  match gs with
  | [] => None
  | g :: rest =>
      if String.eqb (id g) gid then Some 0
      else option_map S (findIndex gid rest)
  end.

Fixpoint setIndices (groupIndex : nat) (indices : list nat)
  (gs : list FilterGroupDefinition) : list FilterGroupDefinition :=
  match gs, groupIndex with
  | [], _ => []
  | g :: rest, O =>
      mkGroup (id g) (type g) indices (groupParentId g) :: rest
  | g :: rest, S k => g :: setIndices k indices rest
  end.

(** [removeFilter(index)] on the [filters] and [groups] of a non-null
    [activeFilters]; [None] when no clause remains and the host clears
    [activeFilters].  The query regeneration and data reload that follow
    touch neither list. *)
Definition removeFilter (index : nat)
  (activeFilters : list GroupedFilter * list FilterGroupDefinition)
  : option (list GroupedFilter * list FilterGroupDefinition) :=
  let (fs, gs) := activeFilters in
  let (fs1, gs1) :=
    match FilterGroupManager.groupIdAt fs index with
    | Some gid =>
        match findIndex gid gs with
        | Some groupIndex =>
            match nth_error gs groupIndex with
            | Some group =>
                let updatedIndices :=
                  FilterGroupManager.adjustIndices index
                    (filterIndices group) in
                if Nat.ltb (List.length updatedIndices) 2
                then (FilterGroupManager.clearMetadata updatedIndices fs,
                      removeAt groupIndex gs)
                else (fs, setIndices groupIndex updatedIndices gs)
            | None => (fs, gs)
            end
        | None => (fs, gs)
        end
    | None => (fs, gs)
    end in
  match removeAt index fs1 with
  | [] => None
  | remaining => Some (remaining, gs1)
  end.

End DashboardFilterWrapper.

(* ===================================================================== *)
(** * Reading the trees of the code as trees of the specification *)
(* ===================================================================== *)

Module Encoding.
Import Js Model.

(** The [FilterASTNode] of the utilities that stands for a tree of the
    specification: AND is a [must] node, OR a [should] node with
    [minimum_should_match: 1]. *)
Fixpoint embed (t : Spec.Node KibanaFilterUtils.KibanaFilter)
  : KibanaFilterUtils.FilterASTNode :=
  match t with
  | Spec.Leaf f => KibanaFilterUtils.leaf f
  | Spec.Bool AND children => KibanaFilterUtils.mkMust (map embed children)
  | Spec.Bool OR children => KibanaFilterUtils.mkShould (map embed children)
  end.

(** The same for the group-aware tree. *)
Fixpoint gembed (t : Spec.Node KibanaFilterUtils.KibanaFilter)
  : KibanaFilterUtils.GroupAwareASTNode :=
  match t with
  | Spec.Leaf f => KibanaFilterUtils.gleaf f
  | Spec.Bool AND children => KibanaFilterUtils.gMust (map gembed children)
  | Spec.Bool OR children => KibanaFilterUtils.gShould (map gembed children)
  end.

(** The tree of the specification a tree of the service stands for: the
    node identifiers are dropped. *)
Fixpoint shape (node : FilterAstService.FilterASTNode)
  : Spec.Node FilterAstService.FilterClause :=
  match node with
  | FilterAstService.ClauseNode _ clause => Spec.Leaf clause
  | FilterAstService.GroupNode _ op children =>
      Spec.Bool op (map shape children)
  end.

(** The clauses of the utilities' builder with their connectors: the
    enabled filters, each with [logic || 'AND']. *)
Definition clausesOf (filters : list SimpleFilter)
  : list (LogicOp * KibanaFilterUtils.KibanaFilter) :=
  map (fun f => (logicOrAnd (logic f), KibanaFilterUtils.toKibanaFilter f))
      (filter KibanaFilterUtils.enabled filters).

(** The clauses of the service's builder with their connectors. *)
Definition rowsOf (rows : list FilterAstService.FilterRow)
  : list (LogicOp * FilterAstService.FilterClause) :=
  map (fun r => (logicOrAnd (FilterAstService.logicOperator r),
                 FilterAstService.rowClause r)) rows.

(** [{bool: {must: qs}}] and [{bool: {should: qs, minimum_should_match: 1}}]. *)
Definition boolDoc (op : LogicOp) (qs : list Value) : Value :=
  match op with
  | AND => VObj [("bool", VObj [("must", VArr qs)])]
  | OR => VObj [("bool", VObj [("should", VArr qs);
                               ("minimum_should_match", VInt 1)])]
  end.

(** The document the utilities compile one clause to. *)
Definition leafDoc (f : SimpleFilter) : Value :=
  KibanaFilterUtils.astToEsQueryNode
    (KibanaFilterUtils.leaf (KibanaFilterUtils.toKibanaFilter f)).

(** The running result of the fold carries the connector used last: the
    invariant of the utilities' loop. *)
Definition carries (pre : list LogicOp) (t : Spec.Node KibanaFilterUtils.KibanaFilter) : Prop :=
  match pre with
  | [] => exists f, t = Spec.Leaf f
  | _ => exists children, t = Spec.Bool (last pre AND) children
  end.

(** The text the component's preview pushes for one row, with its [NOT]. *)
Definition rowPart (r : SimpleFilter) : string :=
  KibanaFilterBar.exprPart (KibanaFilterBar.filterExpr 0 r).

(** Every row of [rows] compiles, to the query at its place in [qs]. *)
Definition rowsCompileTo (rows : list SimpleFilter) (qs : list Value) : Prop :=
  Forall2 (fun r q => KibanaFilterBar.filterQuery r = Some q) rows qs.

(** [{bool: {should: [{bool: {must: [a, b]}}, c], minimum_should_match: 1}}]. *)
Definition connectorChangeDoc (a b c : Value) : Value :=
  boolDoc OR [boolDoc AND [a; b]; c].

(** Joining the running result and the next segment's subtree: always a
    new two-child node of the joining connector. *)
Definition wrapJoin (result : KibanaFilterUtils.GroupAwareASTNode)
  (op : LogicOp) (next : KibanaFilterUtils.GroupAwareASTNode)
  : KibanaFilterUtils.GroupAwareASTNode :=
  match op with
  | OR => KibanaFilterUtils.gShould [result; next]
  | AND => KibanaFilterUtils.gMust [result; next]
  end.

(** The connector of the clause at [idx] (AND when there is none). *)
Definition connectorAt (filters : list GroupedFilter) (idx : nat) : LogicOp :=
  match nth_error filters idx with
  | Some f => logicOrAnd (logic (base f))
  | None => AND
  end.

(** The members of a group that are clauses of [filters]: the indices
    below its length, in the order the group lists them. *)
Definition survivingMembers (filters : list GroupedFilter)
  (group : FilterGroupDefinition) : list KibanaFilterUtils.KibanaFilter :=
  flat_map (fun idx => match nth_error filters idx with
                       | Some f => [KibanaFilterUtils.toKibanaFilter (base f)]
                       | None => []
                       end)
           (filterIndices group).

(** The left-to-right combination of the segment subtrees. *)
Definition joinSegments (filters : list GroupedFilter)
  (first : KibanaFilterUtils.GroupAwareASTNode)
  (rest : list (KibanaFilterUtils.Segment
                * KibanaFilterUtils.GroupAwareASTNode))
  : KibanaFilterUtils.GroupAwareASTNode :=
  fold_left
    (fun result st =>
       wrapJoin result
                (connectorAt filters (KibanaFilterUtils.startIdx (fst st)))
                (snd st))
    rest first.

(** A segment lies inside [0 .. lastIdx]: a group segment starts there,
    an ungrouped run starts and ends there. *)
Definition segmentPlaced (lastIdx : nat) (seg : KibanaFilterUtils.Segment)
  : Prop :=
  KibanaFilterUtils.startIdx seg <= lastIdx
  /\ ((KibanaFilterUtils.segType seg = KibanaFilterUtils.SegGroup
       /\ exists g, KibanaFilterUtils.segGroup seg = Some g)
      \/ (KibanaFilterUtils.segType seg = KibanaFilterUtils.SegFilter
          /\ KibanaFilterUtils.segGroup seg = None
          /\ KibanaFilterUtils.endIdx seg <= lastIdx)).

(** Four clauses: an ungrouped run a, b(AND), then c(AND), d(OR) in an
    explicit OR group. *)
Definition groupedClause (f : string) (lg : option LogicOp) : GroupedFilter :=
  mkGroupedFilter
    (mkSimpleFilter f "exists" VUndefined lg false VUndefined VUndefined
                    None None)
    None.

Definition overlayFilters : list GroupedFilter :=
  [groupedClause "a" None; groupedClause "b" (Some AND);
   groupedClause "c" (Some AND); groupedClause "d" (Some OR)].

Definition overlayGroups : list FilterGroupDefinition :=
  [mkGroup "g1" OR [2; 3] None].

Definition kibanaOf (f : GroupedFilter) : KibanaFilterUtils.KibanaFilter :=
  KibanaFilterUtils.toKibanaFilter (base f).

(** The groups other than [gid]. *)
Definition otherThan (gid : string) (g : FilterGroupDefinition) : bool :=
  negb (String.eqb (id g) gid).

(** The metadata [updateFilterMetadata] writes on member [i] of [count]. *)
Definition memberMeta (gid : string) (gtype : LogicOp) (count i : nat)
  : GroupedFilterMetadata :=
  mkGroupMeta (Some gid) (Some gtype) (Some (Nat.eqb i 0))
              (Some (Nat.eqb i (count - 1))) None.

(** The clause with its lower (upper) bound replaced. *)
Definition withMinValue (v : Value) (f : SimpleFilter) : SimpleFilter :=
  mkSimpleFilter (field f) (operator f) (value f) (logic f) (disabled f)
                 v (maxValue f) (minOperator f) (maxOperator f).

Definition withMaxValue (v : Value) (f : SimpleFilter) : SimpleFilter :=
  mkSimpleFilter (field f) (operator f) (value f) (logic f) (disabled f)
                 (minValue f) v (minOperator f) (maxOperator f).

(** [{range: {[field]: bounds}}]. *)
Definition rangeDoc (f : SimpleFilter) (bounds : list (string * Value))
  : Value :=
  VObj [("range", VObj [(field f, VObj bounds)])].

(** The entry of the lower (upper) bound: the operator supplied for it,
    [gt] ([lt]) when none is, and the converted value. *)
Definition lowerBound (f : SimpleFilter) : string * Value :=
  (str_or (minOperator f) "gt",
   KibanaFilterUtils.convertValue (endsWith (field f) ".keyword")
                                  (minValue f)).

Definition upperBound (f : SimpleFilter) : string * Value :=
  (str_or (maxOperator f) "lt",
   KibanaFilterUtils.convertValue (endsWith (field f) ".keyword")
                                  (maxValue f)).

(** The names an assignment stores as own properties in insertion
    order: every name but ['__proto__'] and the integer-like ones.  The
    range operators [gt], [gte], [lt] and [lte] are such names. *)
Definition ordinaryKey (k : string) : bool :=
  negb (String.eqb k "__proto__") && negb (isArrayIndex k).

(** The operators [buildSingleFilterQuery] has a case for. *)
Definition knownOperators : list string :=
  ["is"; "is_not"; "is_one_of"; "is_not_one_of"; "exists"; "does_not_exist";
   "range"; "prefix"; "wildcard"; "query_string"].

(** The operator a negated operator negates. *)
Definition positiveOperator (op : string) : string :=
  if String.eqb op "is_not" then "is"
  else if String.eqb op "does_not_exist" then "exists"
  else if String.eqb op "is_not_one_of" then "is_one_of"
  else op.

Definition withOperator (op : string) (f : SimpleFilter) : SimpleFilter :=
  mkSimpleFilter (field f) op (value f) (logic f) (disabled f)
                 (minValue f) (maxValue f) (minOperator f) (maxOperator f).

Definition withLogic (lg : option LogicOp) (f : SimpleFilter)
  : SimpleFilter :=
  mkSimpleFilter (field f) (operator f) (value f) lg (disabled f)
                 (minValue f) (maxValue f) (minOperator f) (maxOperator f).

(** A [FilterASTNode] read as a [GroupAwareASTNode]: the second interface
    has every field of the first. *)
Fixpoint asGroupAware (ast : KibanaFilterUtils.FilterASTNode)
  : KibanaFilterUtils.GroupAwareASTNode :=
  match ast with
  | KibanaFilterUtils.FilterNode f => KibanaFilterUtils.GFilterNode f
  | KibanaFilterUtils.BoolNode mu sh mn msm =>
      KibanaFilterUtils.GBoolNode
        (option_map (map asGroupAware) mu)
        (option_map (map asGroupAware) sh)
        (option_map (map asGroupAware) mn)
        msm
  end.

(** The tree holds a node of type ['group']. *)
Fixpoint hasGroupNode (t : KibanaFilterUtils.GroupAwareASTNode) : bool :=
  match t with
  | KibanaFilterUtils.GFilterNode _ => false
  | KibanaFilterUtils.GBoolNode mu sh mn _ =>
      match mu with Some l => existsb hasGroupNode l | None => false end
      || match sh with Some l => existsb hasGroupNode l | None => false end
      || match mn with Some l => existsb hasGroupNode l | None => false end
  | KibanaFilterUtils.GGroupNode _ _ _ => true
  end.

(** The clauses of the group-aware builder with their connectors. *)
Definition groupedClausesOf (filters : list GroupedFilter)
  : list (LogicOp * KibanaFilterUtils.KibanaFilter) :=
  clausesOf (map base filters).

(** Three enabled clauses with the group [[0, 2]]: clause 1 lies between
    the members and is not one. *)
Definition spanningFilters : list GroupedFilter :=
  [groupedClause "a" None; groupedClause "b" (Some AND);
   groupedClause "c" (Some AND)].

Definition spanningGroup : FilterGroupDefinition :=
  mkGroup "g" OR [0; 2] None.

(** [P] holds of every node of an optional list of children. *)
Definition optForall {A : Type} (P : A -> Prop) (o : option (list A))
  : Prop :=
  match o with
  | Some l => Forall P l
  | None => True
  end.

(** Every group of the tree has at least two children. *)
Fixpoint proper (ast : FilterAstService.FilterASTNode) : bool :=
  match ast with
  | FilterAstService.ClauseNode _ _ => true
  | FilterAstService.GroupNode _ _ children =>
      Nat.leb 2 (List.length children) && forallb proper children
  end.

(** The clause does not carry the identifier [cid]. *)
Definition otherClause (cid : string) (c : FilterAstService.FilterClause)
  : bool :=
  negb (String.eqb (FilterAstService.clauseId c) cid).

(** The node carries the identifier [nid]. *)
Definition hasNodeId (nid : string) (node : FilterAstService.FilterASTNode)
  : bool :=
  String.eqb (FilterAstService.nodeIdOf node) nid.

(** The clause of a clause node, none for a group. *)
Definition clauseOfNode (node : FilterAstService.FilterASTNode)
  : list FilterAstService.FilterClause :=
  match node with
  | FilterAstService.ClauseNode _ clause => [clause]
  | FilterAstService.GroupNode _ _ _ => []
  end.

(** One call of [addClause] for a row, on the tree so far and the count
    of identifiers drawn. *)
Definition addRow (generateId : nat -> string)
  (state : option FilterAstService.FilterASTNode * nat)
  (row : FilterAstService.FilterRow)
  : option FilterAstService.FilterASTNode * nat :=
  let (node, calls) :=
    FilterAstService.addClause generateId (fst state)
      (FilterAstService.rowClause row)
      (logicOrAnd (FilterAstService.logicOperator row)) (snd state) in
  (Some node, calls).

(** The entries [buildPreviewString] would build for the rows: the text
    of each clause, and its connector from the second row on. *)
Definition exprsOfRows (rows : list FilterAstService.FilterRow)
  : list KibanaFilterUtils.PreviewExpr :=
  match rows with
  | [] => []
  | row :: rest =>
      KibanaFilterUtils.mkExpr
        (FilterAstService.formatClause (FilterAstService.rowClause row)) None
      :: map (fun r =>
                KibanaFilterUtils.mkExpr
                  (FilterAstService.formatClause (FilterAstService.rowClause r))
                  (Some (logicOrAnd (FilterAstService.logicOperator r))))
             rest
  end.

(** The text of a tree whose leaves are texts: the children of a node
    joined by its connector, in parentheses when the node lies in a node
    of the other connector. *)
Fixpoint render (parent : option LogicOp) (t : Spec.Node string) : string :=
  match t with
  | Spec.Leaf s => s
  | Spec.Bool op children =>
      let joined :=
        join (" " ++ logicName op ++ " ") (map (render (Some op)) children) in
      match parent with
      | Some p => if LogicOp_eqb p op then joined else "(" ++ joined ++ ")"
      | None => joined
      end
  end.

(** The same tree over other leaves. *)
Fixpoint mapNode {A B : Type} (f : A -> B) (t : Spec.Node A) : Spec.Node B :=
  match t with
  | Spec.Leaf a => Spec.Leaf (f a)
  | Spec.Bool op children => Spec.Bool op (map (mapNode f) children)
  end.

(** The running tree of a fold after the connectors [pre]: a leaf before
    any connector, then a node of the last connector with children. *)
Definition foldedAfter {C : Type} (pre : list LogicOp) (t : Spec.Node C)
  : Prop :=
  match pre with
  | [] => exists c, t = Spec.Leaf c
  | _ => exists children,
           children <> [] /\ t = Spec.Bool (last pre AND) children
  end.

(** The entry of [expressions] for a text and its connector. *)
Definition exprOf (oc : LogicOp * string) : KibanaFilterUtils.PreviewExpr :=
  KibanaFilterUtils.mkExpr (snd oc) (Some (fst oc)).

(** The enabled clauses of the utilities with their connectors, before
    they are converted. *)
Definition simpleClausesOf (filters : list SimpleFilter)
  : list (LogicOp * SimpleFilter) :=
  map (fun f => (logicOrAnd (logic f), f))
      (filter KibanaFilterUtils.enabled filters).

(** The queries the component's compiler pushes for the rows. *)
Definition queriesOf (rows : list SimpleFilter) : list Value :=
  flat_map (fun r => match KibanaFilterBar.filterQuery r with
                     | Some q => [q]
                     | None => []
                     end) rows.

(** The document of a run of rows joined by OR: the query of a single
    row, a [should] group of the queries of several. *)
Definition runDoc (run : list SimpleFilter) : Value :=
  match queriesOf run with
  | [only] => only
  | qs => KibanaFilterBar.shouldGroup qs
  end.

(** A run: at least one row, every row after the first joined by OR. *)
Definition orRun (run : list SimpleFilter) : Prop :=
  run <> [] /\ forall r, In r (tl run) -> logicOrAnd (logic r) = OR.

(** A run whose first row is joined by AND to what precedes it. *)
Definition andLedRun (run : list SimpleFilter) : Prop :=
  orRun run /\ forall r, hd_error run = Some r -> logicOrAnd (logic r) = AND.

(** [{query: {bool: {}}}]. *)
Definition emptyBoolQuery : Value :=
  VObj [("query", VObj [("bool", VObj [])])].

(** The clause of the row [convertFiltersToRows] makes of a filter. *)
Definition convertedClause (now : nat -> string) (index : nat)
  (f : GroupedFilter) : option FilterAstService.FilterClause :=
  option_map FilterAstService.rowClause
    (hd_error (FilterGroupManager.convertFiltersToRowsFrom now index [f])).

(** The operators and values for which the service compiles the converted
    clause as the utilities compile the filter. *)
Definition carriedOver (f : SimpleFilter) : Prop :=
  In (operator f) ["is"; "is_not"; "exists"; "does_not_exist"]
  \/ (In (operator f) ["is_one_of"; "is_not_one_of"]
      /\ exists items, value f = VArr items)
  \/ (In (operator f) ["prefix"; "wildcard"; "query_string"]
      /\ truthy (value f) = true).

(** A clock that always reads the same text. *)
Definition stoppedClock (k : nat) : string := "0".

End Encoding.

(* ===================================================================== *)
(** * Concrete clauses and states used in the examples below *)
(* ===================================================================== *)

Module Examples.
Import Js Model.

(** A clause on a string value, enabled, with no range fields. *)
Definition clause (f op v : string) (lg : option LogicOp) : SimpleFilter :=
  mkSimpleFilter f op (VStr v) lg false VUndefined VUndefined None None.

(** [{status is_not deleted}]. *)
Definition statusIsNotDeleted : SimpleFilter :=
  clause "status" "is_not" "deleted" None.

(** [[{status is active}, {type is user, AND}, {type is admin, OR}]]. *)
Definition statusActive : SimpleFilter := clause "status" "is" "active" None.
Definition typeUserAnd : SimpleFilter := clause "type" "is" "user" (Some AND).
Definition typeAdminOr : SimpleFilter := clause "type" "is" "admin" (Some OR).
Definition typeUserOr : SimpleFilter := clause "type" "is" "user" (Some OR).
Definition levelErrorAnd : SimpleFilter :=
  clause "level" "is" "error" (Some AND).

(** A range clause with neither bound. *)
Definition emptyRangeAnd : SimpleFilter :=
  clause "bytes" "range" "" (Some AND).

(** A clause of the group manager, with the group it is tagged with. *)
Definition member (f : string) (gid : option string) : GroupedFilter :=
  mkGroupedFilter (clause f "is" "1" None)
    (option_map (fun g => mkGroupMeta (Some g) (Some OR) None None None) gid).

(** Five clauses: one ungrouped, then the groups G1 and G2. *)
Definition fiveClauses : list GroupedFilter :=
  [member "u" None; member "a1" (Some "G1"); member "a2" (Some "G1");
   member "b1" (Some "G2"); member "b2" (Some "G2")].

Definition twoGroups : list FilterGroupDefinition :=
  [mkGroup "G1" OR [1; 2] None; mkGroup "G2" OR [3; 4] None].

(** The component once the host has removed the ungrouped clause 0: the
    clauses have moved down, the groups are as they were. *)
Definition afterFirstRemoval : FilterGroupManager.Component :=
  FilterGroupManager.mkComponent (tl fiveClauses) twoGroups None [] None [] [].

(** Three ungrouped clauses with clause 0 selected. *)
Definition oneSelected : FilterGroupManager.Component :=
  FilterGroupManager.mkComponent
    [member "a" None; member "b" None; member "c" None] [] None [0] None [] [].

(** The same with clauses 1 and 0 selected, in that order. *)
Definition twoSelected : FilterGroupManager.Component :=
  FilterGroupManager.mkComponent
    [member "a" None; member "b" None; member "c" None] [] None [1; 0]
    None [] [].

(** [{bytes range, min 0, max '100'}]: a lower bound of zero. *)
Definition zeroToHundred : SimpleFilter :=
  mkSimpleFilter "bytes" "range" VUndefined None false
                 (VInt 0) (VStr "100") (Some "gte") (Some "lte").

(** [{bytes range, min 10, max '100'}]: both bounds supplied. *)
Definition tenToHundred : SimpleFilter :=
  mkSimpleFilter "bytes" "range" VUndefined None false
                 (VInt 10) (VStr "100") (Some "gte") (Some "lte").

(** [{bytes range, min 5, max 10}] with [gte] as the operator of both
    bounds. *)
Definition fiveToTenBothGte : SimpleFilter :=
  mkSimpleFilter "bytes" "range" VUndefined None false
                 (VInt 5) (VInt 10) (Some "gte") (Some "gte").

(** [{bytes range, min 5}] with ['__proto__'] as the operator of the
    lower bound. *)
Definition fiveUnderProto : SimpleFilter :=
  mkSimpleFilter "bytes" "range" VUndefined None false
                 (VInt 5) VUndefined (Some "__proto__") None.

(** Rows of the filter builder: [a], [b] joined by AND, [c] joined by
    OR. *)
Definition rowOf (cid : string) (lg : option LogicOp)
  : FilterAstService.FilterRow :=
  FilterAstService.mkRow cid
    (FilterAstService.mkClause cid "status" "is" (VStr cid) None
                               VUndefined VUndefined None None)
    lg 0 None.

Definition threeRows : list FilterAstService.FilterRow :=
  [rowOf "a" None; rowOf "b" (Some AND); rowOf "c" (Some OR)].

(** An identifier supply: the [n]-th identifier drawn is [group_n]. *)
Definition countingId (n : nat) : string := "group_" ++ natToString n.

(** The modifier keys of a plain click, a shift click and a ctrl click. *)
Definition plainClick : FilterGroupManager.MouseEvent :=
  FilterGroupManager.mkMouse false false false.
Definition shiftClick : FilterGroupManager.MouseEvent :=
  FilterGroupManager.mkMouse true false false.
Definition ctrlClick : FilterGroupManager.MouseEvent :=
  FilterGroupManager.mkMouse false true false.

(** Three ungrouped clauses, nothing selected. *)
Definition noneSelected : FilterGroupManager.Component :=
  FilterGroupManager.mkComponent
    [member "a" None; member "b" None; member "c" None] [] None [] None [] [].

(** Two clauses tagged with the group [G], and the group. *)
Definition pairOfMembers : list GroupedFilter :=
  [member "a" (Some "G"); member "b" (Some "G")].

Definition pairGroup : FilterGroupDefinition := mkGroup "G" OR [0; 1] None.

(** The component on that pair. *)
Definition pairComponent : FilterGroupManager.Component :=
  FilterGroupManager.mkComponent pairOfMembers [pairGroup] None [] None [] [].

(** A tree of the service: the clause [a] and a clause [e] with no
    field, joined by AND. *)
Definition emptyFieldClause : FilterAstService.FilterClause :=
  FilterAstService.mkClause "e" "" "is" (VStr "x") None
                            VUndefined VUndefined None None.

Definition withEmptyClause : FilterAstService.FilterASTNode :=
  FilterAstService.GroupNode "g" AND
    [FilterAstService.ClauseNode "a"
       (FilterAstService.rowClause (rowOf "a" None));
     FilterAstService.ClauseNode "e" emptyFieldClause].

End Examples.

(* ===================================================================== *)
(** * Properties *)
(* ===================================================================== *)

Import Js Model Encoding.
Open Scope list_scope.

(** ** The implicit builder is the left fold of the specification *)

Section LeftFold.
Import KibanaFilterUtils.

Lemma embed_combine_leaf :
  forall (pre : list LogicOp) (ops : list LogicOp) (op : LogicOp)
         (t : Spec.Node KibanaFilter) (f : KibanaFilter),
    carries pre t ->
    leftAssociativeStep (pre ++ op :: ops) (S (List.length pre)) f (embed t)
    = embed (Spec.combine t op (Spec.Leaf f)).
Proof.
  intros pre ops op t f Hc.
  unfold leftAssociativeStep.
  replace (S (List.length pre) - 1) with (List.length pre) by lia.
  rewrite nth_error_app2 by lia.
  rewrite Nat.sub_diag. cbn [nth_error].
  destruct pre as [|p0 pre'] using rev_ind.
  - destruct Hc as [f0 ->]. cbn. destruct op; reflexivity.
  - clear IHpre'.
    assert (Hlast : last (pre' ++ [p0]) AND = p0) by apply last_last.
    assert (Hc' : exists children, t = Spec.Bool p0 children).
    { unfold carries in Hc. destruct (pre' ++ [p0]) eqn:E.
      - destruct pre'; discriminate.
      - rewrite Hlast in Hc. exact Hc. }
    destruct Hc' as [children ->].
    rewrite length_app. cbn [List.length].
    replace (Nat.ltb 1 (S (List.length pre' + 1))) with true
      by (symmetry; apply Nat.ltb_lt; lia).
    replace (S (List.length pre' + 1) - 2) with (List.length pre') by lia.
    rewrite <- app_assoc. cbn [app].
    rewrite nth_error_app2 by lia. rewrite Nat.sub_diag. cbn [nth_error].
    destruct p0, op; cbn; rewrite ?map_app; reflexivity.
Qed.

Lemma combine_carries :
  forall (pre : list LogicOp) (op : LogicOp) (t next : Spec.Node KibanaFilter),
    carries (pre ++ [op]) (Spec.combine t op next).
Proof.
  intros pre op t next. unfold carries.
  destruct (pre ++ [op]) eqn:E.
  - destruct pre; discriminate.
  - rewrite <- E, last_last.
    destruct t as [c|op' children]; cbn.
    + eexists; reflexivity.
    + destruct (LogicOp_eqb op' op) eqn:Eo.
      * destruct op', op; try discriminate; eexists; reflexivity.
      * eexists; reflexivity.
Qed.

Lemma leftAssociativeLoop_fold :
  forall (todo : list (LogicOp * KibanaFilter)) (pre : list LogicOp)
         (t : Spec.Node KibanaFilter),
    carries pre t ->
    leftAssociativeLoop (pre ++ map fst todo) (S (List.length pre))
                        (map snd todo) (embed t)
    = embed (fold_left
               (fun result oc =>
                  Spec.combine result (fst oc) (Spec.Leaf (snd oc)))
               todo t).
Proof.
  induction todo as [|[op f] todo IH]; intros pre t Hc.
  - reflexivity.
  - cbn [map fst snd leftAssociativeLoop fold_left].
    rewrite embed_combine_leaf by exact Hc.
    specialize (IH (pre ++ [op]) (Spec.combine t op (Spec.Leaf f))
                   (combine_carries pre op t (Spec.Leaf f))).
    rewrite <- app_assoc, length_app in IH. cbn [app List.length] in IH.
    replace (S (List.length pre + 1)) with (S (S (List.length pre))) in IH
      by lia.
    exact IH.
Qed.

Lemma buildFilterASTWithOperators_fold :
  forall filters : list SimpleFilter,
    buildFilterASTWithOperators filters
    = option_map embed (Spec.build (clausesOf filters)).
Proof.
  intros filters. unfold buildFilterASTWithOperators, clausesOf.
  destruct filters as [|f0 fs]; [reflexivity|].
  destruct (filter enabled (f0 :: fs)) as [|e0 es] eqn:E; [reflexivity|].
  cbn [map tl Spec.build option_map].
  destruct es as [|e1 es'].
  - reflexivity.
  - unfold buildASTLeftAssociative. cbn [map].
    unfold Spec.foldClauses.
    pose proof (leftAssociativeLoop_fold
                  (map (fun f => (logicOrAnd (logic f), toKibanaFilter f))
                       (e1 :: es'))
                  [] (Spec.Leaf (toKibanaFilter e0))) as H.
    cbn [app List.length] in H. rewrite !map_map in H. cbn [fst snd] in H.
    cbn [map] in H. f_equal.
    etransitivity; [|apply H; cbn; eexists; reflexivity].
    reflexivity.
Qed.

End LeftFold.

Section ServiceFold.
Import FilterAstService.
Variable generateId : nat -> string.

Lemma shape_combineNodes :
  forall (left right : FilterASTNode) (op : LogicOp) (calls : nat),
    shape (fst (combineNodes generateId left right op calls))
    = Spec.combine (shape left) op (shape right).
Proof.
  intros left right op calls.
  destruct left as [nid c|nid op' children]; cbn.
  - reflexivity.
  - destruct (LogicOp_eqb op' op); cbn; rewrite ?map_app; reflexivity.
Qed.

Lemma shape_buildASTLoop :
  forall (todo : list FilterRow) (result : FilterASTNode) (calls : nat),
    shape (fst (buildASTLoop generateId todo result calls))
    = fold_left
        (fun r oc => Spec.combine r (fst oc) (Spec.Leaf (snd oc)))
        (rowsOf todo) (shape result).
Proof.
  induction todo as [|row todo IH]; intros result calls.
  - reflexivity.
  - cbn [buildASTLoop rowsOf map fold_left fst snd].
    pose proof (shape_combineNodes result (createClauseNode (rowClause row))
                  (logicOrAnd (logicOperator row)) calls) as Hs.
    destruct (combineNodes generateId result
                (createClauseNode (rowClause row))
                (logicOrAnd (logicOperator row)) calls) as [result' calls'].
    cbn [fst] in Hs. rewrite IH, Hs. reflexivity.
Qed.

Lemma shape_buildAST :
  forall (rows : list FilterRow) (calls : nat),
    option_map shape (fst (buildAST generateId rows calls))
    = Spec.build (rowsOf rows).
Proof.
  intros rows calls. destruct rows as [|r0 [|r1 rest]]; try reflexivity.
  unfold buildAST.
  pose proof (shape_buildASTLoop (r1 :: rest)
                (createClauseNode (rowClause r0)) calls) as Hs.
  destruct (buildASTLoop generateId (r1 :: rest)
              (createClauseNode (rowClause r0)) calls) as [result calls'].
  cbn [fst option_map] in *. rewrite Hs. reflexivity.
Qed.

End ServiceFold.

(** ** A run of one connector stays flat *)

Section Runs.
Variable C : Type.

Lemma fold_same_connector :
  forall (x : LogicOp) (rest : list (LogicOp * C)) (children : list (Spec.Node C)),
    (forall oc, In oc rest -> fst oc = x) ->
    fold_left (fun result oc => Spec.combine result (fst oc) (Spec.Leaf (snd oc)))
              rest (Spec.Bool x children)
    = Spec.Bool x (children ++ map (fun oc => Spec.Leaf (snd oc)) rest).
Proof.
  intros x rest. induction rest as [|[op c] rest IH]; intros children Hx.
  - cbn. rewrite app_nil_r. reflexivity.
  - assert (op = x) as -> by (apply (Hx (op, c)); left; reflexivity).
    cbn [fold_left Spec.combine fst snd map].
    replace (LogicOp_eqb x x) with true by (destruct x; reflexivity).
    rewrite IH by (intros oc Hin; apply Hx; right; exact Hin).
    rewrite <- app_assoc. reflexivity.
Qed.

Lemma foldClauses_flat :
  forall (x : LogicOp) (first : C) (rest : list (LogicOp * C)),
    rest <> [] ->
    (forall oc, In oc rest -> fst oc = x) ->
    Spec.foldClauses first rest
    = Spec.Bool x (map Spec.Leaf (first :: map snd rest)).
Proof.
  intros x first rest Hne Hx. destruct rest as [|[op c] rest]; [congruence|].
  assert (op = x) as -> by (apply (Hx (op, c)); left; reflexivity).
  unfold Spec.foldClauses. cbn [fold_left Spec.combine fst snd].
  rewrite fold_same_connector by (intros oc Hin; apply Hx; right; exact Hin).
  cbn [map app]. rewrite map_map. reflexivity.
Qed.

End Runs.

(** C4.  The implicit builder folds the enabled clauses from the left.
    The tree the utilities build ([buildFilterASTWithOperators], through
    [buildASTLeftAssociative]) and the tree the service builds
    ([buildAST], through [combineNodes]) are both the fold of the
    specification: a clause whose connector is the one the running
    result carries is appended to its children, so a run of one connector
    is a single flat node, and any other connector wraps the running
    result as the left child of a new node.  Clauses A, B(AND), C(OR),
    D(AND) give Bool(AND, [Bool(OR, [Bool(AND, [A, B]), C]), D]), in the
    fold and in the utilities' builder run on four such clauses. *)
Theorem implicit_builder_is_left_fold :
  (forall filters : list SimpleFilter,
      KibanaFilterUtils.buildFilterASTWithOperators filters
      = option_map embed (Spec.build (clausesOf filters)))
  /\ (forall (generateId : nat -> string)
             (rows : list FilterAstService.FilterRow) (calls : nat),
         option_map shape
           (fst (FilterAstService.buildAST generateId rows calls))
         = Spec.build (rowsOf rows))
  /\ (forall (C : Type) (x : LogicOp) (first : C)
             (rest : list (LogicOp * C)),
         rest <> [] ->
         (forall oc, In oc rest -> fst oc = x) ->
         Spec.foldClauses first rest
         = Spec.Bool x (map Spec.Leaf (first :: map snd rest)))
  /\ (forall (C : Type) (result : Spec.Node C) (op : LogicOp) (c : C),
         (forall children, result <> Spec.Bool op children) ->
         Spec.combine result op (Spec.Leaf c)
         = Spec.Bool op [result; Spec.Leaf c])
  /\ (forall (C : Type) (lg : LogicOp) (a b c d : C),
         Spec.build [(lg, a); (AND, b); (OR, c); (AND, d)]
         = Some (Spec.Bool AND
                   [Spec.Bool OR
                      [Spec.Bool AND [Spec.Leaf a; Spec.Leaf b];
                       Spec.Leaf c];
                    Spec.Leaf d]))
  /\ (let leafOf f :=
         KibanaFilterUtils.leaf (KibanaFilterUtils.toKibanaFilter f) in
       KibanaFilterUtils.buildFilterASTWithOperators
         [Examples.statusActive; Examples.typeUserAnd;
          Examples.typeAdminOr; Examples.levelErrorAnd]
       = Some (KibanaFilterUtils.mkMust
                 [KibanaFilterUtils.mkShould
                    [KibanaFilterUtils.mkMust
                       [leafOf Examples.statusActive;
                        leafOf Examples.typeUserAnd];
                     leafOf Examples.typeAdminOr];
                  leafOf Examples.levelErrorAnd])).
Proof.
  split; [exact buildFilterASTWithOperators_fold|].
  split; [exact shape_buildAST|].
  split; [exact foldClauses_flat|].
  split; [|split].
  - intros C result op c Hdiff. destruct result as [c0|op' children].
    + reflexivity.
    + cbn. destruct (LogicOp_eqb op' op) eqn:E; [|reflexivity].
      exfalso. apply (Hdiff children).
      destruct op', op; try discriminate; reflexivity.
  - intros. reflexivity.
  - reflexivity.
Qed.

(** ** Negated clauses through the utilities *)

Lemma leafDoc_is_not :
  forall f : SimpleFilter,
    operator f = "is_not"%string ->
    let isKeyword := endsWith (field f) ".keyword" in
    leafDoc f
    = KibanaFilterUtils.mustNot
        (KibanaFilterUtils.mustNot
           (if isKeyword || KibanaFilterUtils.isNumeric (value f)
            then VObj [("term"%string,
                        VObj [(field f,
                               KibanaFilterUtils.convertValue isKeyword
                                 (value f))])]
            else VObj [("match"%string, VObj [(field f, value f)])])).
Proof.
  intros f Hop. unfold leafDoc, KibanaFilterUtils.toKibanaFilter,
    KibanaFilterUtils.buildSingleFilterQuery, KibanaFilterUtils.leaf.
  rewrite Hop. cbn.
  destruct (endsWith (field f) ".keyword"
            || KibanaFilterUtils.isNumeric (value f)); reflexivity.
Qed.

(** C1.  The utilities negate an [is_not] clause twice.  For
    [{status is_not deleted}], [buildSingleFilterQuery] already answers
    [{bool: {must_not: [{match: {status: 'deleted'}}]}}], [toKibanaFilter]
    also sets [meta.negate], and [astToEsQuery] wraps the query in a
    second [must_not]: the compiled document holds the negation twice. *)
Theorem is_not_is_negated_twice :
  KibanaFilterUtils.buildEsQueryFromFilters [Examples.statusIsNotDeleted]
  = KibanaFilterUtils.wrapQuery
      (KibanaFilterUtils.mustNot
         (KibanaFilterUtils.mustNot
            (VObj [("match"%string,
                    VObj [("status"%string, VStr "deleted")])]))).
Proof. reflexivity. Qed.

(** ** Compilation of internal nodes *)

Lemma keep_not_empty :
  forall q : Value,
    KibanaFilterUtils.keep q = true
    <-> KibanaFilterUtils.isEmptyQuery q = false.
Proof.
  intros q. unfold KibanaFilterUtils.keep, KibanaFilterUtils.isEmptyQuery.
  destruct (truthy q); cbn.
  - destruct (truthy (get q "match_all") && Nat.eqb (keys_length q) 1);
      cbn; intuition congruence.
  - intuition congruence.
Qed.

(** C3, as stated, fails on [astToEsQuery]: of the two children of this
    [must] node only the first survives (the range clause with no bound
    compiles to match-all and is dropped), and the result is still the
    [bool] wrapper around it, not the child document. *)
Lemma single_survivor_stays_wrapped :
  let children :=
    [KibanaFilterUtils.leaf
       (KibanaFilterUtils.toKibanaFilter Examples.statusActive);
     KibanaFilterUtils.leaf
       (KibanaFilterUtils.toKibanaFilter Examples.emptyRangeAnd)] in
  filter KibanaFilterUtils.keep
         (map KibanaFilterUtils.astToEsQueryNode children)
  = [leafDoc Examples.statusActive]
  /\ KibanaFilterUtils.astToEsQueryNode (KibanaFilterUtils.mkMust children)
     = boolDoc AND [leafDoc Examples.statusActive]
  /\ KibanaFilterUtils.astToEsQueryNode (KibanaFilterUtils.mkMust children)
     <> leafDoc Examples.statusActive.
Proof.
  cbv zeta. split; [reflexivity|]. split; [reflexivity|].
  vm_compute. discriminate.
Qed.

Lemma astToEsQueryNode_embed_bool :
  forall (op : LogicOp)
         (children : list (Spec.Node KibanaFilterUtils.KibanaFilter)),
    KibanaFilterUtils.astToEsQueryNode (embed (Spec.Bool op children))
    = match filter KibanaFilterUtils.keep
              (map KibanaFilterUtils.astToEsQueryNode (map embed children))
      with
      | [] => KibanaFilterUtils.match_all
      | qs => boolDoc op qs
      end.
Proof.
  intros op children. destruct op; cbn [embed].
  - unfold KibanaFilterUtils.mkMust.
    cbn [KibanaFilterUtils.astToEsQueryNode].
    destruct (filter KibanaFilterUtils.keep
                (map KibanaFilterUtils.astToEsQueryNode (map embed children)));
      reflexivity.
  - unfold KibanaFilterUtils.mkShould.
    cbn [KibanaFilterUtils.astToEsQueryNode].
    destruct (filter KibanaFilterUtils.keep
                (map KibanaFilterUtils.astToEsQueryNode (map embed children)));
      reflexivity.
Qed.

(** C3, amended.  Both compilers compile every child of an internal node
    and drop the children whose document is empty or match-all.  The
    service ([toQueryDSLRecursive]) then answers match-all when none is
    left, the single document itself when one is left, and otherwise
    [{bool: {must: children}}] for AND and [{bool: {should: children,
    minimum_should_match: 1}}] for OR.  The utilities ([astToEsQuery], on
    the [must] and [should] nodes their builder makes) answer match-all
    when none is left and keep the [bool] wrapper as soon as one child is
    left: a single surviving child is not unwrapped. *)
Theorem bool_node_compilation :
  (forall (nid : string) (op : LogicOp)
          (children : list FilterAstService.FilterASTNode),
      let qs := filter FilterAstService.keep
                  (map FilterAstService.toQueryDSLRecursive children) in
      (forall q, In q qs <->
                 In q (map FilterAstService.toQueryDSLRecursive children)
                 /\ FilterAstService.isEmptyQuery q = false)
      /\ FilterAstService.toQueryDSLRecursive
           (FilterAstService.GroupNode nid op children)
         = match qs with
           | [] => FilterAstService.match_all
           | [only] => only
           | _ => boolDoc op qs
           end)
  /\ (forall (op : LogicOp)
             (children : list (Spec.Node KibanaFilterUtils.KibanaFilter)),
         let qs := filter KibanaFilterUtils.keep
                     (map KibanaFilterUtils.astToEsQueryNode
                          (map embed children)) in
         (forall q, In q qs <->
                    In q (map KibanaFilterUtils.astToEsQueryNode
                              (map embed children))
                    /\ KibanaFilterUtils.isEmptyQuery q = false)
         /\ KibanaFilterUtils.astToEsQueryNode (embed (Spec.Bool op children))
            = match qs with
              | [] => KibanaFilterUtils.match_all
              | _ => boolDoc op qs
              end).
Proof.
  split.
  - intros nid op children qs. split.
    + intros q. unfold qs. rewrite filter_In.
      change (FilterAstService.keep q) with (KibanaFilterUtils.keep q).
      rewrite keep_not_empty. tauto.
    + cbn [FilterAstService.toQueryDSLRecursive]. fold qs.
      destruct qs as [|q0 [|q1 rest]]; reflexivity.
  - intros op children qs. split.
    + intros q. unfold qs. rewrite filter_In, keep_not_empty. tauto.
    + unfold qs. rewrite astToEsQueryNode_embed_bool.
      destruct (filter _ _); reflexivity.
Qed.

(** ** Strings and joins *)

Lemma string_append_assoc :
  forall s1 s2 s3 : string,
    ((s1 ++ s2) ++ s3 = s1 ++ (s2 ++ s3))%string.
Proof.
  induction s1 as [|c s1 IH]; intros s2 s3; cbn.
  - reflexivity.
  - rewrite IH. reflexivity.
Qed.

Lemma join_prefix :
  forall (sep p t : string) (rest : list string),
    join sep ((p ++ t)%string :: rest) = (p ++ join sep (t :: rest))%string.
Proof.
  intros sep p t rest. destruct rest as [|r rest]; cbn [join].
  - reflexivity.
  - rewrite string_append_assoc. reflexivity.
Qed.

(** Joining with a space the parts that each start with a connector is
    joining the bare parts with the connector between spaces. *)
Lemma join_connector :
  forall (x : string) (parts : list string) (first : string),
    join " " (first :: map (fun t => (x ++ " " ++ t)%string) parts)
    = join (" " ++ x ++ " ") (first :: parts).
Proof.
  intros x parts. induction parts as [|p parts IH]; intros first.
  - reflexivity.
  - cbn [map]. change (join " " (first :: ?a :: ?l))
      with (first ++ " " ++ join " " (a :: l))%string.
    rewrite IH. rewrite <- (string_append_assoc x " " p), join_prefix.
    change (join ?s (first :: p :: parts))
      with (first ++ s ++ join s (p :: parts))%string.
    rewrite !string_append_assoc. reflexivity.
Qed.

Lemma filter_all :
  forall (A : Type) (p : A -> bool) (l : list A),
    (forall a, In a l -> p a = true) -> filter p l = l.
Proof.
  intros A p l. induction l as [|a l IH]; intros Hall; cbn.
  - reflexivity.
  - rewrite (Hall a) by (left; reflexivity).
    rewrite IH by (intros b Hb; apply Hall; right; exact Hb).
    reflexivity.
Qed.

(** ** One connector throughout, in the utilities *)

Section UniformUtils.
Import KibanaFilterUtils.

Lemma buildEsQueryFromFilters_enabled :
  forall (filters : list SimpleFilter) (e0 : SimpleFilter)
         (es : list SimpleFilter),
    filter enabled filters = e0 :: es ->
    buildEsQueryFromFilters filters
    = wrapQuery
        (astToEsQueryNode
           (embed (Spec.foldClauses (toKibanaFilter e0)
                     (map (fun f => (logicOrAnd (logic f), toKibanaFilter f))
                          es)))).
Proof.
  intros filters e0 es E. unfold buildEsQueryFromFilters.
  destruct filters as [|f0 fs]; [discriminate|].
  rewrite buildFilterASTWithOperators_fold. unfold clausesOf. rewrite E.
  reflexivity.
Qed.

Lemma uniform_query :
  forall (x : LogicOp) (filters : list SimpleFilter) (e0 e1 : SimpleFilter)
         (es : list SimpleFilter),
    filter enabled filters = e0 :: e1 :: es ->
    (forall f, In f (e1 :: es) -> logicOrAnd (logic f) = x) ->
    (forall f, In f (e0 :: e1 :: es) -> keep (leafDoc f) = true) ->
    buildEsQueryFromFilters filters
    = wrapQuery (boolDoc x (map leafDoc (e0 :: e1 :: es))).
Proof.
  intros x filters e0 e1 es E Hx Hk.
  rewrite (buildEsQueryFromFilters_enabled filters e0 (e1 :: es) E).
  rewrite (foldClauses_flat _ x).
  - rewrite astToEsQueryNode_embed_bool.
    assert (Hm : map astToEsQueryNode
                   (map embed
                      (map Spec.Leaf
                         (toKibanaFilter e0
                          :: map snd
                               (map (fun f => (logicOrAnd (logic f),
                                               toKibanaFilter f))
                                    (e1 :: es)))))
                 = map leafDoc (e0 :: e1 :: es)).
    { rewrite !map_map. cbn [map snd embed]. rewrite !map_map.
      reflexivity. }
    rewrite Hm, (filter_all _ keep (map leafDoc (e0 :: e1 :: es))).
    + reflexivity.
    + intros q Hq. apply in_map_iff in Hq. destruct Hq as [f [<- Hf]].
      apply Hk, Hf.
  - discriminate.
  - intros oc Hin. apply in_map_iff in Hin. destruct Hin as [f [<- Hf]].
    cbn [fst]. apply Hx, Hf.
Qed.

Lemma buildPreviewWithGrouping_uniform :
  forall (x : LogicOp) (e0 e1 : PreviewExpr) (es : list PreviewExpr),
    (forall e, In e (e1 :: es) -> exprOperator e = Some x) ->
    buildPreviewWithGrouping (e0 :: e1 :: es)
    = join (" " ++ logicName x ++ " ") (map text (e0 :: e1 :: es)).
Proof.
  intros x e0 e1 es Hx. unfold buildPreviewWithGrouping.
  assert (Hall : forallb
                   (fun op => optLogic_eqb (Some op)
                      (hd_error (map (fun e => logicOrAnd (exprOperator e))
                                     (e1 :: es))))
                   (map (fun e => logicOrAnd (exprOperator e)) (e1 :: es))
                 = true).
  { apply forallb_forall. intros op Hop.
    apply in_map_iff in Hop. destruct Hop as [e [<- He]].
    cbn [map hd_error]. rewrite (Hx e He), (Hx e1 (or_introl eq_refl)).
    cbn. destruct x; reflexivity. }
  rewrite Hall.
  rewrite (map_ext_in
             (fun e => (optLogicName "null" (exprOperator e) ++ " "
                        ++ text e)%string)
             (fun e => (logicName x ++ " " ++ text e)%string)).
  - rewrite <- (map_map text (fun t => (logicName x ++ " " ++ t)%string)).
    rewrite join_connector. reflexivity.
  - intros e He. rewrite (Hx e He). reflexivity.
Qed.

Lemma uniform_preview :
  forall (x : LogicOp) (filters : list SimpleFilter) (e0 e1 : SimpleFilter)
         (es : list SimpleFilter),
    filter enabled filters = e0 :: e1 :: es ->
    (forall f, In f (e1 :: es) -> logicOrAnd (logic f) = x) ->
    buildPreviewString filters
    = join (" " ++ logicName x ++ " ")
           (map formatFilterText (e0 :: e1 :: es)).
Proof.
  intros x filters e0 e1 es E Hx.
  unfold buildPreviewString. rewrite E. cbn [map].
  rewrite (buildPreviewWithGrouping_uniform x).
  - cbn [map text]. rewrite map_map. reflexivity.
  - intros e [<-|He].
    + cbn. rewrite (Hx e1 (or_introl eq_refl)). reflexivity.
    + apply in_map_iff in He. destruct He as [f [<- Hf]].
      cbn. rewrite (Hx f (or_intror Hf)). reflexivity.
Qed.

End UniformUtils.

(** ** One connector throughout, in the filter bar component *)

Section UniformComponent.
Import KibanaFilterBar.

Lemma collectQueries_compile :
  forall (rows : list SimpleFilter) (qs : list Value) (index : nat),
    rowsCompileTo rows qs ->
    map itemQuery (collectQueries index rows) = qs
    /\ map itemLogic (collectQueries index rows)
       = map (fun r => logicOrAnd (logic r)) rows.
Proof.
  intros rows qs index H. revert index.
  induction H as [|r q rows qs Hq _ IH]; intros index.
  - split; reflexivity.
  - cbn [collectQueries]. rewrite Hq. cbn [map itemQuery itemLogic].
    destruct (IH (S index)) as [-> ->]. split; reflexivity.
Qed.

Lemma groupLoop_all_and :
  forall (todo : list QueryItem) (groups : list Value) (q : Value),
    (forall item, In item todo -> itemLogic item = AND) ->
    fst (groupLoop todo groups [q]) ++ closeGroup (snd (groupLoop todo groups [q]))
    = groups ++ q :: map itemQuery todo.
Proof.
  induction todo as [|item todo IH]; intros groups q Hall.
  - reflexivity.
  - cbn [groupLoop]. rewrite (Hall item (or_introl eq_refl)).
    rewrite IH by (intros it Hin; apply Hall; right; exact Hin).
    cbn [closeGroup map]. rewrite <- app_assoc. reflexivity.
Qed.

Lemma groupLoop_all_or :
  forall (todo : list QueryItem) (groups current : list Value),
    (forall item, In item todo -> itemLogic item = OR) ->
    groupLoop todo groups current = (groups, current ++ map itemQuery todo).
Proof.
  induction todo as [|item todo IH]; intros groups current Hall.
  - cbn. rewrite app_nil_r. reflexivity.
  - cbn [groupLoop]. rewrite (Hall item (or_introl eq_refl)).
    rewrite IH by (intros it Hin; apply Hall; right; exact Hin).
    cbn [map]. rewrite <- app_assoc. reflexivity.
Qed.

Lemma generateQueryDSL_uniform :
  forall (x : LogicOp) (r0 r1 : SimpleFilter) (rows : list SimpleFilter)
         (qs : list Value),
    rowsCompileTo (r0 :: r1 :: rows) qs ->
    (forall r, In r (r1 :: rows) -> logicOrAnd (logic r) = x) ->
    generateQueryDSL (r0 :: r1 :: rows)
    = KibanaFilterUtils.wrapQuery (boolDoc x qs).
Proof.
  intros x r0 r1 rows qs Hc Hx.
  assert (Hqs : exists q0 q1 qr, qs = q0 :: q1 :: qr).
  { inversion Hc as [|? q0 ? ? _ Hc']; subst.
    inversion Hc' as [|? q1 ? qr _ _]; subst. eauto. }
  destruct Hqs as (q0 & q1 & qr & ->).
  destruct (collectQueries_compile _ _ 0 Hc) as [Hq Hl].
  unfold generateQueryDSL.
  destruct (collectQueries 0 (r0 :: r1 :: rows)) as [|first rest];
    [discriminate|].
  cbn [map] in Hq, Hl. injection Hq as Hq0 Hqrest.
  injection Hl as _ Hlrest.
  assert (Hall : forall item, In item rest -> itemLogic item = x).
  { intros item Hin.
    assert (Hi : In (itemLogic item) (map itemLogic rest))
      by (apply in_map; exact Hin).
    rewrite Hlrest in Hi.
    change (In (itemLogic item)
               (map (fun r => logicOrAnd (logic r)) (r1 :: rows))) in Hi.
    apply in_map_iff in Hi. destruct Hi as [r [<- Hr]]. apply Hx, Hr. }
  unfold groupQueries. destruct x.
  - pose proof (groupLoop_all_and rest [] (itemQuery first) Hall) as Hg.
    destruct (groupLoop rest [] [itemQuery first]) as [groups current].
    cbn [fst snd] in Hg. rewrite Hg, Hq0, Hqrest. reflexivity.
  - rewrite (groupLoop_all_or rest [] [itemQuery first] Hall).
    cbn [app]. rewrite Hq0, Hqrest. reflexivity.
Qed.

End UniformComponent.

(** The preview text of the component, for one connector throughout. *)

Lemma join_interleave :
  forall (A : Type) (f : A -> string) (c : string) (items : list A)
         (first : string),
    join " " (first :: flat_map (fun a => [c; f a]) items)
    = join (" " ++ c ++ " ") (first :: map f items).
Proof.
  intros A f c items. induction items as [|a items IH]; intros first.
  - reflexivity.
  - cbn [flat_map app map].
    change (join " " (first :: c :: f a :: ?l))
      with (first ++ " " ++ c ++ " " ++ join " " (f a :: l))%string.
    rewrite IH.
    change (join ?s (first :: f a :: ?l))
      with (first ++ s ++ join s (f a :: l))%string.
    rewrite !string_append_assoc. reflexivity.
Qed.

Lemma join_snoc :
  forall (sep z : string) (l : list string),
    l <> [] ->
    join sep (l ++ [z]) = (join sep l ++ sep ++ z)%string.
Proof.
  intros sep z l. induction l as [|a l IH]; intros Hne; [congruence|].
  destruct l as [|b l].
  - reflexivity.
  - change (join sep ((a :: b :: l) ++ [z]))
      with (a ++ sep ++ join sep ((b :: l) ++ [z]))%string.
    rewrite IH by discriminate.
    change (join sep (a :: b :: l)) with (a ++ sep ++ join sep (b :: l))%string.
    rewrite !string_append_assoc. reflexivity.
Qed.

Section UniformComponentPreview.
Import KibanaFilterBar.

Lemma filterQuery_some_has :
  forall (r : SimpleFilter) (q : Value),
    filterQuery r = Some q -> hasFieldAndOperator r = true.
Proof.
  intros r q H. unfold filterQuery in H.
  destruct (hasFieldAndOperator r); [reflexivity|discriminate].
Qed.

Lemma collectExpressions_later :
  forall (rows : list SimpleFilter) (index : nat),
    (forall r, In r rows -> hasFieldAndOperator r = true) ->
    collectExpressions (S index) rows = map (filterExpr 1) rows.
Proof.
  induction rows as [|r rows IH]; intros index Hall.
  - reflexivity.
  - cbn [collectExpressions map]. rewrite (Hall r (or_introl eq_refl)).
    rewrite IH by (intros r' Hr'; apply Hall; right; exact Hr').
    reflexivity.
Qed.

Lemma collectExpressions_all :
  forall (r0 : SimpleFilter) (rows : list SimpleFilter),
    (forall r, In r (r0 :: rows) -> hasFieldAndOperator r = true) ->
    collectExpressions 0 (r0 :: rows)
    = filterExpr 0 r0 :: map (filterExpr 1) rows.
Proof.
  intros r0 rows Hall. cbn [collectExpressions].
  rewrite (Hall r0 (or_introl eq_refl)).
  rewrite collectExpressions_later
    by (intros r Hr; apply Hall; right; exact Hr).
  reflexivity.
Qed.

Lemma previewGroupLoop_all_and :
  forall (todo : list FilterExpr) (groups : list (list FilterExpr))
         (e : FilterExpr),
    (forall t, In t todo -> exprLogic t = Some AND) ->
    exists current,
      current <> []
      /\ previewGroupLoop todo groups [e]
         = (removelast (groups ++ map (fun t => [t]) (e :: todo)), current)
      /\ removelast (groups ++ map (fun t => [t]) (e :: todo)) ++ [current]
         = groups ++ map (fun t => [t]) (e :: todo).
Proof.
  induction todo as [|t todo IH]; intros groups e Hall.
  - exists [e]. cbn [previewGroupLoop map].
    rewrite removelast_last. repeat split. discriminate.
  - cbn [previewGroupLoop]. rewrite (Hall t (or_introl eq_refl)).
    destruct (IH (groups ++ [[e]]) t
                 (fun t' Ht' => Hall t' (or_intror Ht')))
      as (current & Hne & Hloop & Hsplit).
    exists current. rewrite Hloop.
    change (map (fun t0 => [t0]) (e :: t :: todo))
      with ([[e]] ++ map (fun t0 : FilterExpr => [t0]) (t :: todo)).
    rewrite app_assoc. repeat split; assumption.
Qed.

Lemma previewGroupLoop_all_or :
  forall (todo : list FilterExpr) (groups : list (list FilterExpr))
         (current : list FilterExpr),
    (forall t, In t todo -> exprLogic t = Some OR) ->
    previewGroupLoop todo groups current = (groups, current ++ todo).
Proof.
  induction todo as [|t todo IH]; intros groups current Hall.
  - cbn. rewrite app_nil_r. reflexivity.
  - cbn [previewGroupLoop]. rewrite (Hall t (or_introl eq_refl)).
    rewrite IH by (intros t' Ht'; apply Hall; right; exact Ht').
    rewrite <- app_assoc. reflexivity.
Qed.

Lemma groupsParts_singletons :
  forall (es : list FilterExpr) (groupIdx : nat),
    groupsParts (S groupIdx) (map (fun e => [e]) es)
    = flat_map (fun e => [" AND"%string; exprPart e]) es.
Proof.
  induction es as [|e es IH]; intros groupIdx.
  - reflexivity.
  - cbn [map groupsParts groupParts flat_map app]. rewrite IH. reflexivity.
Qed.

Lemma membersParts_later :
  forall (es : list FilterExpr) (exprIdx : nat),
    membersParts (S exprIdx) es
    = flat_map (fun e => [" OR"%string; exprPart e]) es.
Proof.
  induction es as [|e es IH]; intros exprIdx.
  - reflexivity.
  - cbn [membersParts memberParts flat_map app]. rewrite IH. reflexivity.
Qed.

Lemma updatePreview_uniform :
  forall (x : LogicOp) (r0 r1 : SimpleFilter) (rows : list SimpleFilter),
    (forall r, In r (r0 :: r1 :: rows) -> hasFieldAndOperator r = true) ->
    (forall r, In r (r1 :: rows) -> logicOrAnd (logic r) = x) ->
    updatePreview (r0 :: r1 :: rows)
    = match x with
      | AND => join "  AND " (map rowPart (r0 :: r1 :: rows))
      | OR => ("( " ++ join "  OR " (map rowPart (r0 :: r1 :: rows))
               ++ " )")%string
      end.
Proof.
  intros x r0 r1 rows Hhas Hx. unfold updatePreview.
  rewrite (collectExpressions_all r0 (r1 :: rows) Hhas).
  assert (Hlogic : forall t, In t (map (filterExpr 1) (r1 :: rows)) ->
                             exprLogic t = Some x).
  { intros t Ht. apply in_map_iff in Ht. destruct Ht as [r [<- Hr]].
    cbn. rewrite (Hx r Hr). reflexivity. }
  destruct x.
  - destruct (previewGroupLoop_all_and
                (map (filterExpr 1) (r1 :: rows)) [] (filterExpr 0 r0) Hlogic)
      as (current & Hne & Hloop & Hsplit).
    rewrite Hloop.
    replace (match current with
             | [] => removelast
                       ([] ++ map (fun t => [t])
                                  (filterExpr 0 r0
                                   :: map (filterExpr 1) (r1 :: rows)))
             | _ :: _ => removelast
                           ([] ++ map (fun t => [t])
                                      (filterExpr 0 r0
                                       :: map (filterExpr 1) (r1 :: rows)))
                         ++ [current]
             end)
      with ([] ++ map (fun t : FilterExpr => [t])
                      (filterExpr 0 r0 :: map (filterExpr 1) (r1 :: rows))).
    + cbn [app map groupsParts groupParts].
      rewrite groupsParts_singletons. cbn [app].
      etransitivity;
        [apply (join_interleave FilterExpr exprPart " AND"
                  (map (filterExpr 1) (r1 :: rows)))|].
      rewrite map_map. reflexivity.
    + rewrite <- Hsplit at 1. destruct current; [congruence|reflexivity].
  - rewrite (previewGroupLoop_all_or _ _ _ Hlogic).
    cbn [app map groupsParts groupParts membersParts memberParts].
    rewrite membersParts_later, app_nil_r.
    etransitivity;
      [apply (join_snoc " " ")"
                ("("%string
                 :: exprPart (filterExpr 0 r0)
                    :: flat_map (fun e => [" OR"%string; exprPart e])
                         (map (filterExpr 1) (r1 :: rows))));
       discriminate|].
    change (join " " ("("%string :: exprPart (filterExpr 0 r0) :: ?l))
      with ("(" ++ " " ++ join " " (exprPart (filterExpr 0 r0) :: l))%string.
    rewrite (join_interleave FilterExpr exprPart " OR").
    rewrite map_map. rewrite !string_append_assoc. reflexivity.
Qed.

End UniformComponentPreview.

(** ** The connector change [A, B(AND), C(OR)] *)

(** C2, as stated, fails on the filter bar component: its own
    [generateQueryDSL] groups the OR run [B, C] and joins the groups by
    AND, and its [updatePreview] renders that grouping. *)
Lemma connector_change_in_component :
  let rows := [Examples.statusActive; Examples.typeUserAnd;
               Examples.typeAdminOr] in
  let qa := VObj [("match"%string, VObj [("status"%string, VStr "active")])] in
  let qb := VObj [("match"%string, VObj [("type"%string, VStr "user")])] in
  let qc := VObj [("match"%string, VObj [("type"%string, VStr "admin")])] in
  KibanaFilterBar.generateQueryDSL rows
  = KibanaFilterUtils.wrapQuery (boolDoc AND [qa; boolDoc OR [qb; qc]])
  /\ KibanaFilterBar.generateQueryDSL rows
     <> KibanaFilterUtils.wrapQuery (connectorChangeDoc qa qb qc)
  /\ KibanaFilterBar.updatePreview rows
     = "status: active  AND ( type: user  OR type: admin )"%string
  /\ KibanaFilterBar.updatePreview rows
     <> "(status: active AND type: user) OR type: admin"%string.
Proof.
  cbv zeta. split; [reflexivity|]. split; [vm_compute; discriminate|].
  split; [reflexivity|]. vm_compute. discriminate.
Qed.

Lemma keep_boolDoc :
  forall (op : LogicOp) (qs : list Value),
    KibanaFilterUtils.keep (boolDoc op qs) = true.
Proof. intros op qs. destruct op; reflexivity. Qed.

(** C2, amended.  For clauses [A, B(AND), C(OR)] that each compile to a
    document, the utilities ([buildEsQueryFromFilters],
    [buildPreviewString]) give [{bool: {should: [{bool: {must: [A, B]}},
    C], minimum_should_match: 1}}] and the preview ["(A AND B) OR C"].
    The filter bar component's own [generateQueryDSL] and [updatePreview]
    group the OR run instead: [{bool: {must: [A, {bool: {should: [B, C],
    minimum_should_match: 1}}]}}], rendered as [A], [AND] and the
    parenthesised run [B OR C]. *)
Theorem connector_change :
  forall a b c : SimpleFilter,
    logicOrAnd (logic b) = AND ->
    logicOrAnd (logic c) = OR ->
    (disabled a = false -> disabled b = false -> disabled c = false ->
     KibanaFilterUtils.buildPreviewString [a; b; c]
     = ("(" ++ KibanaFilterUtils.formatFilterText a ++ " AND "
        ++ KibanaFilterUtils.formatFilterText b ++ ") OR "
        ++ KibanaFilterUtils.formatFilterText c)%string
     /\ (KibanaFilterUtils.keep (leafDoc a) = true ->
         KibanaFilterUtils.keep (leafDoc b) = true ->
         KibanaFilterUtils.keep (leafDoc c) = true ->
         KibanaFilterUtils.buildEsQueryFromFilters [a; b; c]
         = KibanaFilterUtils.wrapQuery
             (connectorChangeDoc (leafDoc a) (leafDoc b) (leafDoc c))))
    /\ (forall qa qb qc : Value,
           rowsCompileTo [a; b; c] [qa; qb; qc] ->
           KibanaFilterBar.generateQueryDSL [a; b; c]
           = KibanaFilterUtils.wrapQuery
               (boolDoc AND [qa; boolDoc OR [qb; qc]])
           /\ KibanaFilterBar.updatePreview [a; b; c]
              = (rowPart a ++ "  AND ( " ++ rowPart b ++ "  OR "
                 ++ rowPart c ++ " )")%string).
Proof.
  intros a b c Hb Hc. split.
  - intros Da Db Dc.
    assert (E : filter KibanaFilterUtils.enabled [a; b; c] = [a; b; c]).
    { unfold KibanaFilterUtils.enabled. cbn [filter].
      rewrite Da, Db, Dc. reflexivity. }
    split.
    + unfold KibanaFilterUtils.buildPreviewString. rewrite E.
      cbn [map]. unfold KibanaFilterUtils.buildPreviewWithGrouping.
      cbn [map KibanaFilterUtils.exprOperator logicOrAnd].
      rewrite Hb, Hc. cbn. rewrite !string_append_assoc. reflexivity.
    + intros Ka Kb Kc.
      rewrite (buildEsQueryFromFilters_enabled _ _ _ E).
      cbn [map]. rewrite Hb, Hc.
      unfold Spec.foldClauses. cbn [fold_left Spec.combine fst snd LogicOp_eqb].
      rewrite astToEsQueryNode_embed_bool. cbn [map].
      rewrite astToEsQueryNode_embed_bool. cbn [map embed].
      change (KibanaFilterUtils.astToEsQueryNode
                (KibanaFilterUtils.leaf (KibanaFilterUtils.toKibanaFilter a)))
        with (leafDoc a).
      change (KibanaFilterUtils.astToEsQueryNode
                (KibanaFilterUtils.leaf (KibanaFilterUtils.toKibanaFilter b)))
        with (leafDoc b).
      change (KibanaFilterUtils.astToEsQueryNode
                (KibanaFilterUtils.leaf (KibanaFilterUtils.toKibanaFilter c)))
        with (leafDoc c).
      cbn [filter]. rewrite Ka, Kb. cbn [filter].
      rewrite keep_boolDoc, Kc. reflexivity.
  - intros qa qb qc Hrows.
    inversion Hrows as [|? ? ? ? Qa Hrows']; subst.
    inversion Hrows' as [|? ? ? ? Qb Hrows'']; subst.
    inversion Hrows'' as [|? ? ? ? Qc _]; subst.
    split.
    + unfold KibanaFilterBar.generateQueryDSL.
      cbn [KibanaFilterBar.collectQueries]. rewrite Qa, Qb, Qc, Hb, Hc.
      reflexivity.
    + unfold KibanaFilterBar.updatePreview.
      rewrite (collectExpressions_all a [b; c]).
      * cbn [map KibanaFilterBar.previewGroupLoop KibanaFilterBar.filterExpr
               KibanaFilterBar.exprLogic].
        rewrite Hb, Hc. cbn [app]. unfold rowPart. cbn.
        rewrite ?string_append_assoc. reflexivity.
      * intros r [<-|[<-|[<-|[]]]]; eapply filterQuery_some_has; eassumption.
Qed.

(** The clauses of the specification's scenario satisfy the hypotheses of
    [connector_change]. *)
Lemma connector_change_witness :
  KibanaFilterUtils.buildEsQueryFromFilters
    [Examples.statusActive; Examples.typeUserAnd; Examples.typeAdminOr]
  = KibanaFilterUtils.wrapQuery
      (connectorChangeDoc (leafDoc Examples.statusActive)
                          (leafDoc Examples.typeUserAnd)
                          (leafDoc Examples.typeAdminOr))
  /\ KibanaFilterUtils.buildPreviewString
       [Examples.statusActive; Examples.typeUserAnd; Examples.typeAdminOr]
     = "(status: active AND type: user) OR type: admin"%string.
Proof.
  destruct (connector_change Examples.statusActive Examples.typeUserAnd
              Examples.typeAdminOr eq_refl eq_refl) as [Hutils _].
  destruct (Hutils eq_refl eq_refl eq_refl) as [Hpreview Hquery].
  split.
  - exact (Hquery eq_refl eq_refl eq_refl).
  - exact Hpreview.
Defined.

(** ** One connector throughout *)

Lemma rowsCompileTo_in :
  forall (rows : list SimpleFilter) (qs : list Value),
    rowsCompileTo rows qs ->
    forall r, In r rows -> exists q, KibanaFilterBar.filterQuery r = Some q.
Proof.
  intros rows qs H. induction H as [|r0 q0 rows qs Hq _ IH]; intros r Hr.
  - destruct Hr.
  - destruct Hr as [<-|Hr]; [eauto|apply IH, Hr].
Qed.

(** C8, as stated, fails on the filter bar component: its [updatePreview]
    puts a run of OR clauses in parentheses, also when OR is the only
    connector. *)
Lemma uniform_or_preview_in_component :
  KibanaFilterBar.updatePreview [Examples.statusActive; Examples.typeUserOr]
  = "( status: active  OR type: user )"%string
  /\ KibanaFilterBar.updatePreview
       [Examples.statusActive; Examples.typeUserOr]
     <> "status: active OR type: user"%string.
Proof. split; [reflexivity|]. vm_compute. discriminate. Qed.

(** C8, amended.  Take at least two clauses, all joined by the one
    connector X.  In the utilities the preview is the clause texts joined
    by [" X "], with no parenthesis added, and when every clause compiles
    to a document the query is [{bool: {must: [...]}}] for AND and
    [{bool: {should: [...], minimum_should_match: 1}}] for OR.  The filter
    bar component's own [generateQueryDSL] gives the same two shapes; its
    [updatePreview] joins an all-AND sequence by ["  AND "] and wraps an
    all-OR sequence in parentheses. *)
Theorem uniform_connector :
  forall (x : LogicOp) (e0 e1 : SimpleFilter) (es : list SimpleFilter),
    (forall f, In f (e1 :: es) -> logicOrAnd (logic f) = x) ->
    (forall filters : list SimpleFilter,
        filter KibanaFilterUtils.enabled filters = e0 :: e1 :: es ->
        KibanaFilterUtils.buildPreviewString filters
        = join (" " ++ logicName x ++ " ")
               (map KibanaFilterUtils.formatFilterText (e0 :: e1 :: es))
        /\ ((forall f, In f (e0 :: e1 :: es) ->
                       KibanaFilterUtils.keep (leafDoc f) = true) ->
            KibanaFilterUtils.buildEsQueryFromFilters filters
            = KibanaFilterUtils.wrapQuery
                (boolDoc x (map leafDoc (e0 :: e1 :: es)))))
    /\ (forall qs : list Value,
           rowsCompileTo (e0 :: e1 :: es) qs ->
           KibanaFilterBar.generateQueryDSL (e0 :: e1 :: es)
           = KibanaFilterUtils.wrapQuery (boolDoc x qs)
           /\ KibanaFilterBar.updatePreview (e0 :: e1 :: es)
              = match x with
                | AND => join "  AND " (map rowPart (e0 :: e1 :: es))
                | OR => ("( " ++ join "  OR " (map rowPart (e0 :: e1 :: es))
                         ++ " )")%string
                end).
Proof.
  intros x e0 e1 es Hx. split.
  - intros filters E. split.
    + apply uniform_preview; assumption.
    + intros Hk. apply uniform_query; assumption.
  - intros qs Hrows. split.
    + apply generateQueryDSL_uniform; assumption.
    + apply updatePreview_uniform; [|assumption].
      intros r Hr. destruct (rowsCompileTo_in _ _ Hrows r Hr) as [q Hq].
      eapply filterQuery_some_has. exact Hq.
Qed.

(** Three clauses joined by OR satisfy the hypotheses of
    [uniform_connector]. *)
Lemma uniform_connector_witness :
  let filters := [Examples.statusActive; Examples.typeUserOr;
                  Examples.typeAdminOr] in
  KibanaFilterUtils.buildPreviewString filters
  = "status: active OR type: user OR type: admin"%string
  /\ KibanaFilterUtils.buildEsQueryFromFilters filters
     = KibanaFilterUtils.wrapQuery (boolDoc OR (map leafDoc filters)).
Proof.
  cbv zeta.
  assert (Hx : forall f, In f [Examples.typeUserOr; Examples.typeAdminOr] ->
                         logicOrAnd (logic f) = OR).
  { intros f [<-|[<-|[]]]; reflexivity. }
  destruct (uniform_connector OR Examples.statusActive Examples.typeUserOr
              [Examples.typeAdminOr] Hx) as [Hutils _].
  destruct (Hutils [Examples.statusActive; Examples.typeUserOr;
                    Examples.typeAdminOr] eq_refl) as [Hpreview Hquery].
  split.
  - exact Hpreview.
  - apply Hquery. intros f [<-|[<-|[<-|[]]]]; reflexivity.
Defined.

(** ** The group overlay *)

Section Overlay.
Import KibanaFilterUtils.

Lemma fold_left_min_le :
  forall (rest : list nat) (i : nat), fold_left Nat.min rest i <= i.
Proof.
  induction rest as [|r rest IH]; intros i; cbn.
  - lia.
  - specialize (IH (Nat.min i r)). lia.
Qed.

Lemma fold_left_min_in :
  forall (rest : list nat) (i : nat), In (fold_left Nat.min rest i) (i :: rest).
Proof.
  induction rest as [|r rest IH]; intros i; cbn [fold_left].
  - left. reflexivity.
  - destruct (IH (Nat.min i r)) as [H|H].
    + rewrite <- H.
      destruct (Nat.min_spec i r) as [[_ E]|[_ E]]; rewrite E;
        [left|right; left]; reflexivity.
    + right. right. exact H.
Qed.

Lemma list_max_ge_head :
  forall (i : nat) (rest : list nat), i <= list_max (i :: rest).
Proof. intros i rest. cbn. lia. Qed.

Lemma startsAt_le_max :
  forall (currentIdx : nat) (g : FilterGroupDefinition),
    startsAt currentIdx g = true ->
    currentIdx <= list_max (filterIndices g).
Proof.
  intros currentIdx g H. unfold startsAt, groupStart, minIdx in H.
  destruct (filterIndices g) as [|i rest]; [discriminate|].
  apply Nat.eqb_eq in H. subst currentIdx.
  pose proof (fold_left_min_le rest i). pose proof (list_max_ge_head i rest).
  lia.
Qed.

Lemma nextGroupStart_after :
  forall (sortedGroups : list FilterGroupDefinition) (currentIdx next : nat),
    nextGroupStart sortedGroups currentIdx = Some next -> currentIdx < next.
Proof.
  intros sortedGroups currentIdx next H. unfold nextGroupStart, minIdx in H.
  match type of H with
  | match ?l with _ => _ end = _ => remember l as starts eqn:Hs
  end.
  destruct starts as [|s rest]; [discriminate|].
  injection H as <-.
  pose proof (fold_left_min_in rest s) as Hin. rewrite Hs in Hin.
  apply in_flat_map in Hin. destruct Hin as [g [_ Hg]].
  destruct (groupStart g) as [s'|]; [|destruct Hg].
  destruct (Nat.ltb currentIdx s') eqn:E; [|destruct Hg].
  destruct Hg as [<-|[]]. apply Nat.ltb_lt. exact E.
Qed.

(** The loop needs no more than [S lastIdx - currentIdx] iterations: any
    two amounts of fuel above that give the same segments. *)
Lemma segmentsLoop_fuel :
  forall (sortedGroups : list FilterGroupDefinition) (lastIdx : nat)
         (fuel1 fuel2 currentIdx : nat),
    S lastIdx - currentIdx <= fuel1 ->
    S lastIdx - currentIdx <= fuel2 ->
    segmentsLoop fuel1 sortedGroups lastIdx currentIdx
    = segmentsLoop fuel2 sortedGroups lastIdx currentIdx.
Proof.
  intros sortedGroups lastIdx fuel1.
  induction fuel1 as [|fuel1 IH]; intros fuel2 currentIdx H1 H2.
  - destruct fuel2 as [|fuel2]; [reflexivity|].
    cbn [segmentsLoop].
    replace (Nat.leb currentIdx lastIdx) with false
      by (symmetry; apply Nat.leb_gt; lia).
    reflexivity.
  - cbn [segmentsLoop].
    destruct (Nat.leb currentIdx lastIdx) eqn:E.
    + apply Nat.leb_le in E.
      destruct fuel2 as [|fuel2]; [lia|].
      cbn [segmentsLoop].
      replace (Nat.leb currentIdx lastIdx) with true
        by (symmetry; apply Nat.leb_le; lia).
      destruct (find (startsAt currentIdx) sortedGroups) as [group|] eqn:F.
      * apply find_some in F. destruct F as [_ F].
        apply startsAt_le_max in F.
        f_equal. apply IH; lia.
      * f_equal.
        destruct (nextGroupStart sortedGroups currentIdx) as [next|] eqn:N.
        -- apply nextGroupStart_after in N. apply IH; lia.
        -- apply IH; lia.
    + destruct fuel2 as [|fuel2]; [reflexivity|].
      cbn [segmentsLoop]. rewrite E. reflexivity.
Qed.

Lemma segmentsLoop_placed :
  forall (sortedGroups : list FilterGroupDefinition) (lastIdx : nat)
         (fuel currentIdx : nat),
    Forall (segmentPlaced lastIdx)
           (segmentsLoop fuel sortedGroups lastIdx currentIdx).
Proof.
  intros sortedGroups lastIdx fuel.
  induction fuel as [|fuel IH]; intros currentIdx; cbn [segmentsLoop].
  - constructor.
  - destruct (Nat.leb currentIdx lastIdx) eqn:E; [|constructor].
    apply Nat.leb_le in E.
    destruct (find (startsAt currentIdx) sortedGroups) as [group|].
    + constructor; [|apply IH].
      split; [exact E|]. left. split; [reflexivity|]. eexists; reflexivity.
    + constructor; [|apply IH].
      split; [exact E|]. right. cbn.
      repeat split.
      destruct (nextGroupStart sortedGroups currentIdx); lia.
Qed.

Lemma segmentsLoop_nonempty :
  forall (sortedGroups : list FilterGroupDefinition)
         (firstIdx lastIdx : nat),
    firstIdx <= lastIdx ->
    segmentsLoop (S lastIdx - firstIdx) sortedGroups lastIdx firstIdx <> [].
Proof.
  intros sortedGroups firstIdx lastIdx H.
  replace (S lastIdx - firstIdx) with (S (lastIdx - firstIdx)) by lia.
  cbn [segmentsLoop].
  replace (Nat.leb firstIdx lastIdx) with true
    by (symmetry; apply Nat.leb_le; exact H).
  destruct (find (startsAt firstIdx) sortedGroups); discriminate.
Qed.

Lemma kibanaAt_returns :
  forall (filters : list GroupedFilter) (idx : nat),
    idx < List.length filters ->
    exists k, kibanaAt filters idx = Returns k.
Proof.
  intros filters idx H. unfold kibanaAt.
  destruct (nth_error filters idx) eqn:E; [eauto|].
  apply nth_error_None in E. lia.
Qed.

Lemma logicAt_returns :
  forall (filters : list GroupedFilter) (idx : nat),
    idx < List.length filters ->
    logicAt filters idx = Returns (connectorAt filters idx).
Proof.
  intros filters idx H. unfold logicAt, connectorAt.
  destruct (nth_error filters idx) eqn:E; [reflexivity|].
  apply nth_error_None in E. lia.
Qed.

Lemma flatLoop_returns :
  forall (filters : list GroupedFilter) (count i : nat)
         (result : GroupAwareASTNode),
    i + count <= List.length filters ->
    exists t, flatLoop filters count i result = Returns t.
Proof.
  intros filters count. induction count as [|count IH]; intros i result H.
  - eexists; reflexivity.
  - cbn [flatLoop]. rewrite logicAt_returns by lia.
    destruct (kibanaAt_returns filters i) as [k Hk]; [lia|].
    cbn [bind]. rewrite Hk. cbn [bind]. apply IH. lia.
Qed.

Lemma segmentNode_returns :
  forall (filters : list GroupedFilter) (lastIdx : nat) (seg : Segment),
    lastIdx < List.length filters ->
    segmentPlaced lastIdx seg ->
    exists t, segmentNode filters seg = Returns t.
Proof.
  intros filters lastIdx seg Hlast [Hstart [[Ht [g Hg]]|[Ht [Hg Hend]]]];
    unfold segmentNode; rewrite Ht, ?Hg.
  - unfold buildGroupNode. eexists; reflexivity.
  - unfold buildFlatAST.
    destruct (kibanaAt_returns filters (startIdx seg)) as [k Hk]; [lia|].
    rewrite Hk. cbn [bind]. apply flatLoop_returns. lia.
Qed.

Lemma combineSegments_wraps :
  forall (filters : list GroupedFilter) (lastIdx : nat)
         (todo : list Segment) (result : GroupAwareASTNode),
    lastIdx < List.length filters ->
    Forall (segmentPlaced lastIdx) todo ->
    exists trees,
      Forall2 (fun seg t => segmentNode filters seg = Returns t) todo trees
      /\ combineSegments filters todo result
         = Returns (joinSegments filters result (combine todo trees)).
Proof.
  intros filters lastIdx todo.
  induction todo as [|seg todo IH]; intros result Hlast Hall.
  - exists []. split; [constructor|reflexivity].
  - inversion Hall as [|? ? Hseg Hall']; subst.
    destruct (segmentNode_returns filters lastIdx seg Hlast Hseg) as [t Ht].
    cbn [combineSegments].
    rewrite logicAt_returns by (destruct Hseg; lia).
    cbn [bind]. rewrite Ht. cbn [bind].
    destruct (IH (wrapJoin result (connectorAt filters (startIdx seg)) t)
                 Hlast Hall') as [trees [Htrees Hcomb]].
    exists (t :: trees). split; [constructor; assumption|].
    unfold joinSegments in *. cbn [combine fold_left fst snd].
    unfold wrapJoin at 2. unfold wrapJoin at 2 in Hcomb.
    destruct (connectorAt filters (startIdx seg)); exact Hcomb.
Qed.

Lemma buildGroupNode_members :
  forall (filters : list GroupedFilter) (group : FilterGroupDefinition),
    buildGroupNode filters group
    = Returns
        match survivingMembers filters group with
        | [] => GFilterNode (Some emptyFilter)
        | [member] => gleaf member
        | members => gembed (Spec.Bool (type group) (map Spec.Leaf members))
        end.
Proof.
  intros filters group. unfold buildGroupNode, survivingMembers.
  assert (E : forall indices,
             flat_map (fun idx => match nth_error filters idx with
                                  | Some f => [gleaf (toKibanaFilter (base f))]
                                  | None => []
                                  end)
                      (filter (fun idx => Nat.ltb idx (List.length filters))
                              indices)
             = map gleaf
                 (flat_map (fun idx => match nth_error filters idx with
                                       | Some f => [toKibanaFilter (base f)]
                                       | None => []
                                       end) indices)).
  { induction indices as [|idx indices IH]; [reflexivity|].
    cbn [filter flat_map].
    destruct (Nat.ltb idx (List.length filters)) eqn:L.
    - cbn [flat_map]. rewrite IH.
      destruct (nth_error filters idx); cbn; reflexivity.
    - apply Nat.ltb_ge in L. apply nth_error_None in L. rewrite L.
      exact IH. }
  rewrite E.
  destruct (flat_map _ (filterIndices group)) as [|m0 [|m1 members]];
    try reflexivity.
  cbn [map]. destruct (type group); cbn [gembed map]; rewrite map_map;
    reflexivity.
Qed.

End Overlay.

(** C5, as stated, fails on [buildASTWithGroups]: take the clauses a,
    b(AND), c(AND), d(OR) with the explicit OR group [[2, 3]].  The
    ungrouped run gives [must: [a, b]], the group gives [should: [c, d]],
    and the group is joined by AND, the connector the running result
    already carries.  The code nests: [must: [must: [a, b], should: [c,
    d]]].  The fold of the implicit builder would append the group's
    subtree to the running AND node. *)
Lemma overlay_join_nests :
  let a := kibanaOf (groupedClause "a" None) in
  let b := kibanaOf (groupedClause "b" (Some AND)) in
  let c := kibanaOf (groupedClause "c" (Some AND)) in
  let d := kibanaOf (groupedClause "d" (Some OR)) in
  let run := Spec.Bool AND [Spec.Leaf a; Spec.Leaf b] in
  let group := Spec.Bool OR [Spec.Leaf c; Spec.Leaf d] in
  KibanaFilterUtils.buildGroupedAST overlayFilters overlayGroups
  = KibanaFilterUtils.Returns (Some (gembed (Spec.Bool AND [run; group])))
  /\ Spec.combine run AND group
     = Spec.Bool AND [Spec.Leaf a; Spec.Leaf b; group]
  /\ KibanaFilterUtils.buildGroupedAST overlayFilters overlayGroups
     <> KibanaFilterUtils.Returns
          (Some (gembed (Spec.combine run AND group))).
Proof.
  cbv zeta. split; [reflexivity|]. split; [reflexivity|].
  vm_compute. discriminate.
Qed.

(** C5, amended.  A group segment compiles to the leaf of its only
    surviving member, or to Bool(group.type, leaves of the surviving
    members) when there are several.  For a range that lies inside the
    clause list there is at least one segment, every segment has a
    subtree, and [buildASTWithGroups] returns their left-to-right
    combination in which every join makes a new two-child node, of the
    connector of the segment's first clause, around the running result
    and the segment's subtree: the running result is never extended in
    place. *)
Theorem overlay_segments_are_wrapped :
  forall (filters : list GroupedFilter)
         (groups : list FilterGroupDefinition) (firstIdx lastIdx : nat),
    firstIdx <= lastIdx ->
    lastIdx < List.length filters ->
    (forall group : FilterGroupDefinition,
        KibanaFilterUtils.buildGroupNode filters group
        = KibanaFilterUtils.Returns
            match survivingMembers filters group with
            | [] => KibanaFilterUtils.GFilterNode
                      (Some KibanaFilterUtils.emptyFilter)
            | [member] => KibanaFilterUtils.gleaf member
            | members =>
                gembed (Spec.Bool (type group) (map Spec.Leaf members))
            end)
    /\ exists seg0 rest t0 trees,
         KibanaFilterUtils.segmentsLoop (S lastIdx - firstIdx)
           (KibanaFilterUtils.sortGroups groups) lastIdx firstIdx
         = seg0 :: rest
         /\ KibanaFilterUtils.segmentNode filters seg0
            = KibanaFilterUtils.Returns t0
         /\ Forall2 (fun seg t => KibanaFilterUtils.segmentNode filters seg
                                  = KibanaFilterUtils.Returns t) rest trees
         /\ (forall seg g,
                In seg (seg0 :: rest) ->
                KibanaFilterUtils.segType seg = KibanaFilterUtils.SegGroup ->
                KibanaFilterUtils.segGroup seg = Some g ->
                KibanaFilterUtils.segmentNode filters seg
                = KibanaFilterUtils.buildGroupNode filters g)
         /\ KibanaFilterUtils.buildASTWithGroups filters groups
              firstIdx lastIdx
            = KibanaFilterUtils.Returns
                (joinSegments filters t0 (combine rest trees)).
Proof.
  intros filters groups firstIdx lastIdx Hle Hlast.
  split; [apply buildGroupNode_members|].
  pose proof (segmentsLoop_placed (KibanaFilterUtils.sortGroups groups)
                lastIdx (S lastIdx - firstIdx) firstIdx) as Hplaced.
  pose proof (segmentsLoop_nonempty (KibanaFilterUtils.sortGroups groups)
                firstIdx lastIdx Hle) as Hne.
  unfold KibanaFilterUtils.buildASTWithGroups.
  destruct (KibanaFilterUtils.segmentsLoop (S lastIdx - firstIdx)
              (KibanaFilterUtils.sortGroups groups) lastIdx firstIdx)
    as [|seg0 rest]; [congruence|].
  inversion Hplaced as [|? ? Hseg0 Hrest]; subst.
  destruct (segmentNode_returns filters lastIdx seg0 Hlast Hseg0) as [t0 Ht0].
  destruct (combineSegments_wraps filters lastIdx rest t0 Hlast Hrest)
    as [trees [Htrees Hcomb]].
  exists seg0, rest, t0, trees.
  split; [reflexivity|]. split; [exact Ht0|]. split; [exact Htrees|].
  split.
  - intros seg g _ Ht Hg. unfold KibanaFilterUtils.segmentNode.
    rewrite Ht, Hg. reflexivity.
  - destruct rest as [|seg1 rest'].
    + inversion Htrees; subst. exact Ht0.
    + rewrite Ht0. cbn [KibanaFilterUtils.bind]. exact Hcomb.
Qed.

(** The grouped clauses of [overlay_join_nests] satisfy the hypotheses of
    [overlay_segments_are_wrapped]. *)
Lemma overlay_segments_witness :
  0 <= 3 /\ 3 < List.length overlayFilters
  /\ exists seg0 rest t0 trees,
       KibanaFilterUtils.segmentsLoop (S 3 - 0)
         (KibanaFilterUtils.sortGroups overlayGroups) 3 0
       = seg0 :: rest
       /\ KibanaFilterUtils.segmentNode overlayFilters seg0
          = KibanaFilterUtils.Returns t0
       /\ Forall2 (fun seg t =>
                     KibanaFilterUtils.segmentNode overlayFilters seg
                     = KibanaFilterUtils.Returns t) rest trees
       /\ (forall seg g,
              In seg (seg0 :: rest) ->
              KibanaFilterUtils.segType seg = KibanaFilterUtils.SegGroup ->
              KibanaFilterUtils.segGroup seg = Some g ->
              KibanaFilterUtils.segmentNode overlayFilters seg
              = KibanaFilterUtils.buildGroupNode overlayFilters g)
       /\ KibanaFilterUtils.buildASTWithGroups overlayFilters overlayGroups
            0 3
          = KibanaFilterUtils.Returns
              (joinSegments overlayFilters t0 (combine rest trees)).
Proof.
  assert (H0 : 0 <= 3) by lia.
  assert (H2 : 3 < List.length overlayFilters) by (cbn; lia).
  split; [exact H0|]. split; [exact H2|].
  exact (proj2 (overlay_segments_are_wrapped overlayFilters overlayGroups
                  0 3 H0 H2)).
Defined.

(** ** The group membership manager *)

Section Manager.
Import FilterGroupManager.

Lemma filter_other_replace :
  forall (gid : string) (updated : FilterGroupDefinition)
         (gs : list FilterGroupDefinition),
    id updated = gid ->
    filter (otherThan gid)
           (map (fun g => if String.eqb (id g) gid then updated else g) gs)
    = filter (otherThan gid) gs.
Proof.
  intros gid updated gs Hid. induction gs as [|g gs IH]; [reflexivity|].
  cbn [map filter]. rewrite IH. unfold otherThan.
  destruct (String.eqb (id g) gid) eqn:E.
  - rewrite Hid, String.eqb_refl. reflexivity.
  - rewrite E. reflexivity.
Qed.

Lemma filter_other_idem :
  forall (gid : string) (gs : list FilterGroupDefinition),
    filter (otherThan gid)
           (filter (fun g => negb (String.eqb (id g) gid)) gs)
    = filter (otherThan gid) gs.
Proof.
  intros gid gs. induction gs as [|g gs IH]; [reflexivity|].
  cbn [filter]. unfold otherThan at 2.
  destruct (negb (String.eqb (id g) gid)) eqn:E.
  - cbn [filter]. rewrite IH. unfold otherThan. rewrite E. reflexivity.
  - exact IH.
Qed.

Lemma findGroup_id :
  forall (gid : string) (gs : list FilterGroupDefinition)
         (g : FilterGroupDefinition),
    findGroup gid gs = Some g -> id g = gid.
Proof.
  intros gid gs g H. unfold findGroup in H. apply find_some in H.
  destruct H as [_ H]. apply String.eqb_eq. exact H.
Qed.

(** C9.  [removeFilter] never assigns the component's [groups], and the
    only list it may send through [groupsChanged] differs from [groups]
    in the entries of the removed clause's own group alone: every group
    with another identifier is in it unchanged and in the same order,
    whatever its indices, so indices above the removed position are not
    decremented.  When the removed clause carries no group identifier,
    no list of groups is sent at all. *)
Theorem removeFilter_frame :
  forall (index : nat) (c : Component),
    groups (removeFilter index c) = groups c
    /\ exists events,
         emitted (removeFilter index c) = emitted c ++ events
         /\ match groupIdAt (filters c) index with
            | Some gid =>
                forall gs, In gs (groupsEmitted events) ->
                           filter (otherThan gid) gs
                           = filter (otherThan gid) (groups c)
            | None => groupsEmitted events = []
            end.
Proof.
  intros index c. unfold removeFilter.
  destruct (groupIdAt (filters c) index) as [gid|].
  - destruct (findGroup gid (groups c)) as [group|] eqn:F.
    + destruct (Nat.ltb (List.length (adjustIndices index (filterIndices group)))
                        2).
      * unfold removeGroup. rewrite F. split; [reflexivity|].
        eexists. split.
        -- cbn. rewrite <- !app_assoc. reflexivity.
        -- cbn. intros gs [<-|[]]. apply filter_other_idem.
      * split; [reflexivity|]. eexists. split.
        -- cbn. rewrite <- !app_assoc. reflexivity.
        -- cbn. intros gs [<-|[]]. apply filter_other_replace.
           cbn. apply (findGroup_id gid (groups c)). exact F.
    + split; [reflexivity|]. eexists. split; [reflexivity|].
      cbn. intros gs [].
  - split; [reflexivity|]. eexists. split; [reflexivity|]. reflexivity.
Qed.

(** C6.  Removing clauses leaves overlapping groups.  Five clauses carry
    the groups G1 = [1, 2] and G2 = [3, 4].  The host removes the
    ungrouped clause 0: the clauses move down and no group is touched.
    Removing clause 2 (the first clause of G2, still tagged G2) then makes
    the component send G2 = [2, 3] beside the unchanged G1 = [1, 2]: the
    two groups that persist share index 2. *)
Theorem removal_leaves_overlapping_groups :
  groupsInvariant Examples.twoGroups = true
  /\ DashboardFilterWrapper.removeFilter 0
       (Examples.fiveClauses, Examples.twoGroups)
     = Some (filters Examples.afterFirstRemoval,
             groups Examples.afterFirstRemoval)
  /\ groupsEmitted (emitted (removeFilter 0
                               (mkComponent Examples.fiveClauses
                                            Examples.twoGroups None [] None
                                            [] [])))
     = []
  /\ groupsEmitted (emitted (removeFilter 2 Examples.afterFirstRemoval))
     = [[mkGroup "G1" OR [1; 2] None; mkGroup "G2" OR [2; 3] None]]
  /\ groupsInvariant [mkGroup "G1" OR [1; 2] None;
                      mkGroup "G2" OR [2; 3] None]
     = false.
Proof. repeat split. Qed.

End Manager.

(** ** Creating a group from the selection *)

Section CreateGroup.
Import FilterGroupManager.

Lemma setGroupMeta_same :
  forall (fs : list GroupedFilter) (idx : nat)
         (m : option GroupedFilterMetadata) (f : GroupedFilter),
    nth_error fs idx = Some f ->
    nth_error (setGroupMeta idx m fs) idx = Some (mkGroupedFilter (base f) m).
Proof.
  induction fs as [|f0 fs IH]; intros idx m f H.
  - destruct idx; discriminate.
  - destruct idx as [|idx]; cbn in *.
    + injection H as ->. reflexivity.
    + apply IH. exact H.
Qed.

Lemma setGroupMeta_other :
  forall (fs : list GroupedFilter) (idx j : nat)
         (m : option GroupedFilterMetadata),
    j <> idx ->
    nth_error (setGroupMeta idx m fs) j = nth_error fs j.
Proof.
  induction fs as [|f0 fs IH]; intros idx j m H.
  - destruct idx; reflexivity.
  - destruct idx as [|idx], j as [|j]; cbn; try reflexivity; try congruence.
    apply IH. congruence.
Qed.

Lemma setGroupMeta_base :
  forall (fs : list GroupedFilter) (idx j : nat)
         (m : option GroupedFilterMetadata),
    option_map base (nth_error (setGroupMeta idx m fs) j)
    = option_map base (nth_error fs j).
Proof.
  intros fs idx j m. destruct (Nat.eq_dec j idx) as [->|Hne].
  - destruct (nth_error fs idx) as [f|] eqn:E.
    + rewrite (setGroupMeta_same fs idx m f E). reflexivity.
    + revert idx E. induction fs as [|f0 fs IH]; intros idx E.
      * destruct idx; reflexivity.
      * destruct idx as [|idx]; [discriminate|]. cbn in *. apply IH, E.
  - rewrite setGroupMeta_other by exact Hne. reflexivity.
Qed.

Lemma tagMembers_other :
  forall (gid : string) (gtype : LogicOp) (count : nat) (todo : list nat)
         (i : nat) (fs : list GroupedFilter) (idx : nat),
    ~ In idx todo ->
    nth_error (tagMembers gid gtype count i todo fs) idx = nth_error fs idx.
Proof.
  intros gid gtype count todo.
  induction todo as [|t todo IH]; intros i fs idx Hnot.
  - reflexivity.
  - cbn [tagMembers]. rewrite IH by (intros H; apply Hnot; right; exact H).
    apply setGroupMeta_other. intros ->. apply Hnot. left. reflexivity.
Qed.

Lemma tagMembers_base :
  forall (gid : string) (gtype : LogicOp) (count : nat) (todo : list nat)
         (i : nat) (fs : list GroupedFilter) (idx : nat),
    option_map base (nth_error (tagMembers gid gtype count i todo fs) idx)
    = option_map base (nth_error fs idx).
Proof.
  intros gid gtype count todo.
  induction todo as [|t todo IH]; intros i fs idx.
  - reflexivity.
  - cbn [tagMembers]. rewrite IH. apply setGroupMeta_base.
Qed.

Lemma tagMembers_member :
  forall (gid : string) (gtype : LogicOp) (count : nat) (todo : list nat)
         (i : nat) (fs : list GroupedFilter) (k idx : nat)
         (f : GroupedFilter),
    NoDup todo ->
    nth_error todo k = Some idx ->
    nth_error fs idx = Some f ->
    nth_error (tagMembers gid gtype count i todo fs) idx
    = Some (mkGroupedFilter (base f)
                            (Some (memberMeta gid gtype count (i + k)))).
Proof.
  intros gid gtype count todo.
  induction todo as [|t todo IH]; intros i fs k idx f Hnd Hk Hf.
  - destruct k; discriminate.
  - inversion Hnd as [|? ? Hnotin Hnd']; subst. cbn [tagMembers].
    destruct k as [|k]; cbn in Hk.
    + injection Hk as ->. rewrite tagMembers_other by exact Hnotin.
      rewrite (setGroupMeta_same fs idx _ f Hf).
      rewrite Nat.add_0_r. reflexivity.
    + assert (Hne : idx <> t).
      { intros ->. apply Hnotin. eapply nth_error_In. exact Hk. }
      rewrite (IH (S i) _ k idx f Hnd' Hk).
      * replace (S i + k) with (i + S k) by lia. reflexivity.
      * rewrite setGroupMeta_other by exact Hne. exact Hf.
Qed.

Lemma contiguous_nth :
  forall (l : list nat) (a k x : nat),
    isContiguous (a :: l) = true ->
    nth_error (a :: l) k = Some x ->
    x = a + k.
Proof.
  induction l as [|b l IH]; intros a k x Hc Hk.
  - destruct k as [|[|k]]; cbn in Hk; try discriminate.
    injection Hk as <-. lia.
  - cbn [isContiguous] in Hc. apply andb_true_iff in Hc.
    destruct Hc as [Hb Hc]. apply Nat.eqb_eq in Hb. subst b.
    destruct k as [|k]; cbn in Hk.
    + injection Hk as <-. lia.
    + specialize (IH (a + 1) k x Hc Hk). lia.
Qed.

Lemma contiguous_NoDup :
  forall l : list nat, isContiguous l = true -> NoDup l.
Proof.
  intros l Hc. destruct l as [|a l]; [constructor|].
  apply NoDup_nth_error. intros i j Hi E.
  destruct (nth_error (a :: l) i) as [x|] eqn:Ei.
  - symmetry in E.
    pose proof (contiguous_nth l a i x Hc Ei).
    pose proof (contiguous_nth l a j x Hc E). lia.
  - apply nth_error_None in Ei. lia.
Qed.

(** C7, as stated, fails on a selection that is too small: with a single
    clause selected [createGroupFromSelection] returns at once, and
    nothing is reported. *)
Lemma too_small_selection_is_silent :
  Nat.ltb (List.length (selectedIndices Examples.oneSelected)) 2 = true
  /\ createGroupFromSelection OR "g" Examples.oneSelected
     = Examples.oneSelected
  /\ warnings (emitted (createGroupFromSelection OR "g" Examples.oneSelected))
     = [].
Proof. repeat split. Qed.

(** C7, amended.  [createGroupFromSelection] needs at least two selected
    indices that are contiguous once sorted.  With fewer than two it
    returns silently and the component is unchanged.  With a
    non-contiguous selection it logs one console warning, and nothing
    else of the component changes.  Both are plain returns: no exception
    is raised.  Otherwise the group list it sends through
    [groupsChanged] is the previous one without the groups that overlap
    the selection, followed by the new group; it tags each selected
    clause that exists with the new group's metadata ([isGroupStart] on
    the first member, [isGroupEnd] on the last), leaves the other
    clauses and every clause's own fields alone, and clears the
    selection. *)
Theorem createGroupFromSelection_outcomes :
  forall (gtype : LogicOp) (newId : string) (c : Component),
    let c' := createGroupFromSelection gtype newId c in
    let sorted := sortIndices (selectedIndices c) in
    (List.length (selectedIndices c) < 2 -> c' = c)
    /\ (2 <= List.length (selectedIndices c) ->
        isContiguous sorted = false ->
        c' = emit (ConsoleWarn nonContiguousWarning) c)
    /\ (2 <= List.length (selectedIndices c) ->
        isContiguous sorted = true ->
        groupsEmitted (emitted c')
        = groupsEmitted (emitted c)
          ++ [filter (fun g => negb (overlaps sorted g)) (groups c)
              ++ [mkGroup newId gtype sorted None]]
        /\ warnings (emitted c') = warnings (emitted c)
        /\ selectedIndices c' = []
        /\ lastClickedIndex c' = None
        /\ (forall i idx f,
               nth_error sorted i = Some idx ->
               nth_error (filters c) idx = Some f ->
               nth_error (filters c') idx
               = Some (mkGroupedFilter
                         (base f)
                         (Some (memberMeta newId gtype
                                           (List.length sorted) i))))
        /\ (forall idx, ~ In idx sorted ->
                        nth_error (filters c') idx
                        = nth_error (filters c) idx)
        /\ (forall idx, option_map base (nth_error (filters c') idx)
                        = option_map base (nth_error (filters c) idx))).
Proof.
  intros gtype newId c c' sorted. unfold c', createGroupFromSelection.
  fold sorted. split; [|split].
  - intros Hlt.
    replace (Nat.ltb (List.length (selectedIndices c)) 2) with true
      by (symmetry; apply Nat.ltb_lt; exact Hlt).
    reflexivity.
  - intros Hge Hnc.
    replace (Nat.ltb (List.length (selectedIndices c)) 2) with false
      by (symmetry; apply Nat.ltb_ge; exact Hge).
    rewrite Hnc. reflexivity.
  - intros Hge Hc.
    replace (Nat.ltb (List.length (selectedIndices c)) 2) with false
      by (symmetry; apply Nat.ltb_ge; exact Hge).
    rewrite Hc. cbn [negb].
    cbn [withSelection emitFilterState emit updateFilterMetadata withFilters
         emitted selectedIndices lastClickedIndex groups filters customLabel
         separators].
    split.
    { unfold groupsEmitted. rewrite !flat_map_app. cbn [flat_map app].
      rewrite app_nil_r. reflexivity. }
    split.
    { unfold warnings. rewrite !flat_map_app. cbn [flat_map app].
      rewrite !app_nil_r. reflexivity. }
    split; [reflexivity|]. split; [reflexivity|].
    split; [|split].
    + intros i idx f Hi Hf.
      rewrite (tagMembers_member newId gtype (List.length sorted) sorted 0
                 (filters c) i idx f (contiguous_NoDup sorted Hc) Hi Hf).
      reflexivity.
    + intros idx Hnot. apply tagMembers_other. exact Hnot.
    + intros idx. apply tagMembers_base.
Qed.

(** Clauses 1 and 0 selected over three clauses satisfy the hypotheses of
    the successful case of [createGroupFromSelection_outcomes]. *)
Lemma createGroupFromSelection_witness :
  2 <= List.length (selectedIndices Examples.twoSelected)
  /\ isContiguous (sortIndices (selectedIndices Examples.twoSelected)) = true
  /\ groupsEmitted
       (emitted (createGroupFromSelection OR "g" Examples.twoSelected))
     = [[mkGroup "g" OR [0; 1] None]]
  /\ selectedIndices (createGroupFromSelection OR "g" Examples.twoSelected)
     = [].
Proof.
  assert (H2 : 2 <= List.length (selectedIndices Examples.twoSelected))
    by (cbn; lia).
  assert (Hc : isContiguous
                 (sortIndices (selectedIndices Examples.twoSelected)) = true)
    by reflexivity.
  destruct (createGroupFromSelection_outcomes OR "g" Examples.twoSelected)
    as [_ [_ Hok]].
  destruct (Hok H2 Hc) as [Hg [_ [Hs _]]].
  split; [exact H2|]. split; [exact Hc|]. split; [exact Hg|exact Hs].
Defined.

End CreateGroup.

(** ** Range clauses *)

Lemma range_query :
  forall f : SimpleFilter,
    operator f = "range"%string ->
    KibanaFilterUtils.buildSingleFilterQuery f
    = match KibanaFilterUtils.rangeBounds
              (endsWith (field f) ".keyword") f with
      | [] => VNull
      | bounds => rangeDoc f bounds
      end.
Proof.
  intros f Hop. unfold KibanaFilterUtils.buildSingleFilterQuery.
  rewrite Hop. reflexivity.
Qed.

Lemma range_bounds_cases :
  forall f : SimpleFilter,
    KibanaFilterUtils.rangeBounds (endsWith (field f) ".keyword") f
    = match truthy (minValue f), truthy (maxValue f) with
      | false, false => []
      | true, false => set (fst (lowerBound f)) (snd (lowerBound f)) []
      | false, true => set (fst (upperBound f)) (snd (upperBound f)) []
      | true, true =>
          set (fst (upperBound f)) (snd (upperBound f))
              (set (fst (lowerBound f)) (snd (lowerBound f)) [])
      end.
Proof.
  intros f. unfold KibanaFilterUtils.rangeBounds.
  destruct (truthy (minValue f)), (truthy (maxValue f)); reflexivity.
Qed.

Lemma assign_not_nil :
  forall (k : string) (v : Value) (props : list (string * Value)),
    assign k v props <> [].
Proof.
  intros k v props. destruct props as [|[k' v'] props]; cbn.
  - discriminate.
  - destruct (String.eqb k' k); discriminate.
Qed.

Lemma place_not_nil :
  forall (k : string) (v : Value) (props : list (string * Value)),
    place k v props <> [].
Proof.
  intros k v props. destruct props as [|[k' v'] props]; cbn.
  - discriminate.
  - destruct (isArrayIndex k' && (digitsValue 0 k' <? digitsValue 0 k)%Z);
      discriminate.
Qed.

(** An assignment leaves an object without own property only when it is
    [o['__proto__'] = v] on an object that had none. *)
Lemma set_nil_iff :
  forall (k : string) (v : Value) (props : list (string * Value)),
    set k v props = [] <-> k = "__proto__"%string /\ props = [].
Proof.
  intros k v props. unfold set.
  destruct (String.eqb k "__proto__") eqn:E.
  - apply String.eqb_eq in E. tauto.
  - apply String.eqb_neq in E.
    split; [|intros [Hk _]; contradiction].
    intros H. exfalso.
    destruct (isArrayIndex k); [destruct (lookup k props)|].
    + exact (assign_not_nil _ _ _ H).
    + exact (place_not_nil _ _ _ H).
    + exact (assign_not_nil _ _ _ H).
Qed.

(** A range clause stores no bound exactly when each side has a falsy
    value or ['__proto__'] for its operator. *)
Lemma range_bounds_nil_iff :
  forall f : SimpleFilter,
    KibanaFilterUtils.rangeBounds (endsWith (field f) ".keyword") f = []
    <-> (truthy (minValue f) = false
         \/ fst (lowerBound f) = "__proto__"%string)
        /\ (truthy (maxValue f) = false
            \/ fst (upperBound f) = "__proto__"%string).
Proof.
  intros f. rewrite range_bounds_cases.
  destruct (truthy (minValue f)), (truthy (maxValue f));
    rewrite ?set_nil_iff; rewrite ?set_nil_iff;
    intuition (try discriminate; try congruence).
Qed.

Lemma set_ordinary_first :
  forall (k : string) (v : Value),
    ordinaryKey k = true -> set k v [] = [(k, v)].
Proof.
  intros k v H. unfold ordinaryKey in H.
  apply andb_true_iff in H. destruct H as [Hp Hi].
  apply negb_true_iff in Hp, Hi.
  unfold set. rewrite Hp, Hi. reflexivity.
Qed.

Lemma set_ordinary_second :
  forall (k : string) (v : Value) (k1 : string) (v1 : Value),
    ordinaryKey k = true ->
    set k v [(k1, v1)]
    = if String.eqb k1 k then [(k, v)] else [(k1, v1); (k, v)].
Proof.
  intros k v k1 v1 H. unfold ordinaryKey in H.
  apply andb_true_iff in H. destruct H as [Hp Hi].
  apply negb_true_iff in Hp, Hi.
  unfold set. rewrite Hp, Hi. cbn [assign].
  destruct (String.eqb k1 k) eqn:E; [|reflexivity].
  apply String.eqb_eq in E. subst k1. reflexivity.
Qed.

(** The bounds of a range clause whose operators are ordinary names. *)
Lemma range_bounds_ordinary :
  forall f : SimpleFilter,
    ordinaryKey (fst (lowerBound f)) = true ->
    ordinaryKey (fst (upperBound f)) = true ->
    KibanaFilterUtils.rangeBounds (endsWith (field f) ".keyword") f
    = match truthy (minValue f), truthy (maxValue f) with
      | false, false => []
      | true, false => [lowerBound f]
      | false, true => [upperBound f]
      | true, true =>
          if String.eqb (fst (lowerBound f)) (fst (upperBound f))
          then [upperBound f]
          else [lowerBound f; upperBound f]
      end.
Proof.
  intros f Hl Hu. rewrite range_bounds_cases.
  destruct (truthy (minValue f)), (truthy (maxValue f)).
  - rewrite (set_ordinary_first _ _ Hl), (set_ordinary_second _ _ _ _ Hu).
    destruct (String.eqb (fst (lowerBound f)) (fst (upperBound f)));
      reflexivity.
  - rewrite (set_ordinary_first _ _ Hl). reflexivity.
  - rewrite (set_ordinary_first _ _ Hu). reflexivity.
  - reflexivity.
Qed.

(** C10, as stated, fails on two kinds of range clause.  With the same
    operator on both sides the upper bound takes the place of the lower
    one: a lower bound of 5 is truthy and yet the clause compiles as if
    it were absent.  With ['__proto__'] for its operator a truthy bound
    is not stored at all, and the clause compiles to [null]. *)
Lemma truthy_bound_can_be_left_out :
  (operator Examples.fiveToTenBothGte = "range"%string
   /\ truthy (minValue Examples.fiveToTenBothGte) = true
   /\ truthy (maxValue Examples.fiveToTenBothGte) = true
   /\ KibanaFilterUtils.buildSingleFilterQuery Examples.fiveToTenBothGte
      = VObj [("range"%string,
               VObj [("bytes"%string, VObj [("gte"%string, VInt 10)])])]
   /\ KibanaFilterUtils.buildSingleFilterQuery Examples.fiveToTenBothGte
      = KibanaFilterUtils.buildSingleFilterQuery
          (withMinValue VUndefined Examples.fiveToTenBothGte))
  /\ (operator Examples.fiveUnderProto = "range"%string
      /\ truthy (minValue Examples.fiveUnderProto) = true
      /\ KibanaFilterUtils.buildSingleFilterQuery Examples.fiveUnderProto
         = VNull).
Proof. repeat split. Qed.

(** C10, amended.  For a range clause whose two operators ([gt] and [lt]
    when none is supplied) are ordinary names, the compiled document
    follows the truthiness of the two values.  With both values falsy it
    is [null]; with one truthy value the range object holds that bound
    alone; with two it holds the lower bound and then the upper one when
    the operators differ, and the upper bound alone when both sides have
    the same operator.  A falsy value (0 and the empty string are falsy)
    compiles exactly as an absent one.  The [null] clause is left out of
    the output: its leaf document is not kept among the children of a
    node, alone it gives match-all, and the filter bar component's own
    compiler, which builds the same range object, pushes nothing for
    it. *)
Theorem range_bounds_follow_truthiness :
  forall f : SimpleFilter,
    operator f = "range"%string ->
    ordinaryKey (fst (lowerBound f)) = true ->
    ordinaryKey (fst (upperBound f)) = true ->
    KibanaFilterUtils.buildSingleFilterQuery f
    = match truthy (minValue f), truthy (maxValue f) with
      | false, false => VNull
      | true, false => rangeDoc f [lowerBound f]
      | false, true => rangeDoc f [upperBound f]
      | true, true =>
          if String.eqb (fst (lowerBound f)) (fst (upperBound f))
          then rangeDoc f [upperBound f]
          else rangeDoc f [lowerBound f; upperBound f]
      end
    /\ truthy (VInt 0) = false
    /\ truthy (VStr "") = false
    /\ (truthy (minValue f) = false ->
        KibanaFilterUtils.buildSingleFilterQuery f
        = KibanaFilterUtils.buildSingleFilterQuery (withMinValue VUndefined f))
    /\ (truthy (maxValue f) = false ->
        KibanaFilterUtils.buildSingleFilterQuery f
        = KibanaFilterUtils.buildSingleFilterQuery (withMaxValue VUndefined f))
    /\ (truthy (minValue f) = false -> truthy (maxValue f) = false ->
        KibanaFilterUtils.keep (leafDoc f) = false
        /\ (disabled f = false ->
            KibanaFilterUtils.buildEsQueryFromFilters [f]
            = KibanaFilterUtils.wrapQuery KibanaFilterUtils.match_all)
        /\ KibanaFilterBar.filterQuery f = None)
    /\ (truthy (minValue f) || truthy (maxValue f) = true ->
        field f <> ""%string ->
        KibanaFilterBar.filterQuery f
        = Some (KibanaFilterUtils.buildSingleFilterQuery f)).
Proof.
  intros f Hop Hl Hu.
  assert (Hq := range_query f Hop).
  assert (Hb := range_bounds_ordinary f Hl Hu).
  split; [|split; [reflexivity|split; [reflexivity|]]].
  { rewrite Hq, Hb.
    destruct (truthy (minValue f)), (truthy (maxValue f)); try reflexivity.
    destruct (String.eqb (fst (lowerBound f)) (fst (upperBound f)));
      reflexivity. }
  split; [|split; [|split]].
  - intros Hmin. rewrite Hq, (range_query (withMinValue VUndefined f) Hop).
    unfold KibanaFilterUtils.rangeBounds, rangeDoc. cbn. rewrite Hmin.
    reflexivity.
  - intros Hmax. rewrite Hq, (range_query (withMaxValue VUndefined f) Hop).
    unfold KibanaFilterUtils.rangeBounds, rangeDoc. cbn. rewrite Hmax.
    reflexivity.
  - intros Hmin Hmax.
    assert (Hnull : KibanaFilterUtils.buildSingleFilterQuery f = VNull).
    { rewrite Hq, Hb, Hmin, Hmax. reflexivity. }
    assert (Hleaf : leafDoc f = KibanaFilterUtils.match_all).
    { unfold leafDoc, KibanaFilterUtils.toKibanaFilter,
        KibanaFilterUtils.leaf.
      cbn [KibanaFilterUtils.astToEsQueryNode KibanaFilterUtils.query
           KibanaFilterUtils.meta KibanaFilterUtils.negate].
      rewrite Hnull, Hop. reflexivity. }
    split; [rewrite Hleaf; reflexivity|]. split.
    + intros Hd. unfold KibanaFilterUtils.buildEsQueryFromFilters,
        KibanaFilterUtils.buildFilterASTWithOperators,
        KibanaFilterUtils.enabled.
      cbn [filter]. rewrite Hd. cbn [negb map tl].
      cbn [KibanaFilterUtils.buildASTLeftAssociative
           KibanaFilterUtils.astToEsQuery].
      fold (leafDoc f). rewrite Hleaf. reflexivity.
    + unfold KibanaFilterBar.filterQuery.
      destruct (negb (KibanaFilterBar.hasFieldAndOperator f));
        [reflexivity|].
      rewrite Hop. cbn [KibanaFilterBar.normalizeOperator].
      change (KibanaFilterBar.isKeywordField (field f))
        with (endsWith (field f) ".keyword").
      cbn. rewrite Hb, Hmin, Hmax. reflexivity.
  - intros Hsome Hfield.
    unfold KibanaFilterBar.filterQuery, KibanaFilterBar.hasFieldAndOperator.
    rewrite Hop.
    replace (String.eqb (field f) "") with false
      by (symmetry; apply String.eqb_neq; exact Hfield).
    cbn. rewrite Hq.
    change (KibanaFilterBar.isKeywordField (field f))
      with (endsWith (field f) ".keyword").
    destruct (KibanaFilterUtils.rangeBounds (endsWith (field f) ".keyword") f)
      eqn:E; [|reflexivity].
    exfalso.
    destruct (truthy (minValue f)), (truthy (maxValue f));
      try discriminate.
    destruct (String.eqb (fst (lowerBound f)) (fst (upperBound f)));
      discriminate.
Qed.

(** Two range clauses with [gte] and [lte] for operators satisfy the
    hypotheses of [range_bounds_follow_truthiness]: with bounds 10 and
    '100' both are compiled, the lower one first; with a lower bound of 0
    only the upper one is. *)
Lemma range_bounds_witness :
  (operator Examples.tenToHundred = "range"%string
   /\ ordinaryKey (fst (lowerBound Examples.tenToHundred)) = true
   /\ ordinaryKey (fst (upperBound Examples.tenToHundred)) = true
   /\ KibanaFilterUtils.buildSingleFilterQuery Examples.tenToHundred
      = VObj [("range"%string,
               VObj [("bytes"%string,
                      VObj [("gte"%string, VInt 10);
                            ("lte"%string, VInt 100)])])])
  /\ KibanaFilterUtils.buildSingleFilterQuery Examples.zeroToHundred
     = VObj [("range"%string,
              VObj [("bytes"%string, VObj [("lte"%string, VInt 100)])])].
Proof.
  split; [repeat (split; [reflexivity|])|].
  - exact (proj1 (range_bounds_follow_truthiness Examples.tenToHundred
                    eq_refl eq_refl eq_refl)).
  - exact (proj1 (range_bounds_follow_truthiness Examples.zeroToHundred
                    eq_refl eq_refl eq_refl)).
Defined.

(** ** Which clauses reach the query *)

Lemma known_operator_cases :
  forall op : string,
    In op knownOperators
    \/ (String.eqb op "is" = false /\ String.eqb op "is_not" = false
        /\ String.eqb op "is_one_of" = false
        /\ String.eqb op "is_not_one_of" = false
        /\ String.eqb op "exists" = false
        /\ String.eqb op "does_not_exist" = false
        /\ String.eqb op "range" = false /\ String.eqb op "prefix" = false
        /\ String.eqb op "wildcard" = false
        /\ String.eqb op "query_string" = false
        /\ ~ In op knownOperators).
Proof.
  intros op. unfold knownOperators.
  destruct (String.eqb op "is") eqn:E1;
    [apply String.eqb_eq in E1; subst op; left; cbn; auto 20|].
  destruct (String.eqb op "is_not") eqn:E2;
    [apply String.eqb_eq in E2; subst op; left; cbn; auto 20|].
  destruct (String.eqb op "is_one_of") eqn:E3;
    [apply String.eqb_eq in E3; subst op; left; cbn; auto 20|].
  destruct (String.eqb op "is_not_one_of") eqn:E4;
    [apply String.eqb_eq in E4; subst op; left; cbn; auto 20|].
  destruct (String.eqb op "exists") eqn:E5;
    [apply String.eqb_eq in E5; subst op; left; cbn; auto 20|].
  destruct (String.eqb op "does_not_exist") eqn:E6;
    [apply String.eqb_eq in E6; subst op; left; cbn; auto 20|].
  destruct (String.eqb op "range") eqn:E7;
    [apply String.eqb_eq in E7; subst op; left; cbn; auto 20|].
  destruct (String.eqb op "prefix") eqn:E8;
    [apply String.eqb_eq in E8; subst op; left; cbn; auto 20|].
  destruct (String.eqb op "wildcard") eqn:E9;
    [apply String.eqb_eq in E9; subst op; left; cbn; auto 20|].
  destruct (String.eqb op "query_string") eqn:E10;
    [apply String.eqb_eq in E10; subst op; left; cbn; auto 20|].
  right. repeat (split; [reflexivity|]).
  apply String.eqb_neq in E1, E2, E3, E4, E5, E6, E7, E8, E9, E10.
  cbn. intuition congruence.
Qed.

Lemma leafDoc_query :
  forall f : SimpleFilter,
    leafDoc f
    = (let q := or_else (KibanaFilterUtils.buildSingleFilterQuery f)
                        KibanaFilterUtils.match_all in
       if KibanaFilterUtils.isNegatedOperator (operator f)
       then KibanaFilterUtils.mustNot q else q).
Proof.
  intros f. unfold leafDoc, KibanaFilterUtils.leaf,
    KibanaFilterUtils.toKibanaFilter.
  cbn [KibanaFilterUtils.astToEsQueryNode KibanaFilterUtils.query
       KibanaFilterUtils.meta KibanaFilterUtils.negate].
  destruct (KibanaFilterUtils.isNegatedOperator (operator f)); reflexivity.
Qed.

(** X1.  A clause is left out of the compiled query exactly when
    [buildSingleFilterQuery] answers [null] for it, and that happens in
    these cases only: a [range] clause that stores no bound, each side
    having a falsy value or ['__proto__'] for its operator (assigning to
    that name makes no own property); a [prefix], [wildcard] or
    [query_string] clause with a falsy value; an operator the function
    has no case for. *)
Theorem clause_dropped_iff :
  forall f : SimpleFilter,
    (KibanaFilterUtils.buildSingleFilterQuery f = VNull <->
       (operator f = "range"%string
        /\ (truthy (minValue f) = false
            \/ fst (lowerBound f) = "__proto__"%string)
        /\ (truthy (maxValue f) = false
            \/ fst (upperBound f) = "__proto__"%string))
       \/ (In (operator f) ["prefix"; "wildcard"; "query_string"]%string
           /\ truthy (value f) = false)
       \/ ~ In (operator f) knownOperators)
    /\ (KibanaFilterUtils.keep (leafDoc f) = false <->
        KibanaFilterUtils.buildSingleFilterQuery f = VNull).
Proof.
  intros f. rewrite leafDoc_query.
  destruct (known_operator_cases (operator f)) as [Hin|Hout].
  - unfold knownOperators in Hin. cbn [In] in Hin.
    decompose [or] Hin; clear Hin; try contradiction;
      match goal with H : _ = operator f |- _ => rename H into Hop end.
    all: try (unfold KibanaFilterUtils.buildSingleFilterQuery, knownOperators;
         rewrite <- Hop; cbn;
         repeat match goal with
                | |- context [if ?b then _ else _] => destruct b eqn:?
                end;
         cbn; repeat split; intros; try discriminate; try reflexivity;
         intuition (try discriminate; try congruence); fail).
    + rewrite (range_query f (eq_sym Hop)).
      assert (Hnil := range_bounds_nil_iff f).
      unfold knownOperators. rewrite <- Hop.
      destruct (KibanaFilterUtils.rangeBounds
                  (endsWith (field f) ".keyword") f) as [|b bounds].
      * cbn. repeat split; intros; try reflexivity; auto.
        left. split; [reflexivity|]. apply Hnil. reflexivity.
      * assert (Hsome : ~ ((truthy (minValue f) = false
                            \/ fst (lowerBound f) = "__proto__"%string)
                           /\ (truthy (maxValue f) = false
                               \/ fst (upperBound f) = "__proto__"%string))).
        { intros H. apply Hnil in H. discriminate. }
        cbn. repeat split; intros; try discriminate;
          intuition (try discriminate; try congruence).
    + unfold KibanaFilterUtils.buildSingleFilterQuery, knownOperators.
      rewrite <- Hop. cbn.
      destruct (truthy (value f)) eqn:Hv; cbn;
        [destruct (endsWith (field f) ".keyword"); cbn|];
        repeat split; intros; try discriminate; try reflexivity;
        intuition (try discriminate; try congruence).
    + unfold KibanaFilterUtils.buildSingleFilterQuery, knownOperators.
      rewrite <- Hop. cbn.
      destruct (truthy (value f)) eqn:Hv; cbn;
        repeat split; intros; try discriminate; try reflexivity;
        intuition (try discriminate; try congruence).
    + unfold KibanaFilterUtils.buildSingleFilterQuery, knownOperators.
      rewrite <- Hop. cbn.
      destruct (truthy (value f)) eqn:Hv; cbn;
        repeat split; intros; try discriminate; try reflexivity;
        intuition (try discriminate; try congruence).
  - destruct Hout as (E1 & E2 & E3 & E4 & E5 & E6 & E7 & E8 & E9 & E10 & Hn).
    assert (Hq : KibanaFilterUtils.buildSingleFilterQuery f = VNull).
    { unfold KibanaFilterUtils.buildSingleFilterQuery.
      rewrite E1, E2, E3, E4, E5, E6, E7, E8, E9, E10. reflexivity. }
    rewrite Hq. unfold KibanaFilterUtils.isNegatedOperator.
    rewrite E2, E4, E6. cbn. repeat split; intros; auto.
Qed.

(** X2.  A clause with a negated operator ([is_not], [does_not_exist],
    [is_not_one_of]) reaches the query inside two nested [must_not]:
    [buildSingleFilterQuery] wraps the document of the positive operator
    once, and the tree compiler wraps the leaf again because
    [toKibanaFilter] sets [meta.negate]. *)
Theorem negated_operator_is_negated_twice :
  forall f : SimpleFilter,
    KibanaFilterUtils.isNegatedOperator (operator f) = true ->
    let positive := withOperator (positiveOperator (operator f)) f in
    KibanaFilterUtils.isNegatedOperator (operator positive) = false
    /\ KibanaFilterUtils.buildSingleFilterQuery f
       = KibanaFilterUtils.mustNot
           (KibanaFilterUtils.buildSingleFilterQuery positive)
    /\ leafDoc positive = KibanaFilterUtils.buildSingleFilterQuery positive
    /\ leafDoc f
       = KibanaFilterUtils.mustNot (KibanaFilterUtils.mustNot
                                      (leafDoc positive)).
Proof.
  intros f Hneg positive. subst positive.
  rewrite !leafDoc_query.
  unfold KibanaFilterUtils.isNegatedOperator in *.
  unfold KibanaFilterUtils.buildSingleFilterQuery, positiveOperator,
    withOperator.
  cbn [operator field value minValue maxValue minOperator maxOperator].
  destruct (String.eqb (operator f) "is_not") eqn:E1.
  - apply String.eqb_eq in E1. rewrite E1. cbn.
    destruct (endsWith (field f) ".keyword"
              || KibanaFilterUtils.isNumeric (value f));
      repeat split; reflexivity.
  - destruct (String.eqb (operator f) "does_not_exist") eqn:E2.
    + apply String.eqb_eq in E2. rewrite E2. cbn. repeat split; reflexivity.
    + destruct (String.eqb (operator f) "is_not_one_of") eqn:E3;
        [|discriminate].
      apply String.eqb_eq in E3. rewrite E3. cbn. repeat split; reflexivity.
Qed.

(** [{status is_not deleted}] has a negated operator. *)
Lemma negated_operator_witness :
  KibanaFilterUtils.isNegatedOperator (operator Examples.statusIsNotDeleted)
  = true
  /\ leafDoc Examples.statusIsNotDeleted
     = KibanaFilterUtils.mustNot
         (KibanaFilterUtils.mustNot
            (VObj [("match"%string,
                    VObj [("status"%string, VStr "deleted")])])).
Proof.
  split; [reflexivity|].
  exact (proj2 (proj2 (proj2 (negated_operator_is_negated_twice
                                Examples.statusIsNotDeleted eq_refl)))).
Defined.

(** ** Disabled clauses and the first connector *)

Lemma filter_idem :
  forall (A : Type) (p : A -> bool) (l : list A),
    filter p (filter p l) = filter p l.
Proof.
  intros A p l. apply filter_all. intros a Ha.
  apply filter_In in Ha. tauto.
Qed.

Lemma buildEsQueryFromFilters_tree :
  forall filters : list SimpleFilter,
    KibanaFilterUtils.buildEsQueryFromFilters filters
    = KibanaFilterUtils.wrapQuery
        (KibanaFilterUtils.astToEsQuery
           (option_map embed (Spec.build (clausesOf filters)))).
Proof.
  intros filters. unfold KibanaFilterUtils.buildEsQueryFromFilters.
  rewrite buildFilterASTWithOperators_fold.
  destruct filters as [|f fs]; [reflexivity|].
  destruct (Spec.build (clausesOf (f :: fs))); reflexivity.
Qed.

(** X3.  Disabling a clause is the same as deleting it: the query and the
    preview of a list of clauses are those of its enabled clauses, and a
    list with no enabled clause gives the match-all query and the empty
    preview. *)
Theorem disabled_clauses_are_invisible :
  forall filters : list SimpleFilter,
    KibanaFilterUtils.buildEsQueryFromFilters filters
    = KibanaFilterUtils.buildEsQueryFromFilters
        (filter KibanaFilterUtils.enabled filters)
    /\ KibanaFilterUtils.buildPreviewString filters
       = KibanaFilterUtils.buildPreviewString
           (filter KibanaFilterUtils.enabled filters)
    /\ (filter KibanaFilterUtils.enabled filters = [] ->
        KibanaFilterUtils.buildEsQueryFromFilters filters
        = KibanaFilterUtils.wrapQuery KibanaFilterUtils.match_all
        /\ KibanaFilterUtils.buildPreviewString filters = ""%string).
Proof.
  intros filters. split; [|split].
  - rewrite !buildEsQueryFromFilters_tree. unfold clausesOf.
    rewrite filter_idem. reflexivity.
  - unfold KibanaFilterUtils.buildPreviewString. rewrite filter_idem.
    reflexivity.
  - intros E. rewrite buildEsQueryFromFilters_tree. unfold clausesOf,
      KibanaFilterUtils.buildPreviewString.
    rewrite E. split; reflexivity.
Qed.

(** X4.  The connector of the first enabled clause is never read: giving
    the clause at the head of the list any other connector changes
    neither the query nor the preview. *)
Theorem first_connector_is_ignored :
  forall (f : SimpleFilter) (rest : list SimpleFilter)
         (lg : option LogicOp),
    KibanaFilterUtils.buildEsQueryFromFilters (withLogic lg f :: rest)
    = KibanaFilterUtils.buildEsQueryFromFilters (f :: rest)
    /\ KibanaFilterUtils.buildPreviewString (withLogic lg f :: rest)
       = KibanaFilterUtils.buildPreviewString (f :: rest).
Proof.
  intros f rest lg. split.
  - rewrite !buildEsQueryFromFilters_tree. unfold clausesOf.
    cbn [filter].
    change (KibanaFilterUtils.enabled (withLogic lg f))
      with (KibanaFilterUtils.enabled f).
    destruct (KibanaFilterUtils.enabled f); reflexivity.
  - unfold KibanaFilterUtils.buildPreviewString. cbn [filter].
    change (KibanaFilterUtils.enabled (withLogic lg f))
      with (KibanaFilterUtils.enabled f).
    destruct (KibanaFilterUtils.enabled f); reflexivity.
Qed.

(** ** The group-aware compiler *)

Lemma Node_nested_ind :
  forall (C : Type) (P : Spec.Node C -> Prop),
    (forall c, P (Spec.Leaf c)) ->
    (forall op children, Forall P children -> P (Spec.Bool op children)) ->
    forall t, P t.
Proof.
  intros C P HL HB. fix IH 1. intros [c|op children].
  - apply HL.
  - apply HB. induction children as [|ch chs IHl]; constructor.
    + apply IH.
    + exact IHl.
Qed.

Lemma FilterASTNode_nested_ind :
  forall P : KibanaFilterUtils.FilterASTNode -> Prop,
    (forall f, P (KibanaFilterUtils.FilterNode f)) ->
    (forall mu sh mn msm,
        optForall P mu -> optForall P sh -> optForall P mn ->
        P (KibanaFilterUtils.BoolNode mu sh mn msm)) ->
    forall t, P t.
Proof.
  intros P HF HB. fix IH 1. intros [f|mu sh mn msm].
  - apply HF.
  - apply HB.
    + destruct mu as [l|]; [|exact I]. cbn.
      induction l as [|ch chs IHl]; constructor; [apply IH|exact IHl].
    + destruct sh as [l|]; [|exact I]. cbn.
      induction l as [|ch chs IHl]; constructor; [apply IH|exact IHl].
    + destruct mn as [l|]; [|exact I]. cbn.
      induction l as [|ch chs IHl]; constructor; [apply IH|exact IHl].
Qed.

Lemma map_ext_Forall :
  forall (A B : Type) (f g : A -> B) (l : list A),
    Forall (fun a => f a = g a) l -> map f l = map g l.
Proof.
  intros A B f g l H. induction H as [|a l Ha _ IH]; cbn.
  - reflexivity.
  - rewrite Ha, IH. reflexivity.
Qed.

Lemma groupedAstToEsQueryNode_asGroupAware :
  forall ast : KibanaFilterUtils.FilterASTNode,
    KibanaFilterUtils.groupedAstToEsQueryNode (asGroupAware ast)
    = KibanaFilterUtils.astToEsQueryNode ast.
Proof.
  induction ast as [f|mu sh mn msm Hmu Hsh Hmn]
    using FilterASTNode_nested_ind.
  - reflexivity.
  - cbn [asGroupAware KibanaFilterUtils.groupedAstToEsQueryNode
         KibanaFilterUtils.astToEsQueryNode].
    assert (E : forall l,
               Forall (fun a =>
                         KibanaFilterUtils.groupedAstToEsQueryNode
                           (asGroupAware a)
                         = KibanaFilterUtils.astToEsQueryNode a) l ->
               map KibanaFilterUtils.groupedAstToEsQueryNode
                   (map asGroupAware l)
               = map KibanaFilterUtils.astToEsQueryNode l).
    { intros l Hl. rewrite map_map. apply map_ext_Forall. exact Hl. }
    destruct mu as [mu|], sh as [sh|], mn as [mn|]; cbn [option_map];
      cbn [optForall] in Hmu, Hsh, Hmn;
      rewrite ?(E mu Hmu), ?(E sh Hsh), ?(E mn Hmn); reflexivity.
Qed.

Lemma gembed_asGroupAware :
  forall t : Spec.Node KibanaFilterUtils.KibanaFilter,
    gembed t = asGroupAware (embed t).
Proof.
  induction t as [c|op children IH] using Node_nested_ind.
  - reflexivity.
  - assert (E : map gembed children = map asGroupAware (map embed children)).
    { rewrite map_map. apply map_ext_Forall. exact IH. }
    destruct op; cbn [gembed embed]; unfold KibanaFilterUtils.gMust,
      KibanaFilterUtils.gShould, KibanaFilterUtils.mkMust,
      KibanaFilterUtils.mkShould; cbn [asGroupAware option_map];
      rewrite E; reflexivity.
Qed.

(** X5.  [groupedAstToEsQuery] extends [astToEsQuery]: a tree of filter
    and bool nodes compiles to the same document through either, and so
    does no tree at all. *)
Theorem grouped_compiler_extends_plain_compiler :
  forall ast : option KibanaFilterUtils.FilterASTNode,
    KibanaFilterUtils.groupedAstToEsQuery (option_map asGroupAware ast)
    = KibanaFilterUtils.astToEsQuery ast.
Proof.
  intros [ast|]; [|reflexivity].
  apply groupedAstToEsQueryNode_asGroupAware.
Qed.

(** ** The group-aware builder without groups *)

Lemma flatStep_combine :
  forall (op : LogicOp) (k : KibanaFilterUtils.KibanaFilter)
         (t : Spec.Node KibanaFilterUtils.KibanaFilter),
    KibanaFilterUtils.flatStep op (KibanaFilterUtils.gleaf k) (gembed t)
    = gembed (Spec.combine t op (Spec.Leaf k)).
Proof.
  intros op k [c|op' children].
  - destruct op; reflexivity.
  - destruct op, op'; cbn; rewrite ?map_app; reflexivity.
Qed.

Lemma flatLoop_fold :
  forall (todo pre : list GroupedFilter) (post : list GroupedFilter)
         (t : Spec.Node KibanaFilterUtils.KibanaFilter),
    KibanaFilterUtils.flatLoop (pre ++ todo ++ post) (List.length todo)
      (List.length pre) (gembed t)
    = KibanaFilterUtils.Returns
        (gembed
           (fold_left
              (fun result oc =>
                 Spec.combine result (fst oc) (Spec.Leaf (snd oc)))
              (map (fun f => (logicOrAnd (logic (base f)),
                              KibanaFilterUtils.toKibanaFilter (base f)))
                   todo)
              t)).
Proof.
  induction todo as [|f todo IH]; intros pre post t.
  - reflexivity.
  - cbn [List.length KibanaFilterUtils.flatLoop map fold_left fst snd].
    unfold KibanaFilterUtils.logicAt, KibanaFilterUtils.kibanaAt.
    rewrite nth_error_app2 by lia. rewrite Nat.sub_diag.
    cbn [app nth_error KibanaFilterUtils.bind].
    rewrite flatStep_combine.
    specialize (IH (pre ++ [f]) post
                   (Spec.combine t (logicOrAnd (logic (base f)))
                      (Spec.Leaf (KibanaFilterUtils.toKibanaFilter (base f))))).
    rewrite <- app_assoc, length_app in IH. cbn [app List.length] in IH.
    replace (List.length pre + 1) with (S (List.length pre)) in IH by lia.
    exact IH.
Qed.

Lemma buildFlatAST_fold :
  forall (f0 : GroupedFilter) (rest : list GroupedFilter),
    KibanaFilterUtils.buildFlatAST (f0 :: rest) 0 (List.length rest)
    = KibanaFilterUtils.Returns
        (gembed
           (Spec.foldClauses
              (KibanaFilterUtils.toKibanaFilter (base f0))
              (map (fun f => (logicOrAnd (logic (base f)),
                              KibanaFilterUtils.toKibanaFilter (base f)))
                   rest))).
Proof.
  intros f0 rest. unfold KibanaFilterUtils.buildFlatAST,
    KibanaFilterUtils.kibanaAt.
  cbn [nth_error KibanaFilterUtils.bind]. rewrite Nat.sub_0_r.
  pose proof (flatLoop_fold rest [f0] []
                (Spec.Leaf (KibanaFilterUtils.toKibanaFilter (base f0))))
    as H.
  rewrite app_nil_r in H. cbn [app List.length gembed] in H.
  exact H.
Qed.

Lemma filter_enabled_base :
  forall filters : list GroupedFilter,
    filter KibanaFilterUtils.enabled (map base filters)
    = map base (filter (fun f => KibanaFilterUtils.enabled (base f)) filters).
Proof.
  induction filters as [|f fs IH]; [reflexivity|].
  cbn [map filter]. destruct (KibanaFilterUtils.enabled (base f)); cbn [map];
    rewrite IH; reflexivity.
Qed.

Lemma buildGroupedAST_no_groups :
  forall filters : list GroupedFilter,
    KibanaFilterUtils.buildGroupedAST filters []
    = KibanaFilterUtils.Returns
        (option_map gembed (Spec.build (groupedClausesOf filters))).
Proof.
  intros filters. unfold KibanaFilterUtils.buildGroupedAST,
    groupedClausesOf, clausesOf.
  rewrite filter_enabled_base.
  destruct (filter (fun f => KibanaFilterUtils.enabled (base f)) filters)
    as [|e0 [|e1 es]].
  - reflexivity.
  - reflexivity.
  - unfold KibanaFilterUtils.buildGroupedASTRecursive.
    cbn [List.length Nat.sub Nat.ltb Nat.leb Nat.eqb filter].
    replace (S (List.length es) - 0) with (List.length (e1 :: es))
      by (cbn; lia).
    rewrite buildFlatAST_fold. cbn [KibanaFilterUtils.bind].
    cbn [map Spec.build option_map fst snd]. rewrite map_map. reflexivity.
Qed.

(** X6.  Without explicit groups the group-aware builder builds the tree
    of the implicit builder: the left fold of the enabled clauses, a run
    of one connector flat in one node and any other connector wrapping
    the running result.  It reads no clause outside the list. *)
Theorem grouped_builder_without_groups :
  forall filters : list GroupedFilter,
    KibanaFilterUtils.buildGroupedAST filters []
    = KibanaFilterUtils.Returns
        (option_map asGroupAware
           (KibanaFilterUtils.buildFilterASTWithOperators
              (map base filters))).
Proof.
  intros filters. rewrite buildGroupedAST_no_groups.
  rewrite buildFilterASTWithOperators_fold. unfold groupedClausesOf.
  destruct (Spec.build (clausesOf (map base filters))) as [t|];
    [|reflexivity].
  cbn [option_map]. rewrite gembed_asGroupAware. reflexivity.
Qed.

(** X7.  Without explicit groups [buildEsQueryFromGroupedFilters] returns
    the query [buildEsQueryFromFilters] gives for the same clauses. *)
Theorem grouped_query_without_groups :
  forall filters : list GroupedFilter,
    KibanaFilterUtils.buildEsQueryFromGroupedFilters filters []
    = KibanaFilterUtils.Returns
        (KibanaFilterUtils.buildEsQueryFromFilters (map base filters)).
Proof.
  intros filters. unfold KibanaFilterUtils.buildEsQueryFromGroupedFilters.
  rewrite buildGroupedAST_no_groups, buildEsQueryFromFilters_tree.
  unfold groupedClausesOf.
  destruct filters as [|f fs]; [reflexivity|].
  cbn [KibanaFilterUtils.bind].
  destruct (Spec.build (clausesOf (map base (f :: fs)))) as [t|];
    [|reflexivity].
  cbn [option_map KibanaFilterUtils.groupedAstToEsQuery
       KibanaFilterUtils.astToEsQuery].
  rewrite gembed_asGroupAware, groupedAstToEsQueryNode_asGroupAware.
  reflexivity.
Qed.

(** ** The group-aware builder returns, and builds no group node *)

Section GroupedBuilderReturns.
Import KibanaFilterUtils.

Lemma hasGroupNode_pair :
  forall a b : GroupAwareASTNode,
    hasGroupNode (gMust [a; b]) = hasGroupNode a || hasGroupNode b
    /\ hasGroupNode (gShould [a; b]) = hasGroupNode a || hasGroupNode b.
Proof.
  intros a b. cbn. rewrite !orb_false_r. split; reflexivity.
Qed.

Lemma flatStep_clean :
  forall (op : LogicOp) (k : KibanaFilter) (result : GroupAwareASTNode),
    hasGroupNode result = false ->
    hasGroupNode (flatStep op (gleaf k) result) = false.
Proof.
  intros op k result H.
  assert (Hm : hasGroupNode (gMust [result; gleaf k]) = false).
  { rewrite (proj1 (hasGroupNode_pair _ _)), H. reflexivity. }
  assert (Hs : hasGroupNode (gShould [result; gleaf k]) = false).
  { rewrite (proj2 (hasGroupNode_pair _ _)), H. reflexivity. }
  destruct op, result as [f|mu sh mn msm|gid gtype children];
    try discriminate; cbn [flatStep]; try assumption.
  - destruct mu as [mu|]; [|exact Hm].
    cbn [hasGroupNode] in *. rewrite existsb_app.
    cbn [existsb hasGroupNode gleaf].
    rewrite !orb_false_r. exact H.
  - destruct sh as [sh|]; [|exact Hs].
    cbn [hasGroupNode] in *. rewrite existsb_app.
    cbn [existsb hasGroupNode gleaf].
    rewrite !orb_false_r. exact H.
Qed.

Lemma flatLoop_clean :
  forall (filters : list GroupedFilter) (count i : nat)
         (result : GroupAwareASTNode),
    i + count <= List.length filters ->
    hasGroupNode result = false ->
    exists t, flatLoop filters count i result = Returns t
              /\ hasGroupNode t = false.
Proof.
  intros filters count. induction count as [|count IH]; intros i result H Hc.
  - eexists; split; [reflexivity|exact Hc].
  - cbn [flatLoop]. rewrite logicAt_returns by lia.
    destruct (kibanaAt_returns filters i) as [k Hk]; [lia|].
    cbn [bind]. rewrite Hk. cbn [bind].
    apply IH; [lia|]. apply flatStep_clean. exact Hc.
Qed.

Lemma buildGroupNode_clean :
  forall (filters : list GroupedFilter) (group : FilterGroupDefinition),
    exists t, buildGroupNode filters group = Returns t
              /\ hasGroupNode t = false.
Proof.
  intros filters group. unfold buildGroupNode.
  match goal with
  | |- context [match ?l with _ => _ end] => remember l as groupFilters eqn:E
  end.
  assert (Hall : existsb hasGroupNode groupFilters = false).
  { subst groupFilters.
    induction (filter (fun idx => Nat.ltb idx (List.length filters))
                      (filterIndices group)) as [|idx l IH];
      [reflexivity|].
    cbn [flat_map]. rewrite existsb_app, IH.
    destruct (nth_error filters idx); reflexivity. }
  eexists. split; [reflexivity|].
  destruct groupFilters as [|a [|b rest]].
  - reflexivity.
  - cbn in Hall. rewrite orb_false_r in Hall. exact Hall.
  - destruct (type group); cbn [gMust gShould hasGroupNode];
      rewrite Hall; reflexivity.
Qed.

Lemma segmentNode_clean :
  forall (filters : list GroupedFilter) (lastIdx : nat) (seg : Segment),
    lastIdx < List.length filters ->
    segmentPlaced lastIdx seg ->
    exists t, segmentNode filters seg = Returns t
              /\ hasGroupNode t = false.
Proof.
  intros filters lastIdx seg Hlast [Hstart [[Ht [g Hg]]|[Ht [Hg Hend]]]];
    unfold segmentNode; rewrite Ht, ?Hg.
  - apply buildGroupNode_clean.
  - unfold buildFlatAST.
    destruct (kibanaAt_returns filters (startIdx seg)) as [k Hk]; [lia|].
    rewrite Hk. cbn [bind]. apply flatLoop_clean; [lia|reflexivity].
Qed.

Lemma combineSegments_clean :
  forall (filters : list GroupedFilter) (lastIdx : nat)
         (todo : list Segment) (result : GroupAwareASTNode),
    lastIdx < List.length filters ->
    Forall (segmentPlaced lastIdx) todo ->
    hasGroupNode result = false ->
    exists t, combineSegments filters todo result = Returns t
              /\ hasGroupNode t = false.
Proof.
  intros filters lastIdx todo.
  induction todo as [|seg todo IH]; intros result Hlast Hall Hc.
  - eexists; split; [reflexivity|exact Hc].
  - inversion Hall as [|? ? Hseg Hall']; subst.
    destruct (segmentNode_clean filters lastIdx seg Hlast Hseg)
      as [t [Ht Htc]].
    cbn [combineSegments].
    rewrite logicAt_returns by (destruct Hseg; lia).
    cbn [bind]. rewrite Ht. cbn [bind].
    apply (IH _ Hlast Hall').
    destruct (connectorAt filters (startIdx seg)); cbn;
      rewrite Hc, Htc; reflexivity.
Qed.

Lemma buildGroupedASTRecursive_clean :
  forall (filters : list GroupedFilter)
         (groups : list FilterGroupDefinition) (lastIdx : nat),
    lastIdx < List.length filters ->
    exists t, buildGroupedASTRecursive filters groups 0 lastIdx
              = Returns (Some t)
              /\ hasGroupNode t = false.
Proof.
  intros filters groups lastIdx Hlast.
  unfold buildGroupedASTRecursive.
  replace (Nat.ltb lastIdx 0) with false by reflexivity.
  destruct (kibanaAt_returns filters 0) as [k Hk]; [lia|].
  destruct (Nat.eqb 0 lastIdx) eqn:E.
  - rewrite Hk. cbn [bind]. eexists; split; reflexivity.
  - destruct (filter (inRange 0 lastIdx) groups) as [|g gs].
    + unfold buildFlatAST. rewrite Hk. cbn [bind].
      destruct (flatLoop_clean filters (lastIdx - 0) 1
                  (gleaf k)) as [t [Ht Hc]]; [lia|reflexivity|].
      rewrite Ht. cbn [bind]. eexists; split; [reflexivity|exact Hc].
    + unfold buildASTWithGroups.
      pose proof (segmentsLoop_placed (sortGroups (g :: gs)) lastIdx
                    (S lastIdx - 0) 0) as Hplaced.
      pose proof (segmentsLoop_nonempty (sortGroups (g :: gs)) 0 lastIdx
                    (Nat.le_0_l lastIdx)) as Hne.
      destruct (segmentsLoop (S lastIdx - 0) (sortGroups (g :: gs))
                             lastIdx 0) as [|seg0 rest]; [congruence|].
      inversion Hplaced as [|? ? Hseg0 Hrest]; subst.
      destruct (segmentNode_clean filters lastIdx seg0 Hlast Hseg0)
        as [t0 [Ht0 Hc0]].
      destruct (combineSegments_clean filters lastIdx rest t0 Hlast Hrest
                  Hc0) as [t [Ht Hc]].
      exists t. split; [|exact Hc].
      destruct rest as [|seg1 rest'].
      * cbn [combineSegments] in Ht. injection Ht as <-.
        rewrite Ht0. reflexivity.
      * rewrite Ht0. cbn [bind]. rewrite Ht. reflexivity.
Qed.

End GroupedBuilderReturns.

(** X8.  [buildGroupedAST] returns on every list of clauses and every
    list of groups, whatever indices the groups hold: it never reads a
    clause outside the list.  The tree it returns holds filter and bool
    nodes only, never a node of type ['group'], and there is a tree as
    soon as one clause is enabled. *)
Theorem grouped_builder_returns :
  forall (filters : list GroupedFilter)
         (groups : list FilterGroupDefinition),
    exists result,
      KibanaFilterUtils.buildGroupedAST filters groups
      = KibanaFilterUtils.Returns result
      /\ (forall t, result = Some t -> hasGroupNode t = false)
      /\ (result = None <->
          filter (fun f => KibanaFilterUtils.enabled (base f)) filters = []).
Proof.
  intros filters groups. unfold KibanaFilterUtils.buildGroupedAST.
  destruct (filter (fun f => KibanaFilterUtils.enabled (base f)) filters)
    as [|e0 [|e1 es]] eqn:E.
  - eexists. split; [reflexivity|]. split; [discriminate|tauto].
  - eexists. split; [reflexivity|]. split.
    + intros t Ht. injection Ht as <-. reflexivity.
    + split; discriminate.
  - destruct (buildGroupedASTRecursive_clean (e0 :: e1 :: es) groups
                (List.length (e0 :: e1 :: es) - 1)) as [t [Ht Hc]];
      [cbn; lia|].
    exists (Some t). split; [exact Ht|]. split.
    + intros t' Ht'. injection Ht' as <-. exact Hc.
    + split; discriminate.
Qed.

(** ** A group that spans the whole list *)

Lemma fold_left_max_list_max :
  forall (rest : list nat) (i : nat),
    fold_left Nat.max rest i = Nat.max i (list_max rest).
Proof.
  induction rest as [|r rest IH]; intros i; cbn [fold_left].
  - change (list_max []) with 0. lia.
  - rewrite IH.
    change (list_max (r :: rest)) with (Nat.max r (list_max rest)). lia.
Qed.

Lemma list_max_in :
  forall l : list nat, l <> [] -> In (list_max l) l.
Proof.
  induction l as [|a l IH]; intros H; [congruence|].
  destruct l as [|b l'].
  - left. cbn. lia.
  - change (list_max (a :: b :: l')) with (Nat.max a (list_max (b :: l'))).
    destruct (Nat.max_spec a (list_max (b :: l'))) as [[_ E]|[_ E]];
      rewrite E.
    + right. apply IH. discriminate.
    + left. reflexivity.
Qed.

Lemma flat_map_two :
  forall (B : Type) (f : nat -> list B) (l : list nat) (a b : nat),
    In a l -> In b l -> a <> b -> f a <> [] -> f b <> [] ->
    2 <= List.length (flat_map f l).
Proof.
  intros B f l a b Ha Hb Hab Hfa Hfb.
  assert (Hone : forall (l0 : list nat) (c : nat),
             In c l0 -> f c <> [] -> 1 <= List.length (flat_map f l0)).
  { induction l0 as [|d l0 IH0]; intros c Hc Hfc; [contradiction|].
    cbn [flat_map]. rewrite length_app. destruct Hc as [->|Hc].
    - destruct (f c); [congruence|cbn; lia].
    - specialize (IH0 c Hc Hfc). lia. }
  induction l as [|c l IH]; [contradiction|].
  cbn [flat_map]. rewrite length_app.
  destruct Ha as [->|Ha], Hb as [->|Hb].
  - congruence.
  - pose proof (Hone l b Hb Hfb). destruct (f a); [congruence|cbn; lia].
  - pose proof (Hone l a Ha Hfa). destruct (f b); [congruence|cbn; lia].
  - specialize (IH Ha Hb). lia.
Qed.

(** X9.  When a single group spans the whole list of (enabled) clauses,
    its smallest index the first clause and its largest the last, the
    tree is one node of the group's type over the group's members in the
    order the group lists them.  The connectors of the clauses are not
    read, and a clause that lies between the members without being one is
    left out of the tree. *)
Theorem spanning_group_takes_its_members_only :
  forall (filters : list GroupedFilter) (g : FilterGroupDefinition),
    (forall f, In f filters -> disabled (base f) = false) ->
    2 <= List.length filters ->
    KibanaFilterUtils.minIdx (filterIndices g) = Some 0 ->
    list_max (filterIndices g) = List.length filters - 1 ->
    KibanaFilterUtils.buildGroupedAST filters [g]
    = KibanaFilterUtils.Returns
        (Some (gembed (Spec.Bool (type g)
                         (map Spec.Leaf (survivingMembers filters g))))).
Proof.
  intros filters g Hen Hlen Hmin Hmax.
  unfold KibanaFilterUtils.buildGroupedAST.
  rewrite filter_all
    by (intros f Hf; unfold KibanaFilterUtils.enabled; rewrite (Hen f Hf);
        reflexivity).
  destruct filters as [|f0 [|f1 fs]]; [cbn in Hlen; lia|cbn in Hlen; lia|].
  set (filters := f0 :: f1 :: fs) in *.
  assert (Hne : filterIndices g <> []).
  { intros E. rewrite E in Hmin. discriminate. }
  assert (HmaxIdx : KibanaFilterUtils.maxIdx (filterIndices g)
                    = Some (List.length filters - 1)).
  { unfold KibanaFilterUtils.maxIdx. destruct (filterIndices g) as [|i rest];
      [congruence|].
    rewrite fold_left_max_list_max. rewrite <- Hmax. reflexivity. }
  assert (Hn : List.length filters - 1 = S (List.length fs)) by (cbn; lia).
  unfold KibanaFilterUtils.buildGroupedASTRecursive.
  rewrite Hn. cbn [Nat.ltb Nat.leb Nat.eqb filter].
  unfold KibanaFilterUtils.inRange. rewrite Hmin, HmaxIdx, Hn.
  cbn [KibanaFilterUtils.leInf Nat.leb andb].
  rewrite Nat.leb_refl.
  unfold KibanaFilterUtils.buildASTWithGroups.
  cbn [KibanaFilterUtils.sortGroups fold_left KibanaFilterUtils.insertGroup].
  replace (S (S (List.length fs)) - 0) with (S (S (List.length fs))) by lia.
  cbn [KibanaFilterUtils.segmentsLoop Nat.leb find].
  unfold KibanaFilterUtils.startsAt at 1, KibanaFilterUtils.groupStart.
  rewrite Hmin. cbn [Nat.eqb]. rewrite Hmax, Hn.
  replace (Nat.leb (S (List.length fs) + 1) (S (List.length fs))) with false
    by (symmetry; apply Nat.leb_gt; lia).
  cbn [KibanaFilterUtils.segmentNode KibanaFilterUtils.segType
       KibanaFilterUtils.segGroup KibanaFilterUtils.bind].
  rewrite buildGroupNode_members. cbn [KibanaFilterUtils.bind].
  assert (H2 : 2 <= List.length (survivingMembers filters g)).
  { unfold survivingMembers.
    apply (flat_map_two _ _ (filterIndices g) 0 (List.length filters - 1)).
    - unfold KibanaFilterUtils.minIdx in Hmin.
      destruct (filterIndices g) as [|i rest]; [congruence|].
      injection Hmin as Hmin. rewrite <- Hmin. apply fold_left_min_in.
    - rewrite <- Hmax. apply list_max_in. exact Hne.
    - rewrite Hn. discriminate.
    - discriminate.
    - rewrite Hn. cbn [filters nth_error].
      destruct (nth_error (f1 :: fs) (List.length fs)) eqn:E;
        [discriminate|].
      apply nth_error_None in E. cbn in E. lia. }
  destruct (survivingMembers filters g) as [|a [|b rest]];
    [cbn in H2; lia|cbn in H2; lia|].
  reflexivity.
Qed.

(** Three clauses and the OR group [[0, 2]] satisfy the hypotheses of
    [spanning_group_takes_its_members_only]: clause 1 is not in the
    tree. *)
Lemma spanning_group_witness :
  (forall f, In f spanningFilters -> disabled (base f) = false)
  /\ 2 <= List.length spanningFilters
  /\ KibanaFilterUtils.minIdx (filterIndices spanningGroup) = Some 0
  /\ list_max (filterIndices spanningGroup)
     = List.length spanningFilters - 1
  /\ KibanaFilterUtils.buildGroupedAST spanningFilters [spanningGroup]
     = KibanaFilterUtils.Returns
         (Some (KibanaFilterUtils.gShould
                  [KibanaFilterUtils.gleaf
                     (kibanaOf (groupedClause "a" None));
                   KibanaFilterUtils.gleaf
                     (kibanaOf (groupedClause "c" (Some AND)))])).
Proof.
  assert (H1 : forall f, In f spanningFilters -> disabled (base f) = false).
  { intros f [<-|[<-|[<-|[]]]]; reflexivity. }
  assert (H2 : 2 <= List.length spanningFilters) by (cbn; lia).
  split; [exact H1|]. split; [exact H2|].
  split; [reflexivity|]. split; [reflexivity|].
  exact (spanning_group_takes_its_members_only spanningFilters spanningGroup
           H1 H2 eq_refl eq_refl).
Defined.

(** ** The trees of the filter builder service *)

Section ServiceTrees.
Import FilterAstService.
Variable generateId : nat -> string.

Lemma ServiceNode_nested_ind :
  forall P : FilterASTNode -> Prop,
    (forall nid clause, P (ClauseNode nid clause)) ->
    (forall nid op children,
        Forall P children -> P (GroupNode nid op children)) ->
    forall t, P t.
Proof.
  intros P HC HG. fix IH 1. intros [nid clause|nid op children].
  - apply HC.
  - apply HG. induction children as [|ch chs IHl]; constructor.
    + apply IH.
    + exact IHl.
Qed.

Lemma flat_map_ext_Forall :
  forall (A B : Type) (f g : A -> list B) (l : list A),
    Forall (fun a => f a = g a) l -> flat_map f l = flat_map g l.
Proof.
  intros A B f g l H. induction H as [|a l Ha _ IH]; cbn.
  - reflexivity.
  - rewrite Ha, IH. reflexivity.
Qed.

Lemma traverse_combineNodes :
  forall (left right : FilterASTNode) (op : LogicOp) (calls : nat),
    traverse (fst (combineNodes generateId left right op calls))
    = traverse left ++ traverse right.
Proof.
  intros [nid clause|nid op' children] right op calls; cbn.
  - rewrite app_nil_r. reflexivity.
  - destruct (LogicOp_eqb op' op); cbn.
    + rewrite flat_map_app. cbn. rewrite app_nil_r. reflexivity.
    + rewrite app_nil_r. reflexivity.
Qed.

Lemma traverse_buildASTLoop :
  forall (todo : list FilterRow) (result : FilterASTNode) (calls : nat),
    traverse (fst (buildASTLoop generateId todo result calls))
    = traverse result ++ map rowClause todo.
Proof.
  induction todo as [|row todo IH]; intros result calls.
  - cbn. rewrite app_nil_r. reflexivity.
  - cbn [buildASTLoop map].
    pose proof (traverse_combineNodes result
                  (createClauseNode (rowClause row))
                  (logicOrAnd (logicOperator row)) calls) as H.
    destruct (combineNodes generateId result
                (createClauseNode (rowClause row))
                (logicOrAnd (logicOperator row)) calls) as [result' calls'].
    cbn [fst] in H. rewrite IH, H. cbn. rewrite <- app_assoc. reflexivity.
Qed.

Lemma getAllClauses_buildAST :
  forall (rows : list FilterRow) (calls : nat),
    getAllClauses (fst (buildAST generateId rows calls)) = map rowClause rows.
Proof.
  intros [|row [|row' rows]] calls; try reflexivity.
  unfold buildAST.
  pose proof (traverse_buildASTLoop (row' :: rows)
                (createClauseNode (rowClause row)) calls) as H.
  destruct (buildASTLoop generateId (row' :: rows)
              (createClauseNode (rowClause row)) calls) as [result calls'].
  cbn [fst getAllClauses] in *. rewrite H. reflexivity.
Qed.

Lemma getAllClauses_removeClauseNode :
  forall (cid : string) (ast : FilterASTNode),
    getAllClauses (removeClauseNode ast cid)
    = filter (otherClause cid) (traverse ast).
Proof.
  intros cid. induction ast as [nid clause|nid op children IH]
    using ServiceNode_nested_ind.
  - cbn. unfold otherClause.
    destruct (String.eqb (clauseId clause) cid); reflexivity.
  - cbn [removeClauseNode traverse].
    set (kept := flat_map (fun child => match removeClauseNode child cid with
                                        | Some kept => [kept]
                                        | None => []
                                        end) children).
    assert (E : flat_map traverse kept
                = filter (otherClause cid) (flat_map traverse children)).
    { subst kept. clear nid op.
      induction IH as [|child children Hc _ IHl]; [reflexivity|].
      cbn [flat_map]. rewrite flat_map_app, filter_app, IHl, <- Hc.
      destruct (removeClauseNode child cid); cbn;
        rewrite ?app_nil_r; reflexivity. }
    rewrite <- E.
    destruct kept as [|a [|b rest]]; cbn; rewrite ?app_nil_r; reflexivity.
Qed.

Lemma proper_combineNodes :
  forall (left right : FilterASTNode) (op : LogicOp) (calls : nat),
    proper left = true -> proper right = true ->
    proper (fst (combineNodes generateId left right op calls)) = true.
Proof.
  intros [nid clause|nid op' children] right op calls Hl Hr;
    unfold combineNodes, createGroupNode.
  - cbn [fst proper List.length forallb]. rewrite Hr. reflexivity.
  - cbn [proper] in Hl. apply andb_true_iff in Hl. destruct Hl as [Hlen Hall].
    destruct (LogicOp_eqb op' op); cbn [fst proper].
    + rewrite forallb_app, Hall. cbn [forallb]. rewrite Hr.
      rewrite length_app. cbn [List.length].
      apply Nat.leb_le in Hlen.
      replace (Nat.leb 2 (List.length children + 1)) with true
        by (symmetry; apply Nat.leb_le; lia).
      reflexivity.
    + cbn [List.length forallb proper]. rewrite Hlen, Hall, Hr. reflexivity.
Qed.

Lemma proper_buildASTLoop :
  forall (todo : list FilterRow) (result : FilterASTNode) (calls : nat),
    proper result = true ->
    proper (fst (buildASTLoop generateId todo result calls)) = true.
Proof.
  induction todo as [|row todo IH]; intros result calls H; [exact H|].
  cbn [buildASTLoop].
  pose proof (proper_combineNodes result (createClauseNode (rowClause row))
                (logicOrAnd (logicOperator row)) calls H eq_refl) as Hp.
  destruct (combineNodes generateId result
              (createClauseNode (rowClause row))
              (logicOrAnd (logicOperator row)) calls) as [result' calls'].
  apply IH. exact Hp.
Qed.

Lemma removeClauseNode_absent :
  forall (cid : string) (ast : FilterASTNode),
    proper ast = true ->
    (forall c, In c (traverse ast) -> clauseId c <> cid) ->
    removeClauseNode ast cid = Some ast.
Proof.
  intros cid. induction ast as [nid clause|nid op children IH]
    using ServiceNode_nested_ind; intros Hp Habs.
  - cbn. replace (String.eqb (clauseId clause) cid) with false; [reflexivity|].
    symmetry. apply String.eqb_neq. apply Habs. left. reflexivity.
  - cbn [proper] in Hp. apply andb_true_iff in Hp.
    destruct Hp as [Hlen Hall]. cbn [removeClauseNode].
    assert (E : flat_map (fun child => match removeClauseNode child cid with
                                       | Some kept => [kept]
                                       | None => []
                                       end) children = children).
    { clear Hlen. cbn [traverse] in Habs.
      induction IH as [|child children Hc _ IHl]; [reflexivity|].
      cbn [forallb] in Hall. apply andb_true_iff in Hall.
      destruct Hall as [Hpc Hall]. cbn [flat_map]. rewrite Hc.
      - cbn. f_equal. apply IHl; [exact Hall|].
        intros c Hin. apply Habs. cbn. apply in_or_app. right. exact Hin.
      - exact Hpc.
      - intros c Hin. apply Habs. cbn. apply in_or_app. left. exact Hin. }
    rewrite E. apply Nat.leb_le in Hlen.
    destruct children as [|a [|b rest]]; cbn in Hlen; try lia.
    reflexivity.
Qed.

Lemma find_app :
  forall (A : Type) (p : A -> bool) (l1 l2 : list A),
    find p (l1 ++ l2)
    = match find p l1 with
      | Some x => Some x
      | None => find p l2
      end.
Proof.
  intros A p l1 l2. induction l1 as [|a l1 IH]; cbn.
  - reflexivity.
  - destruct (p a); [reflexivity|exact IH].
Qed.

Lemma findNodeIn_flatten :
  forall (nid : string) (ast : FilterASTNode),
    findNodeIn ast nid = find (hasNodeId nid) (flattenNode ast).
Proof.
  intros nid. induction ast as [nid' clause|nid' op children IH]
    using ServiceNode_nested_ind.
  - cbn. unfold hasNodeId. cbn.
    destruct (String.eqb nid' nid); reflexivity.
  - cbn [findNodeIn flattenNode find nodeIdOf]. unfold hasNodeId at 1.
    cbn [nodeIdOf].
    destruct (String.eqb nid' nid); [reflexivity|].
    induction IH as [|child children Hc _ IHl]; [reflexivity|].
    cbn [flat_map]. rewrite find_app, <- Hc.
    destruct (findNodeIn child nid); [reflexivity|exact IHl].
Qed.

Lemma clauses_of_flatten :
  forall ast : FilterASTNode,
    flat_map clauseOfNode (flattenNode ast) = traverse ast.
Proof.
  induction ast as [nid clause|nid op children IH]
    using ServiceNode_nested_ind.
  - reflexivity.
  - cbn [flattenNode traverse flat_map clauseOfNode app].
    induction IH as [|child children Hc _ IHl]; [reflexivity|].
    cbn [flat_map]. rewrite flat_map_app, Hc, IHl. reflexivity.
Qed.

End ServiceTrees.

(** X10.  The tree [buildAST] builds holds the clauses of the rows, each
    once and in the order of the rows: [getAllClauses] gives them back. *)
Theorem buildAST_keeps_the_clauses :
  forall (generateId : nat -> string)
         (rows : list FilterAstService.FilterRow) (calls : nat),
    FilterAstService.getAllClauses
      (fst (FilterAstService.buildAST generateId rows calls))
    = map FilterAstService.rowClause rows.
Proof. exact getAllClauses_buildAST. Qed.

(** X11.  [removeClause] removes from a tree exactly the clauses that
    carry the identifier, and keeps the others in their order; no tree is
    left when no clause is. *)
Theorem removeClause_removes_the_clause :
  forall (ast : option FilterAstService.FilterASTNode) (cid : string),
    FilterAstService.getAllClauses (FilterAstService.removeClause ast cid)
    = filter (otherClause cid) (FilterAstService.getAllClauses ast).
Proof.
  intros [ast|] cid; [|reflexivity].
  apply getAllClauses_removeClauseNode.
Qed.

(** X12.  On a tree built from rows, [removeClause] with an identifier
    that no clause carries returns the tree unchanged. *)
Theorem removeClause_of_absent_clause :
  forall (generateId : nat -> string)
         (rows : list FilterAstService.FilterRow) (calls : nat)
         (cid : string),
    (forall row, In row rows ->
                 FilterAstService.clauseId (FilterAstService.rowClause row)
                 <> cid) ->
    FilterAstService.removeClause
      (fst (FilterAstService.buildAST generateId rows calls)) cid
    = fst (FilterAstService.buildAST generateId rows calls).
Proof.
  intros generateId rows calls cid Habs.
  pose proof (getAllClauses_buildAST generateId rows calls) as Hc.
  assert (Hp : forall t,
             fst (FilterAstService.buildAST generateId rows calls) = Some t ->
             proper t = true).
  { intros t Ht. destruct rows as [|row [|row' rows]].
    - discriminate.
    - injection Ht as <-. reflexivity.
    - unfold FilterAstService.buildAST in Ht.
      pose proof (proper_buildASTLoop generateId (row' :: rows)
                    (FilterAstService.createClauseNode
                       (FilterAstService.rowClause row)) calls eq_refl)
        as H.
      destruct (FilterAstService.buildASTLoop generateId (row' :: rows)
                  (FilterAstService.createClauseNode
                     (FilterAstService.rowClause row)) calls)
        as [result calls'].
      injection Ht as <-. exact H. }
  destruct (fst (FilterAstService.buildAST generateId rows calls))
    as [t|]; [|reflexivity].
  cbn [FilterAstService.removeClause FilterAstService.getAllClauses] in *.
  apply removeClauseNode_absent; [apply Hp; reflexivity|].
  intros c Hin. rewrite Hc in Hin. apply in_map_iff in Hin.
  destruct Hin as [row [<- Hrow]]. apply Habs. exact Hrow.
Qed.

(** No row of [threeRows] carries the identifier ["z"]. *)
Lemma removeClause_of_absent_clause_witness :
  (forall row, In row Examples.threeRows ->
               FilterAstService.clauseId (FilterAstService.rowClause row)
               <> "z"%string)
  /\ FilterAstService.removeClause
       (fst (FilterAstService.buildAST Examples.countingId
               Examples.threeRows 0))
       "z"
     = fst (FilterAstService.buildAST Examples.countingId
              Examples.threeRows 0).
Proof.
  assert (H : forall row, In row Examples.threeRows ->
                FilterAstService.clauseId (FilterAstService.rowClause row)
                <> "z"%string).
  { intros row [<-|[<-|[<-|[]]]]; discriminate. }
  split; [exact H|].
  exact (removeClause_of_absent_clause Examples.countingId
           Examples.threeRows 0 "z" H).
Defined.

(** X13.  [findNode] returns the first node, in the depth-first order of
    [flattenAST], that carries the identifier, and none when no node
    does; the clause nodes of [flattenAST] hold, in order, the clauses
    [getAllClauses] returns. *)
Theorem findNode_is_first_in_flattenAST :
  forall (ast : option FilterAstService.FilterASTNode) (nid : string),
    FilterAstService.findNode ast nid
    = find (hasNodeId nid) (FilterAstService.flattenAST ast)
    /\ flat_map clauseOfNode (FilterAstService.flattenAST ast)
       = FilterAstService.getAllClauses ast.
Proof.
  intros [ast|] nid; [|split; reflexivity].
  split; [apply findNodeIn_flatten|apply clauses_of_flatten].
Qed.

(** X14.  [buildAST] builds the tree that [addClause] builds when the
    rows are added one at a time to the empty tree, each with its
    connector (AND when it has none), and it draws the same
    identifiers. *)
Theorem buildAST_adds_the_rows_in_turn :
  forall (generateId : nat -> string)
         (rows : list FilterAstService.FilterRow) (calls : nat),
    fold_left (addRow generateId) rows (None, calls)
    = FilterAstService.buildAST generateId rows calls.
Proof.
  intros generateId rows calls.
  destruct rows as [|row rest]; [reflexivity|].
  cbn [fold_left]. unfold addRow at 2.
  cbn [fst snd FilterAstService.addClause].
  assert (H : forall todo result k,
             fold_left (addRow generateId) todo (Some result, k)
             = (Some (fst (FilterAstService.buildASTLoop generateId todo
                             result k)),
                snd (FilterAstService.buildASTLoop generateId todo
                       result k))).
  { induction todo as [|r todo IH]; intros result k; [reflexivity|].
    cbn [fold_left FilterAstService.buildASTLoop]. unfold addRow at 2.
    cbn [fst snd FilterAstService.addClause].
    destruct (FilterAstService.combineNodes generateId result
                (FilterAstService.createClauseNode
                   (FilterAstService.rowClause r))
                (logicOrAnd (FilterAstService.logicOperator r)) k)
      as [result' k'].
    apply IH. }
  rewrite H. unfold FilterAstService.buildAST.
  destruct rest as [|row' rest]; [reflexivity|].
  destruct (FilterAstService.buildASTLoop generateId (row' :: rest)
              (FilterAstService.createClauseNode
                 (FilterAstService.rowClause row)) calls); reflexivity.
Qed.

(** ** The preview is the text of the tree *)

Section PreviewOfTheTree.
Import KibanaFilterUtils.

Lemma combine_foldedAfter :
  forall (C : Type) (pre : list LogicOp) (op : LogicOp)
         (t next : Spec.Node C),
    foldedAfter (pre ++ [op]) (Spec.combine t op next).
Proof.
  intros C pre op t next. unfold foldedAfter.
  destruct (pre ++ [op]) eqn:E.
  - destruct pre; discriminate.
  - rewrite <- E, last_last.
    destruct t as [c|op' children]; cbn.
    + eexists; split; [|reflexivity]. discriminate.
    + destruct (LogicOp_eqb op' op) eqn:Eo.
      * destruct op', op; try discriminate; eexists; (split; [|reflexivity]);
          destruct children; discriminate.
      * eexists; split; [|reflexivity]. discriminate.
Qed.

Lemma previewLoop_step :
  forall (pre ops : list LogicOp) (op : LogicOp) (s : string)
         (todo : list PreviewExpr) (t : Spec.Node string),
    foldedAfter pre t ->
    previewLoop (pre ++ op :: ops) (S (List.length pre))
                (exprOf (op, s) :: todo) (render None t)
    = previewLoop (pre ++ op :: ops) (S (S (List.length pre))) todo
        (render None (Spec.combine t op (Spec.Leaf s))).
Proof.
  intros pre ops op s todo t Hf.
  cbn [previewLoop exprOf text snd fst].
  replace (S (List.length pre) - 1) with (List.length pre) by lia.
  replace (nth_error (pre ++ op :: ops) (List.length pre)) with (Some op)
    by (rewrite nth_error_app2 by lia; rewrite Nat.sub_diag; reflexivity).
  cbn [optLogicName]. f_equal.
  destruct pre as [|p0 pre'] using rev_ind.
  - destruct Hf as [c ->]. cbn. rewrite ?string_append_assoc. reflexivity.
  - clear IHpre'.
    assert (Hlast : last (pre' ++ [p0]) AND = p0) by apply last_last.
    assert (Hc : exists children,
               children <> [] /\ t = Spec.Bool p0 children).
    { unfold foldedAfter in Hf. destruct (pre' ++ [p0]) eqn:E.
      - destruct pre'; discriminate.
      - rewrite Hlast in Hf. exact Hf. }
    destruct Hc as [children [Hne ->]].
    rewrite length_app. cbn [List.length].
    replace (Nat.ltb 1 (S (List.length pre' + 1))) with true
      by (symmetry; apply Nat.ltb_lt; lia).
    replace (S (List.length pre' + 1) - 2) with (List.length pre') by lia.
    rewrite <- app_assoc. cbn [app].
    rewrite nth_error_app2 by lia. rewrite Nat.sub_diag. cbn [nth_error].
    assert (Hm : forall p, map (render p) children <> []).
    { intros p. destruct children; [congruence|discriminate]. }
    destruct p0, op;
      cbn [optLogic_eqb LogicOp_eqb negb Spec.combine render map];
      rewrite ?map_app; cbn [map render];
      rewrite ?(join_snoc _ _ _ (Hm _)); cbn [join LogicOp_eqb];
      cbn [logicName append]; rewrite ?string_append_assoc; reflexivity.
Qed.

Lemma previewLoop_render :
  forall (todo : list (LogicOp * string)) (pre : list LogicOp)
         (t : Spec.Node string),
    foldedAfter pre t ->
    previewLoop (pre ++ map fst todo) (S (List.length pre))
                (map exprOf todo) (render None t)
    = render None
        (fold_left (fun result oc =>
                      Spec.combine result (fst oc) (Spec.Leaf (snd oc)))
                   todo t).
Proof.
  induction todo as [|[op s] todo IH]; intros pre t Hf.
  - reflexivity.
  - cbn [map fst snd fold_left].
    rewrite (previewLoop_step pre (map fst todo) op s (map exprOf todo) t Hf).
    specialize (IH (pre ++ [op]) (Spec.combine t op (Spec.Leaf s))
                   (combine_foldedAfter _ pre op t (Spec.Leaf s))).
    rewrite <- app_assoc, length_app in IH. cbn [app List.length] in IH.
    replace (S (List.length pre + 1)) with (S (S (List.length pre))) in IH
      by lia.
    exact IH.
Qed.

Lemma render_leaves :
  forall (p : option LogicOp) (texts : list string),
    map (render p) (map Spec.Leaf texts) = texts.
Proof.
  intros p texts. rewrite map_map. cbn [render]. apply map_id.
Qed.

Lemma LogicOp_eqb_eq :
  forall a b : LogicOp, LogicOp_eqb a b = true <-> a = b.
Proof. intros [|] [|]; cbn; split; congruence. Qed.

Lemma buildPreviewWithGrouping_render :
  forall (first : string) (rest : list (LogicOp * string)),
    buildPreviewWithGrouping (mkExpr first None :: map exprOf rest)
    = render None (Spec.foldClauses first rest).
Proof.
  intros first rest. destruct rest as [|[op1 s1] rs]; [reflexivity|].
  destruct (forallb (fun oc => LogicOp_eqb (fst oc) op1) rs) eqn:U.
  - assert (Hall : forall oc, In oc ((op1, s1) :: rs) -> fst oc = op1).
    { intros oc [<-|Hin]; [reflexivity|].
      apply LogicOp_eqb_eq.
      exact (proj1 (forallb_forall _ _) U oc Hin). }
    cbn [map].
    rewrite (buildPreviewWithGrouping_uniform op1).
    + rewrite (foldClauses_flat _ op1 first ((op1, s1) :: rs))
        by (discriminate || exact Hall).
      cbn [render]. rewrite render_leaves.
      cbn [map text]. do 2 f_equal. rewrite map_map. reflexivity.
    + intros e He. change (exprOf (op1, s1) :: map exprOf rs)
        with (map exprOf ((op1, s1) :: rs)) in He.
      apply in_map_iff in He. destruct He as [oc [<- Hoc]].
      cbn. rewrite (Hall oc Hoc). reflexivity.
  - unfold buildPreviewWithGrouping. cbn [map].
    assert (Eops : logicOrAnd (exprOperator (exprOf (op1, s1)))
                   :: map (fun e => logicOrAnd (exprOperator e))
                          (map exprOf rs)
                   = op1 :: map fst rs).
    { cbn. f_equal. rewrite map_map. reflexivity. }
    rewrite Eops.
    assert (Hnot : forallb
                     (fun op => optLogic_eqb (Some op)
                                  (hd_error (op1 :: map fst rs)))
                     (op1 :: map fst rs) = false).
    { cbn [hd_error forallb optLogic_eqb].
      replace (forallb (fun op => LogicOp_eqb op op1) (map fst rs))
        with (forallb (fun oc => LogicOp_eqb (fst oc) op1) rs).
      - rewrite U. apply andb_false_r.
      - clear. induction rs as [|oc rs IH]; cbn; [reflexivity|].
        rewrite IH. reflexivity. }
    rewrite Hnot.
    exact (previewLoop_render ((op1, s1) :: rs) [] (Spec.Leaf first)
             (ex_intro _ first eq_refl)).
Qed.

Lemma mapNode_foldClauses :
  forall (A B : Type) (f : A -> B) (rest : list (LogicOp * A))
         (t : Spec.Node A),
    mapNode f
      (fold_left (fun result oc =>
                    Spec.combine result (fst oc) (Spec.Leaf (snd oc)))
                 rest t)
    = fold_left (fun result oc =>
                   Spec.combine result (fst oc) (Spec.Leaf (snd oc)))
                (map (fun oc => (fst oc, f (snd oc))) rest)
                (mapNode f t).
Proof.
  intros A B f rest. induction rest as [|[op a] rest IH]; intros t.
  - reflexivity.
  - cbn [fold_left map fst snd]. rewrite IH. f_equal.
    destruct t as [c|op' children]; cbn; [reflexivity|].
    destruct (LogicOp_eqb op' op); cbn; rewrite ?map_app; reflexivity.
Qed.

End PreviewOfTheTree.

Lemma buildPreviewRecursive_render :
  forall (node : FilterAstService.FilterASTNode) (parent : option LogicOp),
    FilterAstService.buildPreviewRecursive node parent
    = render parent (mapNode FilterAstService.formatClause (shape node)).
Proof.
  induction node as [nid clause|nid op children IH]
    using ServiceNode_nested_ind; intros parent.
  - reflexivity.
  - cbn [FilterAstService.buildPreviewRecursive shape mapNode render].
    assert (E : map (fun child =>
                       FilterAstService.buildPreviewRecursive child (Some op))
                    children
                = map (render (Some op))
                      (map (mapNode FilterAstService.formatClause)
                           (map shape children))).
    { rewrite !map_map. apply map_ext_Forall.
      eapply Forall_impl; [|exact IH]. intros child Hc. apply Hc. }
    rewrite E. destruct parent as [p|]; [|reflexivity].
    destruct (LogicOp_eqb p op); reflexivity.
Qed.

Lemma build_mapNode :
  forall (A B : Type) (f : A -> B) (clauses : list (LogicOp * A)),
    Spec.build (map (fun oc => (fst oc, f (snd oc))) clauses)
    = option_map (mapNode f) (Spec.build clauses).
Proof.
  intros A B f [|[op a] rest]; [reflexivity|].
  cbn [map Spec.build option_map fst snd]. unfold Spec.foldClauses.
  rewrite mapNode_foldClauses. reflexivity.
Qed.

(** X15.  The preview the service generates for the tree built from rows
    is the string the utilities' [buildPreviewWithGrouping] gives for the
    texts of the clauses and the connectors of the rows: the same
    connectors, and parentheses around the running text at every change
    of connector and nowhere else. *)
Theorem service_preview_agrees_with_utilities :
  forall (generateId : nat -> string)
         (rows : list FilterAstService.FilterRow) (calls : nat),
    FilterAstService.generatePreview
      (fst (FilterAstService.buildAST generateId rows calls))
    = KibanaFilterUtils.buildPreviewWithGrouping (exprsOfRows rows).
Proof.
  intros generateId rows calls.
  pose proof (shape_buildAST generateId rows calls) as Hs.
  destruct rows as [|row rest].
  - reflexivity.
  - unfold exprsOfRows.
    pose proof (buildPreviewWithGrouping_render
                  (FilterAstService.formatClause
                     (FilterAstService.rowClause row))
                  (map (fun r => (logicOrAnd (FilterAstService.logicOperator r),
                                  FilterAstService.formatClause
                                    (FilterAstService.rowClause r)))
                       rest)) as Hr.
    rewrite map_map in Hr. unfold exprOf in Hr. cbn [fst snd] in Hr.
    rewrite Hr. clear Hr.
    destruct (fst (FilterAstService.buildAST generateId (row :: rest) calls))
      as [node|]; [|discriminate].
    cbn [option_map rowsOf map Spec.build] in Hs. injection Hs as Hs.
    cbn [FilterAstService.generatePreview].
    rewrite buildPreviewRecursive_render, Hs.
    unfold Spec.foldClauses. rewrite mapNode_foldClauses.
    rewrite map_map. reflexivity.
Qed.

(** X16.  In the utilities the preview is the text of the tree that is
    compiled: [buildPreviewString] renders, and
    [buildFilterASTWithOperators] builds, the one left fold of the
    enabled clauses, so the preview has parentheses exactly around the
    nodes that lie in a node of the other connector. *)
Theorem preview_is_the_text_of_the_tree :
  forall filters : list SimpleFilter,
    KibanaFilterUtils.buildPreviewString filters
    = match Spec.build (simpleClausesOf filters) with
      | Some t => render None (mapNode KibanaFilterUtils.formatFilterText t)
      | None => ""%string
      end
    /\ KibanaFilterUtils.buildFilterASTWithOperators filters
       = option_map
           (fun t => embed (mapNode KibanaFilterUtils.toKibanaFilter t))
           (Spec.build (simpleClausesOf filters)).
Proof.
  intros filters. split.
  - unfold KibanaFilterUtils.buildPreviewString, simpleClausesOf.
    destruct (filter KibanaFilterUtils.enabled filters) as [|f0 rest];
      [reflexivity|].
    cbn [map Spec.build fst snd].
    pose proof (buildPreviewWithGrouping_render
                  (KibanaFilterUtils.formatFilterText f0)
                  (map (fun f => (logicOrAnd (logic f),
                                  KibanaFilterUtils.formatFilterText f))
                       rest)) as Hr.
    rewrite map_map in Hr. unfold exprOf in Hr. cbn [fst snd] in Hr.
    rewrite Hr. unfold Spec.foldClauses. rewrite mapNode_foldClauses.
    rewrite map_map. reflexivity.
  - rewrite buildFilterASTWithOperators_fold.
    replace (clausesOf filters)
      with (map (fun oc => (fst oc,
                            KibanaFilterUtils.toKibanaFilter (snd oc)))
                (simpleClausesOf filters))
      by (unfold clausesOf, simpleClausesOf; rewrite map_map; reflexivity).
    rewrite build_mapNode.
    destruct (Spec.build (simpleClausesOf filters)); reflexivity.
Qed.

(** ** The filter bar component: AND of runs of OR *)

Section ComponentRuns.
Import KibanaFilterBar.

Lemma collectQueries_app :
  forall (a b : list SimpleFilter) (index : nat),
    collectQueries index (a ++ b)
    = collectQueries index a ++ collectQueries (index + List.length a) b.
Proof.
  induction a as [|r a IH]; intros b index.
  - cbn. rewrite Nat.add_0_r. reflexivity.
  - cbn [app collectQueries List.length].
    replace (index + S (List.length a)) with (S index + List.length a) by lia.
    destruct (filterQuery r); rewrite IH; reflexivity.
Qed.

Lemma groupLoop_or_rows :
  forall (others : list SimpleFilter) (index : nat) (rest : list QueryItem)
         (groups current : list Value),
    (forall r, In r others -> logicOrAnd (logic r) = OR) ->
    groupLoop (collectQueries index others ++ rest) groups current
    = groupLoop rest groups (current ++ queriesOf others).
Proof.
  induction others as [|r others IH]; intros index rest groups current Hor.
  - cbn. rewrite app_nil_r. reflexivity.
  - cbn [collectQueries queriesOf flat_map].
    destruct (filterQuery r) as [q|] eqn:Hq.
    + cbn [app groupLoop itemLogic]. rewrite (Hor r (or_introl eq_refl)).
      rewrite IH by (intros r' Hr'; apply Hor; right; exact Hr').
      cbn [itemQuery]. rewrite <- app_assoc. reflexivity.
    + cbn [app].
      apply IH. intros r' Hr'. apply Hor. right. exact Hr'.
Qed.

Lemma closeGroup_run :
  forall run : list SimpleFilter,
    queriesOf run <> [] -> closeGroup (queriesOf run) = [runDoc run].
Proof.
  intros run H. unfold runDoc.
  destruct (queriesOf run) as [|q [|q' qs]]; [congruence| |]; reflexivity.
Qed.

Lemma groupLoop_runs :
  forall (runs : list (list SimpleFilter)) (index : nat)
         (groups : list Value) (run : list SimpleFilter),
    queriesOf run <> [] ->
    Forall andLedRun runs ->
    (forall r, In r (List.concat runs) -> filterQuery r <> None) ->
    fst (groupLoop (collectQueries index (List.concat runs)) groups
                   (queriesOf run))
    ++ closeGroup (snd (groupLoop (collectQueries index (List.concat runs))
                                  groups (queriesOf run)))
    = groups ++ runDoc run :: map runDoc runs.
Proof.
  induction runs as [|next runs IH]; intros index groups run Hne Hruns Hc.
  - cbn. rewrite closeGroup_run by exact Hne. reflexivity.
  - inversion Hruns as [|? ? [[Hnn Hor] Hand] Hruns']; subst.
    destruct next as [|first others]; [congruence|].
    cbn [List.concat]. rewrite collectQueries_app.
    cbn [app collectQueries].
    destruct (filterQuery first) as [q|] eqn:Hq.
    2:{ exfalso. apply (Hc first); [cbn; left; reflexivity|exact Hq]. }
    cbn [app groupLoop itemLogic]. rewrite (Hand first eq_refl).
    destruct (queriesOf run) as [|q0 qs0] eqn:Hrun; [congruence|].
    rewrite <- Hrun. cbn [itemQuery].
    cbn [tl] in Hor.
    rewrite groupLoop_or_rows by exact Hor.
    assert (Hnext : [q] ++ queriesOf others = queriesOf (first :: others)).
    { cbn [queriesOf flat_map]. rewrite Hq. reflexivity. }
    rewrite Hnext.
    rewrite IH.
    + rewrite closeGroup_run by (rewrite Hrun; discriminate).
      cbn [map]. rewrite <- app_assoc. reflexivity.
    + rewrite <- Hnext. discriminate.
    + exact Hruns'.
    + intros r Hr. apply Hc. cbn [List.concat]. apply in_or_app. right.
      exact Hr.
Qed.

End ComponentRuns.

(** X17.  The filter bar component compiles its rows as an AND of runs of
    OR: when every row compiles and the rows are a run joined by OR
    followed by further runs, each led by a row joined by AND, the query
    is [{bool: {must: [...]}}] over the runs in order, a run of one row
    standing as its query and a longer run as a [should] group with
    [minimum_should_match: 1]. *)
Theorem component_query_is_and_of_or_runs :
  forall (run : list SimpleFilter) (next : list SimpleFilter)
         (runs : list (list SimpleFilter)),
    orRun run ->
    Forall andLedRun (next :: runs) ->
    (forall r, In r (run ++ List.concat (next :: runs)) ->
               KibanaFilterBar.filterQuery r <> None) ->
    KibanaFilterBar.generateQueryDSL (run ++ List.concat (next :: runs))
    = KibanaFilterUtils.wrapQuery
        (boolDoc AND (map runDoc (run :: next :: runs))).
Proof.
  intros run next runs [Hne Hor] Hruns Hc.
  unfold KibanaFilterBar.generateQueryDSL, KibanaFilterBar.groupQueries.
  destruct run as [|first others]; [congruence|].
  rewrite collectQueries_app. cbn [KibanaFilterBar.collectQueries].
  destruct (KibanaFilterBar.filterQuery first) as [q|] eqn:Hq.
  2:{ exfalso. apply (Hc first); [left; reflexivity|exact Hq]. }
  cbn [app KibanaFilterBar.itemQuery]. cbn [tl] in Hor.
  rewrite groupLoop_or_rows by exact Hor.
  assert (Hrun : [q] ++ queriesOf others = queriesOf (first :: others)).
  { cbn [queriesOf flat_map]. rewrite Hq. reflexivity. }
  rewrite Hrun.
  pose proof (groupLoop_runs (next :: runs)
                (0 + List.length (first :: others)) []
                (first :: others)) as Hg.
  destruct (KibanaFilterBar.groupLoop
              (KibanaFilterBar.collectQueries
                 (0 + List.length (first :: others))
                 (List.concat (next :: runs)))
              [] (queriesOf (first :: others))) as [groups current].
  cbn [fst snd] in Hg. rewrite Hg.
  - reflexivity.
  - rewrite <- Hrun. discriminate.
  - exact Hruns.
  - intros r Hr. apply Hc. apply in_or_app. right. exact Hr.
Qed.

(** The rows [status is active], [type is user] joined by AND and
    [type is admin] joined by OR satisfy the hypotheses of
    [component_query_is_and_of_or_runs]. *)
Lemma component_query_witness :
  orRun [Examples.statusActive]
  /\ Forall andLedRun [[Examples.typeUserAnd; Examples.typeAdminOr]]
  /\ KibanaFilterBar.generateQueryDSL
       [Examples.statusActive; Examples.typeUserAnd; Examples.typeAdminOr]
     = KibanaFilterUtils.wrapQuery
         (boolDoc AND
            [runDoc [Examples.statusActive];
             runDoc [Examples.typeUserAnd; Examples.typeAdminOr]]).
Proof.
  assert (H1 : orRun [Examples.statusActive]).
  { split; [discriminate|]. intros r []. }
  assert (H2 : Forall andLedRun [[Examples.typeUserAnd; Examples.typeAdminOr]]).
  { constructor; [|constructor]. split; [split|].
    - discriminate.
    - intros r [<-|[]]. reflexivity.
    - intros r E. injection E as <-. reflexivity. }
  assert (H3 : forall r,
             In r ([Examples.statusActive]
                   ++ List.concat
                        [[Examples.typeUserAnd; Examples.typeAdminOr]]) ->
             KibanaFilterBar.filterQuery r <> None).
  { intros r [<-|[<-|[<-|[]]]]; vm_compute; discriminate. }
  split; [exact H1|]. split; [exact H2|].
  exact (component_query_is_and_of_or_runs [Examples.statusActive]
           [Examples.typeUserAnd; Examples.typeAdminOr] [] H1 H2 H3).
Defined.

(** X18.  When no row compiles to a query (no row at all, or rows without
    a field or an operator, or with nothing to match) the component's
    query is [{query: {bool: {}}}], an empty [bool] and not the match-all
    query the utilities give for no clause. *)
Theorem component_query_without_clause :
  forall rows : list SimpleFilter,
    (forall r, In r rows -> KibanaFilterBar.filterQuery r = None) ->
    KibanaFilterBar.generateQueryDSL rows = emptyBoolQuery
    /\ KibanaFilterUtils.buildEsQueryFromFilters []
       = KibanaFilterUtils.wrapQuery KibanaFilterUtils.match_all
    /\ emptyBoolQuery
       <> KibanaFilterUtils.wrapQuery KibanaFilterUtils.match_all.
Proof.
  intros rows Hnone.
  assert (E : forall index, KibanaFilterBar.collectQueries index rows = []).
  { induction rows as [|r rows IH]; intros index; [reflexivity|].
    cbn [KibanaFilterBar.collectQueries].
    rewrite (Hnone r (or_introl eq_refl)).
    apply IH. intros r' Hr'. apply Hnone. right. exact Hr'. }
  split; [|split].
  - unfold KibanaFilterBar.generateQueryDSL. rewrite E. reflexivity.
  - reflexivity.
  - discriminate.
Qed.

(** A row with no field compiles to no query. *)
Lemma component_query_without_clause_witness :
  (forall r, In r [Examples.clause "" "is" "x" None] ->
             KibanaFilterBar.filterQuery r = None)
  /\ KibanaFilterBar.generateQueryDSL [Examples.clause "" "is" "x" None]
     = emptyBoolQuery.
Proof.
  assert (H : forall r, In r [Examples.clause "" "is" "x" None] ->
                        KibanaFilterBar.filterQuery r = None).
  { intros r [<-|[]]. reflexivity. }
  split; [exact H|].
  exact (proj1 (component_query_without_clause
                  [Examples.clause "" "is" "x" None] H)).
Defined.

(** ** Contiguous index lists in the group manager *)

Section ContiguousIndices.
Import FilterGroupManager.

Lemma isContiguous_seq :
  forall (n a : nat), isContiguous (seq a n) = true.
Proof.
  induction n as [|n IH]; intros a; [reflexivity|].
  destruct n as [|n]; [reflexivity|].
  change (seq a (S (S n))) with (a :: S a :: seq (S (S a)) n).
  cbn [isContiguous].
  replace (Nat.eqb (S a) (a + 1)) with true
    by (symmetry; apply Nat.eqb_eq; lia).
  exact (IH (S a)).
Qed.

Lemma contiguous_is_seq :
  forall (l : list nat) (a : nat),
    isContiguous (a :: l) = true -> a :: l = seq a (S (List.length l)).
Proof.
  induction l as [|b l IH]; intros a H; [reflexivity|].
  cbn [isContiguous] in H. apply andb_true_iff in H. destruct H as [Hb H].
  apply Nat.eqb_eq in Hb. subst b.
  cbn [seq List.length]. f_equal.
  replace (S a) with (a + 1) by lia. apply IH. exact H.
Qed.

Lemma adjustIndices_seq :
  forall (n a index : nat),
    adjustIndices index (seq a n)
    = if Nat.ltb index a then seq (a - 1) n
      else if Nat.ltb index (a + n) then seq a (n - 1)
      else seq a n.
Proof.
  induction n as [|n IH]; intros a index.
  - unfold adjustIndices. cbn [seq filter map].
    destruct (Nat.ltb index a); [reflexivity|].
    destruct (Nat.ltb index (a + 0)); reflexivity.
  - unfold adjustIndices in *. cbn [seq filter].
    destruct (Nat.eqb a index) eqn:E; cbn [negb].
    + apply Nat.eqb_eq in E. subst a.
      rewrite IH.
      replace (Nat.ltb index index) with false
        by (symmetry; apply Nat.ltb_ge; lia).
      replace (Nat.ltb index (S index)) with true
        by (symmetry; apply Nat.ltb_lt; lia).
      replace (Nat.ltb index (index + S n)) with true
        by (symmetry; apply Nat.ltb_lt; lia).
      replace (S index - 1) with index by lia.
      replace (S n - 1) with n by lia. reflexivity.
    + apply Nat.eqb_neq in E. cbn [map]. rewrite IH.
      destruct (Nat.ltb index a) eqn:L.
      * apply Nat.ltb_lt in L.
        replace (Nat.ltb index (S a)) with true
          by (symmetry; apply Nat.ltb_lt; lia).
        replace (S a - 1) with (S (a - 1)) by lia. reflexivity.
      * apply Nat.ltb_ge in L.
        replace (Nat.ltb index (S a)) with false
          by (symmetry; apply Nat.ltb_ge; lia).
        replace (S a + n) with (a + S n) by lia.
        destruct (Nat.ltb index (a + S n)) eqn:L2; [|reflexivity].
        apply Nat.ltb_lt in L2.
        destruct n as [|n]; [lia|].
        replace (S (S n) - 1) with (S n) by lia.
        replace (S n - 1) with n by lia. reflexivity.
Qed.

Lemma includesIdx_seq :
  forall (n a index : nat),
    includesIdx (seq a n) index = Nat.leb a index && Nat.ltb index (a + n).
Proof.
  unfold includesIdx.
  induction n as [|n IH]; intros a index.
  - cbn [seq existsb]. symmetry. apply andb_false_iff.
    destruct (Nat.leb a index) eqn:L; [right|left; reflexivity].
    apply Nat.leb_le in L. apply Nat.ltb_ge. lia.
  - cbn [seq existsb]. rewrite IH.
    destruct (Nat.eqb index a) eqn:E.
    + apply Nat.eqb_eq in E. subst.
      rewrite Nat.leb_refl.
      replace (Nat.ltb a (a + S n)) with true
        by (symmetry; apply Nat.ltb_lt; lia).
      reflexivity.
    + apply Nat.eqb_neq in E. cbn [orb].
      replace (S a + n) with (a + S n) by lia.
      destruct (Nat.ltb index (a + S n)); rewrite ?andb_false_r, ?andb_true_r;
        [|reflexivity].
      destruct (Nat.leb (S a) index) eqn:L1, (Nat.leb a index) eqn:L2;
        try reflexivity.
      * apply Nat.leb_le in L1. apply Nat.leb_gt in L2. lia.
      * apply Nat.leb_gt in L1. apply Nat.leb_le in L2. lia.
Qed.

End ContiguousIndices.

(** X19.  Removing a position from a list of contiguous indices, as
    [removeFilter] does for the group of the removed clause (the index is
    deleted and every greater index decremented), gives contiguous
    indices again: one fewer when the position was in the list, the same
    number otherwise. *)
Theorem adjusted_indices_stay_contiguous :
  forall (index : nat) (indices : list nat),
    FilterGroupManager.isContiguous indices = true ->
    FilterGroupManager.isContiguous
      (FilterGroupManager.adjustIndices index indices) = true
    /\ List.length (FilterGroupManager.adjustIndices index indices)
       = List.length indices
         - (if FilterGroupManager.includesIdx indices index then 1 else 0).
Proof.
  intros index indices H.
  destruct indices as [|a l]; [split; reflexivity|].
  rewrite (contiguous_is_seq l a H).
  rewrite adjustIndices_seq, includesIdx_seq.
  destruct (Nat.ltb index a) eqn:L1.
  - apply Nat.ltb_lt in L1.
    replace (Nat.leb a index) with false
      by (symmetry; apply Nat.leb_gt; lia).
    split; [apply isContiguous_seq|]. cbn [andb]. rewrite !length_seq. lia.
  - apply Nat.ltb_ge in L1.
    replace (Nat.leb a index) with true
      by (symmetry; apply Nat.leb_le; lia).
    cbn [andb].
    destruct (Nat.ltb index (a + S (List.length l)));
      (split; [apply isContiguous_seq|rewrite !length_seq; lia]).
Qed.

(** The indices [[3, 4, 5]] are contiguous. *)
Lemma adjusted_indices_witness :
  FilterGroupManager.isContiguous [3; 4; 5] = true
  /\ FilterGroupManager.adjustIndices 4 [3; 4; 5] = [3; 4]
  /\ FilterGroupManager.isContiguous
       (FilterGroupManager.adjustIndices 4 [3; 4; 5]) = true.
Proof.
  split; [reflexivity|]. split; [reflexivity|].
  exact (proj1 (adjusted_indices_stay_contiguous 4 [3; 4; 5] eq_refl)).
Defined.

(** ** Creating groups keeps the groups well formed *)

Section GroupsStayWellFormed.
Import FilterGroupManager.

Lemma insertSorted_length :
  forall (x : nat) (l : list nat),
    List.length (insertSorted x l) = S (List.length l).
Proof.
  intros x l. induction l as [|y l IH]; cbn; [reflexivity|].
  destruct (Nat.leb x y); cbn; [reflexivity|]. rewrite IH. reflexivity.
Qed.

Lemma sortIndices_length :
  forall l : list nat, List.length (sortIndices l) = List.length l.
Proof.
  unfold sortIndices.
  induction l as [|x l IH]; cbn [fold_right]; [reflexivity|].
  rewrite insertSorted_length, IH. reflexivity.
Qed.

Lemma sortIndices_seq :
  forall (n a : nat), sortIndices (seq a n) = seq a n.
Proof.
  induction n as [|n IH]; intros a; [reflexivity|].
  cbn [seq sortIndices fold_right].
  change (fold_right insertSorted [] (seq (S a) n))
    with (sortIndices (seq (S a) n)).
  rewrite IH. destruct n as [|n]; [reflexivity|].
  cbn [seq insertSorted].
  replace (Nat.leb a (S a)) with true by (symmetry; apply Nat.leb_le; lia).
  reflexivity.
Qed.

Lemma includes_symmetric :
  forall a b : list nat,
    existsb (includesIdx a) b = existsb (includesIdx b) a.
Proof.
  assert (H : forall a b,
             existsb (includesIdx a) b = true ->
             existsb (includesIdx b) a = true).
  { intros a b E. apply existsb_exists in E. destruct E as [x [Hx E]].
    unfold includesIdx in E. apply existsb_exists in E.
    destruct E as [y [Hy E]]. apply Nat.eqb_eq in E. subst y.
    apply existsb_exists. exists x. split; [exact Hy|].
    unfold includesIdx. apply existsb_exists. exists x.
    split; [exact Hx|apply Nat.eqb_refl]. }
  intros a b.
  destruct (existsb (includesIdx a) b) eqn:E1,
           (existsb (includesIdx b) a) eqn:E2; try reflexivity.
  - apply H in E1. congruence.
  - apply H in E2. congruence.
Qed.

Lemma pairwiseDisjoint_filter :
  forall (p : FilterGroupDefinition -> bool)
         (gs : list FilterGroupDefinition),
    pairwiseDisjoint gs = true -> pairwiseDisjoint (filter p gs) = true.
Proof.
  intros p gs. induction gs as [|g gs IH]; intros H; [reflexivity|].
  cbn [pairwiseDisjoint] in H. apply andb_true_iff in H.
  destruct H as [Hg H]. cbn [filter].
  destruct (p g); [|exact (IH H)].
  cbn [pairwiseDisjoint]. rewrite (IH H), andb_true_r.
  apply forallb_forall. intros h Hh. apply filter_In in Hh.
  exact (proj1 (forallb_forall _ _) Hg h (proj1 Hh)).
Qed.

Lemma pairwiseDisjoint_snoc :
  forall (gs : list FilterGroupDefinition) (g : FilterGroupDefinition),
    pairwiseDisjoint gs = true ->
    forallb (fun h => disjointGroups h g) gs = true ->
    pairwiseDisjoint (gs ++ [g]) = true.
Proof.
  induction gs as [|h gs IH]; intros g Hp Hd; [reflexivity|].
  cbn [pairwiseDisjoint forallb app] in *.
  apply andb_true_iff in Hp. destruct Hp as [Hh Hp].
  apply andb_true_iff in Hd. destruct Hd as [Hhg Hd].
  rewrite forallb_app, Hh. cbn [forallb]. rewrite Hhg.
  cbn [andb]. exact (IH g Hp Hd).
Qed.

Lemma groupsInvariant_with_new_group :
  forall (gs : list FilterGroupDefinition) (newId : string)
         (gtype : LogicOp) (sorted : list nat),
    groupsInvariant gs = true ->
    2 <= List.length sorted ->
    isContiguous sorted = true ->
    groupsInvariant
      (filter (fun g => negb (overlaps sorted g)) gs
       ++ [mkGroup newId gtype sorted None]) = true.
Proof.
  intros gs newId gtype sorted Hinv Hlen Hc.
  unfold groupsInvariant in *. apply andb_true_iff in Hinv.
  destruct Hinv as [Hwf Hdis]. apply andb_true_iff. split.
  - rewrite forallb_app. apply andb_true_iff. split.
    + apply forallb_forall. intros g Hg. apply filter_In in Hg.
      exact (proj1 (forallb_forall _ _) Hwf g (proj1 Hg)).
    + cbn [forallb]. unfold groupWellFormed. cbn [filterIndices].
      rewrite Hc.
      replace (Nat.leb 2 (List.length sorted)) with true
        by (symmetry; apply Nat.leb_le; exact Hlen).
      reflexivity.
  - apply pairwiseDisjoint_snoc.
    + apply pairwiseDisjoint_filter. exact Hdis.
    + apply forallb_forall. intros g Hg. apply filter_In in Hg.
      destruct Hg as [_ Hg]. unfold disjointGroups. cbn [filterIndices].
      unfold overlaps in Hg. rewrite includes_symmetric. exact Hg.
Qed.

Lemma createGroupFromSelection_emits :
  forall (gtype : LogicOp) (newId : string) (c : Component),
    2 <= List.length (selectedIndices c) ->
    isContiguous (sortIndices (selectedIndices c)) = true ->
    groupsEmitted (emitted (createGroupFromSelection gtype newId c))
    = groupsEmitted (emitted c)
      ++ [filter (fun g => negb (overlaps (sortIndices (selectedIndices c))
                                          g))
                 (groups c)
          ++ [mkGroup newId gtype (sortIndices (selectedIndices c)) None]]
    /\ warnings (emitted (createGroupFromSelection gtype newId c))
       = warnings (emitted c)
    /\ selectedIndices (createGroupFromSelection gtype newId c) = [].
Proof.
  intros gtype newId c Hlen Hc. unfold createGroupFromSelection.
  replace (Nat.ltb (List.length (selectedIndices c)) 2) with false
    by (symmetry; apply Nat.ltb_ge; exact Hlen).
  rewrite Hc. cbn [negb].
  cbn [withSelection emitFilterState emit updateFilterMetadata withFilters
       emitted selectedIndices lastClickedIndex groups filters customLabel
       separators].
  split; [|split].
  - unfold groupsEmitted. rewrite !flat_map_app. cbn [flat_map app].
    rewrite app_nil_r. reflexivity.
  - unfold warnings. rewrite !flat_map_app. cbn [flat_map app].
    rewrite !app_nil_r. reflexivity.
  - reflexivity.
Qed.

End GroupsStayWellFormed.

(** X20.  A successful [createGroupFromSelection] keeps the groups well
    formed: when the component's groups each have at least two contiguous
    indices and share no index, so do the groups it sends through
    [groupsChanged], the new group among them. *)
Theorem createGroupFromSelection_keeps_groups_well_formed :
  forall (gtype : LogicOp) (newId : string)
         (c : FilterGroupManager.Component),
    2 <= List.length (FilterGroupManager.selectedIndices c) ->
    FilterGroupManager.isContiguous
      (FilterGroupManager.sortIndices (FilterGroupManager.selectedIndices c))
    = true ->
    FilterGroupManager.groupsInvariant (FilterGroupManager.groups c) = true ->
    exists sent,
      FilterGroupManager.groupsEmitted
        (FilterGroupManager.emitted
           (FilterGroupManager.createGroupFromSelection gtype newId c))
      = FilterGroupManager.groupsEmitted (FilterGroupManager.emitted c)
        ++ [sent]
      /\ FilterGroupManager.groupsInvariant sent = true
      /\ In (mkGroup newId gtype
               (FilterGroupManager.sortIndices
                  (FilterGroupManager.selectedIndices c)) None)
            sent.
Proof.
  intros gtype newId c Hlen Hc Hinv.
  destruct (createGroupFromSelection_emits gtype newId c Hlen Hc)
    as [He _].
  eexists. split; [exact He|]. split.
  - apply groupsInvariant_with_new_group; [exact Hinv| |exact Hc].
    rewrite sortIndices_length. exact Hlen.
  - apply in_or_app. right. left. reflexivity.
Qed.

(** Clauses 1 and 0 selected over three ungrouped clauses satisfy the
    hypotheses of [createGroupFromSelection_keeps_groups_well_formed]. *)
Lemma createGroupFromSelection_well_formed_witness :
  2 <= List.length (FilterGroupManager.selectedIndices Examples.twoSelected)
  /\ exists sent,
       FilterGroupManager.groupsEmitted
         (FilterGroupManager.emitted
            (FilterGroupManager.createGroupFromSelection OR "g"
               Examples.twoSelected))
       = FilterGroupManager.groupsEmitted
           (FilterGroupManager.emitted Examples.twoSelected) ++ [sent]
       /\ FilterGroupManager.groupsInvariant sent = true
       /\ In (mkGroup "g" OR
                (FilterGroupManager.sortIndices
                   (FilterGroupManager.selectedIndices Examples.twoSelected))
                None)
             sent.
Proof.
  assert (H : 2 <= List.length
                     (FilterGroupManager.selectedIndices Examples.twoSelected))
    by (cbn; lia).
  split; [exact H|].
  exact (createGroupFromSelection_keeps_groups_well_formed OR "g"
           Examples.twoSelected H eq_refl eq_refl).
Defined.

(** X21.  A plain click on one clause, a shift click on another and
    [createGroupFromSelection] always make a group: the shift click
    selects every index from the lower clause to the higher, the group
    sent through [groupsChanged] has exactly these indices, and no
    warning is logged. *)
Theorem shift_selection_makes_a_group :
  forall (c : FilterGroupManager.Component) (i j : nat)
         (e : FilterGroupManager.MouseEvent) (gtype : LogicOp)
         (newId : string),
    i <> j ->
    FilterGroupManager.shiftKey e = true ->
    let range := seq (Nat.min i j) (Nat.max i j - Nat.min i j + 1) in
    let picked :=
      FilterGroupManager.selectFilter j (Some e)
        (FilterGroupManager.selectFilter i None c) in
    FilterGroupManager.selectedIndices picked = range
    /\ FilterGroupManager.groupsEmitted
         (FilterGroupManager.emitted
            (FilterGroupManager.createGroupFromSelection gtype newId picked))
       = FilterGroupManager.groupsEmitted (FilterGroupManager.emitted c)
         ++ [filter (fun g => negb (FilterGroupManager.overlaps range g))
                    (FilterGroupManager.groups c)
             ++ [mkGroup newId gtype range None]]
    /\ FilterGroupManager.warnings
         (FilterGroupManager.emitted
            (FilterGroupManager.createGroupFromSelection gtype newId picked))
       = FilterGroupManager.warnings (FilterGroupManager.emitted c).
Proof.
  intros c i j e gtype newId Hij He range picked.
  assert (Hsel : FilterGroupManager.selectedIndices picked = range).
  { unfold picked, FilterGroupManager.selectFilter.
    cbn [FilterGroupManager.withSelection
         FilterGroupManager.selectedIndices
         FilterGroupManager.lastClickedIndex].
    rewrite He. reflexivity. }
  split; [exact Hsel|].
  assert (Hlen : 2 <= List.length (FilterGroupManager.selectedIndices picked)).
  { rewrite Hsel. unfold range. rewrite length_seq. lia. }
  assert (Hc : FilterGroupManager.isContiguous
                 (FilterGroupManager.sortIndices
                    (FilterGroupManager.selectedIndices picked)) = true).
  { rewrite Hsel. unfold range. rewrite sortIndices_seq.
    apply isContiguous_seq. }
  destruct (createGroupFromSelection_emits gtype newId picked Hlen Hc)
    as [Hg [Hw _]].
  rewrite Hg, Hw, Hsel. unfold range at 1 2. rewrite sortIndices_seq.
  split; reflexivity.
Qed.

(** A plain click on clause 2 and a shift click on clause 0 of three
    clauses satisfy the hypotheses of [shift_selection_makes_a_group]. *)
Lemma shift_selection_witness :
  2 <> 0
  /\ FilterGroupManager.shiftKey Examples.shiftClick = true
  /\ FilterGroupManager.selectedIndices
       (FilterGroupManager.selectFilter 0 (Some Examples.shiftClick)
          (FilterGroupManager.selectFilter 2 None Examples.noneSelected))
     = [0; 1; 2].
Proof.
  assert (H : 2 <> 0) by discriminate.
  split; [exact H|]. split; [reflexivity|].
  exact (proj1 (shift_selection_makes_a_group Examples.noneSelected 2 0
                  Examples.shiftClick OR "g" H eq_refl)).
Defined.

(** X22.  [createImplicitGroup] on a clause that has a next clause makes
    the group of the clause and the next one, whatever was selected, and
    logs no warning; on the last clause, or past it, it makes no group
    and only selects the clause. *)
Theorem createImplicitGroup_pairs_with_the_next_clause :
  forall (c : FilterGroupManager.Component) (filterIndex : nat)
         (gtype : LogicOp) (newId : string),
    let c' :=
      FilterGroupManager.createImplicitGroup filterIndex gtype newId c in
    (S filterIndex < List.length (FilterGroupManager.filters c) ->
     FilterGroupManager.groupsEmitted (FilterGroupManager.emitted c')
     = FilterGroupManager.groupsEmitted (FilterGroupManager.emitted c)
       ++ [filter (fun g =>
                     negb (FilterGroupManager.overlaps
                             [filterIndex; filterIndex + 1] g))
                  (FilterGroupManager.groups c)
           ++ [mkGroup newId gtype [filterIndex; filterIndex + 1] None]]
     /\ FilterGroupManager.warnings (FilterGroupManager.emitted c')
        = FilterGroupManager.warnings (FilterGroupManager.emitted c)
     /\ FilterGroupManager.selectedIndices c' = [])
    /\ (List.length (FilterGroupManager.filters c) <= S filterIndex ->
        c' = FilterGroupManager.withSelection [filterIndex]
               (Some filterIndex) c).
Proof.
  intros c filterIndex gtype newId c'. subst c'.
  unfold FilterGroupManager.createImplicitGroup. split.
  - intros Hnext.
    replace (Nat.leb (List.length (FilterGroupManager.filters c) - 1)
                     filterIndex)
      with false by (symmetry; apply Nat.leb_gt; lia).
    set (picked := FilterGroupManager.withSelection
                     [filterIndex; filterIndex + 1]
                     (FilterGroupManager.lastClickedIndex c) c).
    assert (Hs : FilterGroupManager.sortIndices
                   (FilterGroupManager.selectedIndices picked)
                 = [filterIndex; filterIndex + 1]).
    { cbn. replace (Nat.leb filterIndex (filterIndex + 1)) with true
        by (symmetry; apply Nat.leb_le; lia).
      reflexivity. }
    assert (Hc : FilterGroupManager.isContiguous
                   (FilterGroupManager.sortIndices
                      (FilterGroupManager.selectedIndices picked)) = true).
    { rewrite Hs. cbn. rewrite Nat.eqb_refl. reflexivity. }
    destruct (createGroupFromSelection_emits gtype newId picked
                (le_n 2) Hc) as [Hg [Hw Hsel]].
    rewrite Hg, Hw, Hsel, Hs. repeat split; reflexivity.
  - intros Hlast.
    replace (Nat.leb (List.length (FilterGroupManager.filters c) - 1)
                     filterIndex)
      with true by (symmetry; apply Nat.leb_le; lia).
    reflexivity.
Qed.

(** ** The selection *)

Section Selection.
Import FilterGroupManager.

Lemma includesIdx_In :
  forall (l : list nat) (x : nat), includesIdx l x = true <-> In x l.
Proof.
  intros l x. unfold includesIdx. rewrite existsb_exists. split.
  - intros [y [Hy E]]. apply Nat.eqb_eq in E. subst y. exact Hy.
  - intros H. exists x. split; [exact H|apply Nat.eqb_refl].
Qed.

Lemma includesIdx_ext :
  forall (l l' : list nat) (x : nat),
    (In x l' <-> In x l) -> includesIdx l' x = includesIdx l x.
Proof.
  intros l l' x H.
  destruct (includesIdx l' x) eqn:E1, (includesIdx l x) eqn:E2;
    try reflexivity.
  - apply includesIdx_In, H, includesIdx_In in E1. congruence.
  - apply includesIdx_In, H, includesIdx_In in E2. congruence.
Qed.

Lemma removeFirst_In :
  forall (l : list nat) (x k : nat),
    NoDup l -> (In k (removeFirst x l) <-> In k l /\ k <> x).
Proof.
  induction l as [|a l IH]; intros x k Hnd; cbn [removeFirst].
  - cbn. tauto.
  - inversion Hnd as [|? ? Ha Hnd']; subst.
    destruct (Nat.eqb a x) eqn:E.
    + apply Nat.eqb_eq in E. subst a. cbn [In]. split.
      * intros Hk. split; [right; exact Hk|]. intros ->. contradiction.
      * intros [[->|Hk] Hne]; [congruence|exact Hk].
    + apply Nat.eqb_neq in E. cbn [In]. rewrite (IH x k Hnd'). split.
      * intros [->|[Hk Hne]]; [split; [left; reflexivity|exact E]|].
        split; [right; exact Hk|exact Hne].
      * intros [[->|Hk] Hne]; [left; reflexivity|right; split; assumption].
Qed.

Lemma removeFirst_NoDup :
  forall (l : list nat) (x : nat), NoDup l -> NoDup (removeFirst x l).
Proof.
  induction l as [|a l IH]; intros x Hnd; cbn [removeFirst];
    [constructor|].
  inversion Hnd as [|? ? Ha Hnd']; subst.
  destruct (Nat.eqb a x); [exact Hnd'|].
  constructor; [|exact (IH x Hnd')].
  intros Hin. apply (removeFirst_In l x a Hnd') in Hin. tauto.
Qed.

Lemma NoDup_snoc :
  forall (l : list nat) (x : nat), NoDup l -> ~ In x l -> NoDup (l ++ [x]).
Proof.
  induction l as [|a l IH]; intros x Hnd Hx; cbn [app].
  - constructor; [intros []|constructor].
  - inversion Hnd as [|? ? Ha Hnd']; subst. constructor.
    + intros Hin. apply in_app_or in Hin. destruct Hin as [Hin|[->|[]]].
      * contradiction.
      * apply Hx. left. reflexivity.
    + apply IH; [exact Hnd'|]. intros Hin. apply Hx. right. exact Hin.
Qed.

End Selection.

(** X23.  The selection never holds an index twice, and a click with the
    ctrl or meta key (and no shift key) toggles the clicked clause: it is
    selected afterwards exactly when it was not before, and the other
    clauses stay as they were. *)
Theorem ctrl_click_toggles_the_clause :
  forall (c : FilterGroupManager.Component) (index : nat),
    NoDup (FilterGroupManager.selectedIndices c) ->
    (forall event,
        NoDup (FilterGroupManager.selectedIndices
                 (FilterGroupManager.selectFilter index event c)))
    /\ (forall e,
           FilterGroupManager.shiftKey e = false ->
           FilterGroupManager.ctrlKey e || FilterGroupManager.metaKey e
           = true ->
           let c' := FilterGroupManager.selectFilter index (Some e) c in
           FilterGroupManager.isSelected c' index
           = negb (FilterGroupManager.isSelected c index)
           /\ forall k, k <> index ->
                        FilterGroupManager.isSelected c' k
                        = FilterGroupManager.isSelected c k).
Proof.
  intros c index Hnd.
  assert (Htoggle :
            NoDup (if FilterGroupManager.includesIdx
                        (FilterGroupManager.selectedIndices c) index
                   then FilterGroupManager.removeFirst index
                          (FilterGroupManager.selectedIndices c)
                   else FilterGroupManager.selectedIndices c ++ [index])).
  { destruct (FilterGroupManager.includesIdx
                (FilterGroupManager.selectedIndices c) index) eqn:E.
    - apply removeFirst_NoDup. exact Hnd.
    - apply NoDup_snoc; [exact Hnd|]. intros Hin.
      apply includesIdx_In in Hin. congruence. }
  assert (Hone : NoDup [index]) by (constructor; [intros []|constructor]).
  split.
  - intros [e|]; unfold FilterGroupManager.selectFilter;
      cbn [FilterGroupManager.withSelection
           FilterGroupManager.selectedIndices]; [|exact Hone].
    destruct (FilterGroupManager.shiftKey e),
             (FilterGroupManager.lastClickedIndex c);
      try apply seq_NoDup;
      destruct (FilterGroupManager.ctrlKey e
                || FilterGroupManager.metaKey e); assumption.
  - intros e Hshift Hctrl c'. subst c'.
    unfold FilterGroupManager.isSelected, FilterGroupManager.selectFilter.
    cbn [FilterGroupManager.withSelection
         FilterGroupManager.selectedIndices].
    rewrite Hshift, Hctrl.
    destruct (FilterGroupManager.includesIdx
                (FilterGroupManager.selectedIndices c) index) eqn:E.
    + split.
      * cbn [negb]. destruct (FilterGroupManager.includesIdx
                                (FilterGroupManager.removeFirst index
                                   (FilterGroupManager.selectedIndices c))
                                index) eqn:E'; [|reflexivity].
        apply includesIdx_In in E'.
        apply (removeFirst_In _ index index Hnd) in E'. tauto.
      * intros k Hk. apply includesIdx_ext.
        rewrite (removeFirst_In _ index k Hnd). tauto.
    + split.
      * cbn [negb]. apply includesIdx_In. apply in_or_app. right. left.
        reflexivity.
      * intros k Hk. apply includesIdx_ext. split.
        -- intros Hin. apply in_app_or in Hin.
           destruct Hin as [Hin|[->|[]]]; [exact Hin|congruence].
        -- intros Hin. apply in_or_app. left. exact Hin.
Qed.

(** Nothing is selected in [noneSelected]: a ctrl click selects the
    clause. *)
Lemma ctrl_click_witness :
  NoDup (FilterGroupManager.selectedIndices Examples.noneSelected)
  /\ FilterGroupManager.isSelected
       (FilterGroupManager.selectFilter 1 (Some Examples.ctrlClick)
          Examples.noneSelected) 1
     = true.
Proof.
  assert (H : NoDup (FilterGroupManager.selectedIndices
                       Examples.noneSelected)) by constructor.
  split; [exact H|].
  exact (proj1 (proj2 (ctrl_click_toggles_the_clause Examples.noneSelected
                         1 H)
                  Examples.ctrlClick eq_refl eq_refl)).
Defined.

(** ** The separators *)

Section Separators.
Import FilterGroupManager.

Lemma determineSeparator_between :
  forall (c : Component) (index : nat),
    1 <= index < List.length (filters c) ->
    exists s, determineSeparator c index = Some s /\ sepIndex s = index.
Proof.
  intros c index [H1 H2]. unfold determineSeparator.
  destruct (nth_error (filters c) (index - 1)) as [prev|] eqn:Ep.
  2:{ apply nth_error_None in Ep. lia. }
  destruct (nth_error (filters c) index) as [curr|] eqn:Ec.
  2:{ apply nth_error_None in Ec. lia. }
  destruct (groupIdAt (filters c) (index - 1)) as [p|],
           (groupIdAt (filters c) index) as [q|];
    try (eexists; split; reflexivity).
  destruct (String.eqb p q); eexists; split; reflexivity.
Qed.

Lemma find_separator :
  forall (c : Component) (count first index : nat),
    1 <= first ->
    count = 0 \/ first + count <= List.length (filters c) ->
    find (fun s => Nat.eqb (sepIndex s) index)
         (flat_map (fun i => match determineSeparator c i with
                             | Some s => [s]
                             | None => []
                             end) (seq first count))
    = if Nat.leb first index && Nat.ltb index (first + count)
      then determineSeparator c index
      else None.
Proof.
  intros c count. induction count as [|count IH]; intros first index H1 H2.
  - cbn [seq flat_map find].
    replace (Nat.leb first index && Nat.ltb index (first + 0)) with false;
      [reflexivity|].
    symmetry. apply andb_false_iff.
    destruct (Nat.leb first index) eqn:L; [right|left; reflexivity].
    apply Nat.leb_le in L. apply Nat.ltb_ge. lia.
  - cbn [seq flat_map].
    destruct (determineSeparator_between c first) as [s [Hs Hi]]; [lia|].
    rewrite Hs. cbn [app find]. rewrite Hi.
    rewrite IH by lia.
    destruct (Nat.eqb first index) eqn:E.
    + apply Nat.eqb_eq in E. subst index.
      rewrite Nat.leb_refl.
      replace (Nat.ltb first (first + S count)) with true
        by (symmetry; apply Nat.ltb_lt; lia).
      cbn [andb]. symmetry. exact Hs.
    + apply Nat.eqb_neq in E.
      replace (S first + count) with (first + S count) by lia.
      destruct (Nat.ltb index (first + S count));
        rewrite ?andb_false_r; [|reflexivity].
      rewrite !andb_true_r.
      destruct (Nat.leb (S first) index) eqn:L1,
               (Nat.leb first index) eqn:L2; try reflexivity.
      * apply Nat.leb_le in L1. apply Nat.leb_gt in L2. lia.
      * apply Nat.leb_gt in L1. apply Nat.leb_le in L2. lia.
Qed.

Lemma separator_indices :
  forall (c : Component) (count first : nat),
    1 <= first ->
    count = 0 \/ first + count <= List.length (filters c) ->
    map sepIndex
        (flat_map (fun i => match determineSeparator c i with
                            | Some s => [s]
                            | None => []
                            end) (seq first count))
    = seq first count.
Proof.
  intros c count. induction count as [|count IH]; intros first H1 H2.
  - reflexivity.
  - cbn [seq flat_map].
    destruct (determineSeparator_between c first) as [s [Hs Hi]]; [lia|].
    rewrite Hs. cbn [app map]. rewrite Hi, IH by lia. reflexivity.
Qed.

End Separators.

(** X24.  [calculateSeparators] stores one separator for each place
    between two clauses, in order: their indices run from 1 to the number
    of clauses less one.  [getSeparator] then finds, for such a place, the
    separator computed for it, and for any other index none, where
    [getSeparatorType] answers AND and [isGroupBoundary] false. *)
Theorem calculateSeparators_then_getSeparator :
  forall c : FilterGroupManager.Component,
    let c' := FilterGroupManager.calculateSeparators c in
    let count := List.length (FilterGroupManager.filters c) in
    map FilterGroupManager.sepIndex (FilterGroupManager.separators c')
    = seq 1 (count - 1)
    /\ (forall index,
           1 <= index < count ->
           exists s,
             FilterGroupManager.getSeparator c' index = Some s
             /\ FilterGroupManager.determineSeparator c index = Some s
             /\ FilterGroupManager.sepIndex s = index)
    /\ (forall index prev,
           index = 0 \/ count <= index ->
           FilterGroupManager.getSeparator c' index = None
           /\ FilterGroupManager.getSeparatorType c' index = AND
           /\ FilterGroupManager.isGroupBoundaryAt c' prev index = false).
Proof.
  intros c c' count. subst c' count.
  unfold FilterGroupManager.getSeparatorType,
    FilterGroupManager.isGroupBoundaryAt, FilterGroupManager.getSeparator,
    FilterGroupManager.calculateSeparators.
  cbn [FilterGroupManager.withSeparators FilterGroupManager.separators].
  split; [|split].
  - apply separator_indices; lia.
  - intros index H.
    destruct (determineSeparator_between c index H) as [s [Hs Hi]].
    exists s. rewrite find_separator by lia.
    replace (Nat.leb 1 index) with true
      by (symmetry; apply Nat.leb_le; lia).
    replace (Nat.ltb index
               (1 + (List.length (FilterGroupManager.filters c) - 1)))
      with true by (symmetry; apply Nat.ltb_lt; lia).
    repeat split; assumption.
  - intros index prev H. rewrite find_separator by lia.
    replace (Nat.leb 1 index
             && Nat.ltb index
                  (1 + (List.length (FilterGroupManager.filters c) - 1)))
      with false; [repeat split; reflexivity|].
    symmetry. apply andb_false_iff.
    destruct index as [|index]; [left; reflexivity|].
    destruct H as [H|H]; [discriminate|].
    right. apply Nat.ltb_ge. lia.
Qed.

(** ** Dissolving a group *)

Section Dissolve.
Import FilterGroupManager.

Lemma setGroupMeta_length :
  forall (fs : list GroupedFilter) (idx : nat)
         (m : option GroupedFilterMetadata),
    List.length (setGroupMeta idx m fs) = List.length fs.
Proof.
  induction fs as [|f fs IH]; intros idx m; [destruct idx; reflexivity|].
  destruct idx as [|idx]; cbn; [reflexivity|]. rewrite IH. reflexivity.
Qed.

Lemma clearMetadata_other :
  forall (indices : list nat) (fs : list GroupedFilter) (idx : nat),
    ~ In idx indices ->
    nth_error (clearMetadata indices fs) idx = nth_error fs idx.
Proof.
  unfold clearMetadata.
  induction indices as [|i indices IH]; intros fs idx Hn; [reflexivity|].
  cbn [fold_left]. rewrite IH by (intros H; apply Hn; right; exact H).
  apply setGroupMeta_other. intros ->. apply Hn. left. reflexivity.
Qed.

Lemma clearMetadata_cleared :
  forall (indices : list nat) (fs : list GroupedFilter) (idx : nat)
         (f : GroupedFilter),
    nth_error fs idx = Some (mkGroupedFilter (base f) None) ->
    nth_error (clearMetadata indices fs) idx
    = Some (mkGroupedFilter (base f) None).
Proof.
  unfold clearMetadata.
  induction indices as [|i indices IH]; intros fs idx f H; [exact H|].
  cbn [fold_left]. apply IH.
  destruct (Nat.eq_dec idx i) as [->|Hne].
  - rewrite (setGroupMeta_same fs i None _ H). reflexivity.
  - rewrite setGroupMeta_other by exact Hne. exact H.
Qed.

Lemma clearMetadata_member :
  forall (indices : list nat) (fs : list GroupedFilter) (idx : nat)
         (f : GroupedFilter),
    In idx indices ->
    nth_error fs idx = Some f ->
    nth_error (clearMetadata indices fs) idx
    = Some (mkGroupedFilter (base f) None).
Proof.
  induction indices as [|i indices IH]; intros fs idx f Hin Hf;
    [contradiction|].
  change (clearMetadata (i :: indices) fs)
    with (clearMetadata indices (setGroupMeta i None fs)).
  destruct (Nat.eq_dec idx i) as [->|Hne].
  - apply clearMetadata_cleared.
    rewrite (setGroupMeta_same fs i None f Hf). reflexivity.
  - destruct Hin as [->|Hin]; [congruence|].
    apply IH; [exact Hin|].
    rewrite setGroupMeta_other by exact Hne. exact Hf.
Qed.

Lemma groupsInvariant_filter :
  forall (p : FilterGroupDefinition -> bool)
         (gs : list FilterGroupDefinition),
    groupsInvariant gs = true -> groupsInvariant (filter p gs) = true.
Proof.
  intros p gs H. unfold groupsInvariant in *.
  apply andb_true_iff in H. destruct H as [Hwf Hd].
  apply andb_true_iff. split.
  - apply forallb_forall. intros g Hg. apply filter_In in Hg.
    exact (proj1 (forallb_forall _ _) Hwf g (proj1 Hg)).
  - apply pairwiseDisjoint_filter. exact Hd.
Qed.

End Dissolve.

(** X25.  [removeGroup] with the identifier of no group changes nothing
    and sends nothing.  With the identifier of a group it sends through
    [groupsChanged] the groups that carry another identifier, in order,
    which are well formed when the groups were; it clears the group
    metadata of the group's member clauses and leaves the other clauses
    alone. *)
Theorem removeGroup_dissolves_the_group :
  forall (gid : string) (c : FilterGroupManager.Component),
    (FilterGroupManager.findGroup gid (FilterGroupManager.groups c) = None ->
     FilterGroupManager.removeGroup gid c = c)
    /\ (forall group,
           FilterGroupManager.findGroup gid (FilterGroupManager.groups c)
           = Some group ->
           let c' := FilterGroupManager.removeGroup gid c in
           let others := filter (otherThan gid)
                                (FilterGroupManager.groups c) in
           FilterGroupManager.groupsEmitted (FilterGroupManager.emitted c')
           = FilterGroupManager.groupsEmitted (FilterGroupManager.emitted c)
             ++ [others]
           /\ (FilterGroupManager.groupsInvariant
                 (FilterGroupManager.groups c) = true ->
               FilterGroupManager.groupsInvariant others = true)
           /\ (forall idx f,
                  In idx (filterIndices group) ->
                  nth_error (FilterGroupManager.filters c) idx = Some f ->
                  nth_error (FilterGroupManager.filters c') idx
                  = Some (mkGroupedFilter (base f) None))
           /\ (forall idx,
                  ~ In idx (filterIndices group) ->
                  nth_error (FilterGroupManager.filters c') idx
                  = nth_error (FilterGroupManager.filters c) idx)).
Proof.
  intros gid c. unfold FilterGroupManager.removeGroup. split.
  - intros E. rewrite E. reflexivity.
  - intros group E. rewrite E.
    cbn [FilterGroupManager.calculateSeparators
         FilterGroupManager.withSeparators
         FilterGroupManager.emitFilterState FilterGroupManager.emit
         FilterGroupManager.withFilters FilterGroupManager.emitted
         FilterGroupManager.filters FilterGroupManager.groups].
    split; [|split; [|split]].
    + unfold FilterGroupManager.groupsEmitted. rewrite !flat_map_app.
      cbn [flat_map app]. rewrite app_nil_r. reflexivity.
    + apply groupsInvariant_filter.
    + intros idx f Hin Hf. apply clearMetadata_member; assumption.
    + intros idx Hn. apply clearMetadata_other. exact Hn.
Qed.

(** ** The host's removal of a clause of a two-member group *)

Section HostRemoval.
Import FilterGroupManager DashboardFilterWrapper.

Lemma removeAt_cons :
  forall (A : Type) (a : A) (l : list A) (i : nat),
    removeAt (S i) (a :: l) = a :: removeAt i l.
Proof. reflexivity. Qed.

Lemma removeAt_setGroupMeta :
  forall (fs : list GroupedFilter) (i : nat)
         (m : option GroupedFilterMetadata),
    removeAt i (setGroupMeta i m fs) = removeAt i fs.
Proof.
  induction fs as [|f fs IH]; intros i m; [destruct i; reflexivity|].
  destruct i as [|i]; [reflexivity|].
  cbn [setGroupMeta]. rewrite !removeAt_cons, IH. reflexivity.
Qed.

Lemma removeAt_later_setGroupMeta :
  forall (fs : list GroupedFilter) (i : nat)
         (m : option GroupedFilterMetadata),
    removeAt (S i) (setGroupMeta i m fs)
    = setGroupMeta i m (removeAt (S i) fs).
Proof.
  induction fs as [|f fs IH]; intros i m; [destruct i; reflexivity|].
  destruct i as [|i].
  - cbn [setGroupMeta]. rewrite !removeAt_cons. reflexivity.
  - cbn [setGroupMeta]. rewrite !removeAt_cons. cbn [setGroupMeta].
    rewrite IH. reflexivity.
Qed.

Lemma nth_error_removeAt :
  forall (A : Type) (l : list A) (i : nat),
    nth_error (removeAt i l) i = nth_error l (S i).
Proof.
  intros A l. induction l as [|a l IH]; intros i.
  - destruct i; reflexivity.
  - destruct i as [|i]; [reflexivity|].
    rewrite removeAt_cons. cbn [nth_error]. apply IH.
Qed.

Lemma removeAt_length :
  forall (A : Type) (l : list A) (i : nat),
    i < List.length l -> S (List.length (removeAt i l)) = List.length l.
Proof.
  intros A l. induction l as [|a l IH]; intros i H; [cbn in H; lia|].
  destruct i as [|i]; [reflexivity|].
  rewrite removeAt_cons. cbn [List.length] in *. rewrite IH by lia.
  reflexivity.
Qed.

End HostRemoval.

(** X26.  The host's [removeFilter] on a member of a two-member group
    [[i, i + 1]] dissolves the group, but clears the group metadata at
    position [i] only, before the clause is taken out.  Removing the
    first member therefore clears the clause that is removed and leaves
    the surviving member, which moves to position [i], with the metadata
    of the dissolved group; removing the second member clears the
    survivor. *)
Theorem host_removal_of_a_pair_member :
  forall (fs : list GroupedFilter) (gs : list FilterGroupDefinition)
         (i k : nat) (gid : string) (g : FilterGroupDefinition),
    DashboardFilterWrapper.findIndex gid gs = Some k ->
    nth_error gs k = Some g ->
    filterIndices g = [i; i + 1] ->
    i + 1 < List.length fs ->
    (FilterGroupManager.groupIdAt fs i = Some gid ->
     DashboardFilterWrapper.removeFilter i (fs, gs)
     = Some (DashboardFilterWrapper.removeAt i fs,
             DashboardFilterWrapper.removeAt k gs)
     /\ nth_error (DashboardFilterWrapper.removeAt i fs) i
        = nth_error fs (i + 1))
    /\ (FilterGroupManager.groupIdAt fs (i + 1) = Some gid ->
        DashboardFilterWrapper.removeFilter (i + 1) (fs, gs)
        = Some (FilterGroupManager.setGroupMeta i None
                  (DashboardFilterWrapper.removeAt (i + 1) fs),
                DashboardFilterWrapper.removeAt k gs)).
Proof.
  intros fs gs i k gid g Hk Hg Hidx Hlen.
  assert (Hfirst : FilterGroupManager.adjustIndices i [i; i + 1] = [i]).
  { unfold FilterGroupManager.adjustIndices. cbn [filter].
    rewrite Nat.eqb_refl.
    replace (Nat.eqb (i + 1) i) with false
      by (symmetry; apply Nat.eqb_neq; lia).
    cbn [negb map].
    replace (Nat.ltb i (i + 1)) with true
      by (symmetry; apply Nat.ltb_lt; lia).
    f_equal. lia. }
  assert (Hsecond : FilterGroupManager.adjustIndices (i + 1) [i; i + 1]
                    = [i]).
  { unfold FilterGroupManager.adjustIndices. cbn [filter].
    rewrite Nat.eqb_refl.
    replace (Nat.eqb i (i + 1)) with false
      by (symmetry; apply Nat.eqb_neq; lia).
    cbn [negb map].
    replace (Nat.ltb (i + 1) i) with false
      by (symmetry; apply Nat.ltb_ge; lia).
    reflexivity. }
  split; intros Hgid; unfold DashboardFilterWrapper.removeFilter;
    rewrite Hgid, Hk, Hg, Hidx.
  - rewrite Hfirst. cbn [List.length Nat.ltb Nat.leb].
    unfold FilterGroupManager.clearMetadata. cbn [fold_left].
    rewrite removeAt_setGroupMeta.
    pose proof (removeAt_length _ fs i ltac:(lia)) as Hl.
    split.
    + destruct (DashboardFilterWrapper.removeAt i fs) as [|f rest];
        [cbn [List.length] in Hl; lia|reflexivity].
    + replace (i + 1) with (S i) by lia. apply nth_error_removeAt.
  - rewrite Hsecond. cbn [List.length Nat.ltb Nat.leb].
    unfold FilterGroupManager.clearMetadata. cbn [fold_left].
    replace (i + 1) with (S i) by lia.
    rewrite removeAt_later_setGroupMeta.
    pose proof (removeAt_length _ fs (S i) ltac:(lia)) as Hl.
    pose proof (setGroupMeta_length
                  (DashboardFilterWrapper.removeAt (S i) fs) i None) as Hs.
    destruct (FilterGroupManager.setGroupMeta i None
                (DashboardFilterWrapper.removeAt (S i) fs)) as [|f rest];
      [cbn [List.length] in Hs; lia|reflexivity].
Qed.

(** Two clauses tagged [G] and the group [G = [0, 1]] satisfy the
    hypotheses of [host_removal_of_a_pair_member]: after the removal of
    clause 0 the clause that is left still carries the group [G]. *)
Lemma host_removal_witness :
  DashboardFilterWrapper.findIndex "G" [Examples.pairGroup] = Some 0
  /\ nth_error [Examples.pairGroup] 0 = Some Examples.pairGroup
  /\ filterIndices Examples.pairGroup = [0; 0 + 1]
  /\ 0 + 1 < List.length Examples.pairOfMembers
  /\ FilterGroupManager.groupIdAt Examples.pairOfMembers 0 = Some "G"%string
  /\ DashboardFilterWrapper.removeFilter 0
       (Examples.pairOfMembers, [Examples.pairGroup])
     = Some ([Examples.member "b" (Some "G"%string)], []).
Proof.
  assert (H4 : 0 + 1 < List.length Examples.pairOfMembers) by (cbn; lia).
  split; [reflexivity|]. split; [reflexivity|]. split; [reflexivity|].
  split; [exact H4|]. split; [reflexivity|].
  exact (proj1 (proj1 (host_removal_of_a_pair_member
                         Examples.pairOfMembers [Examples.pairGroup]
                         0 0 "G" Examples.pairGroup
                         eq_refl eq_refl eq_refl H4)
                  eq_refl)).
Defined.

(** ** The first tree builder *)

Lemma buildFilterAST_converted :
  forall filters : list SimpleFilter,
    KibanaFilterUtils.buildFilterAST filters
    = KibanaFilterUtils.buildASTRecursive
        (map KibanaFilterUtils.toKibanaFilter
             (filter KibanaFilterUtils.enabled filters)) 0.
Proof.
  intros filters. unfold KibanaFilterUtils.buildFilterAST.
  destruct (filter KibanaFilterUtils.enabled filters); reflexivity.
Qed.

(** X27.  [buildFilterAST] does not read the connectors: whatever
    connectors the clauses are given the tree is the same, and two
    enabled clauses are joined in a [must] node also when the second
    carries OR. *)
Theorem buildFilterAST_reads_no_connector :
  forall (filters : list SimpleFilter)
         (relabel : SimpleFilter -> option LogicOp),
    KibanaFilterUtils.buildFilterAST
      (map (fun f => withLogic (relabel f) f) filters)
    = KibanaFilterUtils.buildFilterAST filters
    /\ (forall a b : SimpleFilter,
           disabled a = false -> disabled b = false ->
           KibanaFilterUtils.buildFilterAST [a; b]
           = Some (KibanaFilterUtils.mkMust
                     [KibanaFilterUtils.leaf
                        (KibanaFilterUtils.toKibanaFilter a);
                      KibanaFilterUtils.leaf
                        (KibanaFilterUtils.toKibanaFilter b)])).
Proof.
  intros filters relabel. split.
  - rewrite !buildFilterAST_converted. f_equal.
    induction filters as [|f fs IH]; [reflexivity|].
    cbn [map filter].
    change (KibanaFilterUtils.enabled (withLogic (relabel f) f))
      with (KibanaFilterUtils.enabled f).
    destruct (KibanaFilterUtils.enabled f); cbn [map]; rewrite IH;
      reflexivity.
  - intros a b Ha Hb. rewrite buildFilterAST_converted.
    unfold KibanaFilterUtils.enabled. cbn [filter]. rewrite Ha, Hb.
    reflexivity.
Qed.

(** ** Clauses handed to the filter builder *)

(** X28.  A clause handed to the filter builder by
    [convertFiltersToRows] keeps its field, operator and value but not
    its range bounds.  The service therefore compiles the row of a
    [range] clause to match-all whatever its bounds, while for [is],
    [is_not], [exists] and [does_not_exist], for [is_one_of] and
    [is_not_one_of] on an array, and for [prefix], [wildcard] and
    [query_string] on a truthy value, it compiles the row to the document
    the utilities give for the clause. *)
Theorem converted_clause_compiles_alike_except_ranges :
  forall (now : nat -> string) (index : nat) (f : GroupedFilter),
    field (base f) <> ""%string ->
    exists clause,
      convertedClause now index f = Some clause
      /\ (carriedOver (base f) ->
          FilterAstService.clauseToQueryDSL clause
          = KibanaFilterUtils.buildSingleFilterQuery (base f))
      /\ (operator (base f) = "range"%string ->
          FilterAstService.clauseToQueryDSL clause
          = FilterAstService.match_all).
Proof.
  intros now index f Hfield. eexists. split; [reflexivity|].
  apply String.eqb_neq in Hfield.
  unfold FilterAstService.clauseToQueryDSL,
    KibanaFilterUtils.buildSingleFilterQuery.
  cbn [FilterAstService.rowClause FilterAstService.clauseField
       FilterAstService.clauseValue FilterAstService.clauseOperator].
  rewrite Hfield. split.
  - intros [Hop|[[Hop [items Hv]]|[Hop Hv]]]; cbn [In] in Hop;
      decompose [or] Hop; try contradiction;
      match goal with H : _ = operator (base f) |- _ => rewrite <- H end;
      cbn [String.eqb Ascii.eqb Bool.eqb]; try reflexivity.
    + unfold FilterAstService.clauseValueList.
      cbn [FilterAstService.clauseValues]. rewrite Hv. reflexivity.
    + unfold FilterAstService.clauseValueList.
      cbn [FilterAstService.clauseValues]. rewrite Hv. reflexivity.
    + rewrite Hv. reflexivity.
    + rewrite Hv. reflexivity.
    + rewrite Hv. reflexivity.
  - intros Hop. rewrite Hop. reflexivity.
Qed.

(** A range clause with a field satisfies the hypothesis of
    [converted_clause_compiles_alike_except_ranges]: the utilities
    compile its upper bound, the service compiles its row to
    match-all. *)
Lemma converted_clause_witness :
  field Examples.zeroToHundred <> ""%string
  /\ KibanaFilterUtils.buildSingleFilterQuery Examples.zeroToHundred
     <> VNull
  /\ exists clause,
       convertedClause stoppedClock 0
         (mkGroupedFilter Examples.zeroToHundred None) = Some clause
       /\ FilterAstService.clauseToQueryDSL clause
          = FilterAstService.match_all.
Proof.
  assert (H : field (base (mkGroupedFilter Examples.zeroToHundred None))
              <> ""%string) by discriminate.
  split; [exact H|]. split; [discriminate|].
  destruct (converted_clause_compiles_alike_except_ranges stoppedClock 0
              (mkGroupedFilter Examples.zeroToHundred None) H)
    as [clause [Hc [_ Hr]]].
  exists clause. split; [exact Hc|]. apply Hr. reflexivity.
Defined.

(** ** Removing a clause that matches everything *)

Section RemoveEmptyClause.
Import FilterAstService.

Lemma clauseToQueryDSL_kept_or_match_all :
  forall clause : FilterClause,
    keep (clauseToQueryDSL clause) = true
    \/ clauseToQueryDSL clause = match_all.
Proof.
  intros clause. unfold clauseToQueryDSL.
  repeat match goal with
         | |- context [if ?b then _ else _] => destruct b
         | |- context [match ?l with [] => _ | _ :: _ => _ end] => destruct l
         end;
    try (right; reflexivity); left; reflexivity.
Qed.

Lemma toQueryDSLRecursive_kept_or_match_all :
  forall node : FilterASTNode,
    keep (toQueryDSLRecursive node) = true
    \/ toQueryDSLRecursive node = match_all.
Proof.
  intros [nid clause|nid op children].
  - apply clauseToQueryDSL_kept_or_match_all.
  - cbn [toQueryDSLRecursive].
    destruct (filter keep (map toQueryDSLRecursive children))
      as [|q [|q' qs]] eqn:E.
    + right. reflexivity.
    + left.
      assert (Hin : In q (filter keep (map toQueryDSLRecursive children)))
        by (rewrite E; left; reflexivity).
      apply filter_In in Hin. tauto.
    + left. destruct op; reflexivity.
Qed.

Lemma removeClauseNode_keeps_the_query :
  forall (cid : string) (node : FilterASTNode),
    (forall c, In c (traverse node) -> clauseId c = cid ->
               clauseToQueryDSL c = match_all) ->
    toQueryDSL (removeClauseNode node cid) = toQueryDSLRecursive node.
Proof.
  intros cid. induction node as [nid clause|nid op children IH]
    using ServiceNode_nested_ind; intros Hempty.
  - cbn [removeClauseNode].
    destruct (String.eqb (clauseId clause) cid) eqn:E; [|reflexivity].
    apply String.eqb_eq in E. cbn [toQueryDSL toQueryDSLRecursive].
    symmetry. apply Hempty; [left; reflexivity|exact E].
  - cbn [removeClauseNode toQueryDSLRecursive].
    set (kept := flat_map (fun child => match removeClauseNode child cid with
                                        | Some kept => [kept]
                                        | None => []
                                        end) children).
    assert (E : filter keep (map toQueryDSLRecursive kept)
                = filter keep (map toQueryDSLRecursive children)).
    { subst kept. cbn [traverse] in Hempty. clear nid op.
      induction IH as [|child children Hc _ IHl]; [reflexivity|].
      cbn [flat_map map filter].
      rewrite map_app, filter_app, IHl
        by (intros c Hin; apply Hempty; cbn; apply in_or_app; right;
            exact Hin).
      specialize (Hc (fun c Hin => Hempty c ltac:(cbn; apply in_or_app;
                                                  left; exact Hin))).
      destruct (removeClauseNode child cid) as [child'|].
      - cbn [toQueryDSL] in Hc. cbn [map filter]. rewrite Hc.
        destruct (keep (toQueryDSLRecursive child)); reflexivity.
      - cbn [toQueryDSL] in Hc. rewrite <- Hc. reflexivity. }
    rewrite <- E.
    destruct kept as [|a [|b rest]].
    + reflexivity.
    + cbn [toQueryDSL map filter].
      destruct (toQueryDSLRecursive_kept_or_match_all a) as [Hk|Hm].
      * rewrite Hk. reflexivity.
      * rewrite Hm. reflexivity.
    + reflexivity.
Qed.

End RemoveEmptyClause.

(** X29.  Removing from a tree a clause that compiles to match-all (a
    clause with no field, a range with no bound, an operator the service
    does not know) does not change the query: [toQueryDSL] gives the same
    document before and after [removeClause]. *)
Theorem removing_a_match_all_clause_keeps_the_query :
  forall (ast : option FilterAstService.FilterASTNode) (cid : string),
    (forall c, In c (FilterAstService.getAllClauses ast) ->
               FilterAstService.clauseId c = cid ->
               FilterAstService.clauseToQueryDSL c
               = FilterAstService.match_all) ->
    FilterAstService.toQueryDSL (FilterAstService.removeClause ast cid)
    = FilterAstService.toQueryDSL ast.
Proof.
  intros [node|] cid H; [|reflexivity].
  apply removeClauseNode_keeps_the_query. exact H.
Qed.

(** The clause [e] of [withEmptyClause] has no field: removing it leaves
    the query of the clause [a]. *)
Lemma removing_a_match_all_clause_witness :
  (forall c,
      In c (FilterAstService.getAllClauses (Some Examples.withEmptyClause)) ->
      FilterAstService.clauseId c = "e"%string ->
      FilterAstService.clauseToQueryDSL c = FilterAstService.match_all)
  /\ FilterAstService.toQueryDSL
       (FilterAstService.removeClause (Some Examples.withEmptyClause) "e")
     = FilterAstService.toQueryDSL (Some Examples.withEmptyClause).
Proof.
  assert (H : forall c,
             In c (FilterAstService.getAllClauses
                     (Some Examples.withEmptyClause)) ->
             FilterAstService.clauseId c = "e"%string ->
             FilterAstService.clauseToQueryDSL c
             = FilterAstService.match_all).
  { intros c [<-|[<-|[]]] E; [discriminate|reflexivity]. }
  split; [exact H|].
  exact (removing_a_match_all_clause_keeps_the_query
           (Some Examples.withEmptyClause) "e" H).
Defined.
